(** * whisper-weave: the agentic tool-use orchestration core

    A shallow embedding of the server's orchestration code:

    - [server/src/utils/plugin.utils.ts]            ([hasTools], [toTool], ...,
      [normalizeUrl])
    - [server/src/services/tool-executor.service.ts] ([executeTool], [generateWithTools])
    - [server/src/services/plugin-manager.service.ts] ([getToolsForActionIds],
      [addPlugin], [configurePlugin], [unloadPlugin], [toggleEnabled],
      [generateWithProvider])
    - [server/src/services/connector-handler.service.ts] ([handleConnectorMessage])
    - [server/src/services/chat.service.ts] ([generate], [generateWithAssistant])
    - [server/src/routes/chat.routes.ts] (the handler of [POST /])
    - [server/src/services/scheduler.service.ts] ([addExecution], the tool
      resolution of [executeAutomation], the table of cron jobs)

    Plugins are third-party objects: their behaviour is kept abstract as
    transformers of an external world [W].  Every call the core makes on a
    plugin is recorded in a ghost [trace], so that statements about "which
    calls were issued, in which order, with which arguments" can be made. *)

From Stdlib Require Import ZArith Ascii String List Lia.
From stdpp Require Import base option list gmap strings pretty.

Set Warnings "-register-all".

Local Open Scope string_scope.
Local Open Scope list_scope.

(** ** JavaScript values *)

(** The [unknown] / [Record<string, unknown>] data exchanged with tools:
    JSON data.  Numbers are kept as integers. *)
Inductive Value : Type :=
| VNull
| VBool (b : bool)
| VNum (n : Z)
| VStr (s : string)
| VArr (items : list Value)
| VObj (fields : list (string * Value)).

(** What plugin code returns or throws is [unknown] to the core: JSON data,
    or a value that [JSON.stringify] does not render.  [Undefined] stands
    for [undefined] (and for a function or a symbol, for which the result of
    [JSON.stringify] is [undefined] as well).  [Unserialisable shown why]
    stands for a value that [JSON.stringify] rejects with a [TypeError] of
    message [why], such as a BigInt or an object graph with a cycle;
    [shown] is the text [String] gives for it.  Objects whose getters or
    [toJSON] methods run code of their own are not modelled. *)
Inductive Unknown : Type :=
| Data (v : Value)
| Undefined
| Unserialisable (shown why : string).

(** What a [throw] carries: an [Error] object (with its [message]) or any
    other value. *)
Inductive Thrown : Type :=
| ErrorObj (message : string)
| Raised (v : Unknown).

(** Completion of a call: normal return or exception. *)
Inductive Outcome (A : Type) : Type :=
| Returns (a : A)
| Throws (e : Thrown).
Arguments Returns {A} a.
Arguments Throws {A} e.

Definition outcome_map {A B} (f : A -> B) (o : Outcome A) : Outcome B :=
  match o with
  | Returns a => Returns (f a)
  | Throws e => Throws e
  end.

(** ** JavaScript [Map<string, V>]: keys in insertion order *)

Fixpoint entries_get {V} (key : string) (l : list (string * V)) : option V :=
  match l with
  | [] => None
  | (k, v) :: rest => if String.eqb k key then Some v else entries_get key rest
  end.

(** [set] keeps the position of a key that is already present and appends
    a new key at the end. *)
Fixpoint entries_set {V} (key : string) (v : V) (l : list (string * V)) : list (string * V) :=
  match l with
  | [] => [(key, v)]
  | (k, v') :: rest =>
    if String.eqb k key then (k, v) :: rest else (k, v') :: entries_set key v rest
  end.

Fixpoint entries_delete {V} (key : string) (l : list (string * V)) : list (string * V) :=
  match l with
  | [] => []
  | (k, v) :: rest =>
    if String.eqb k key then rest else (k, v) :: entries_delete key rest
  end.

Record JsMap (V : Type) := MkJsMap { entries : list (string * V) }.
Arguments MkJsMap {V} entries.
Arguments entries {V} j.

#[global] Instance JsMap_empty {V} : Empty (JsMap V) := MkJsMap [].
#[global] Instance JsMap_lookup {V} : Lookup string V (JsMap V) :=
  fun key m => entries_get key (entries m).
#[global] Instance JsMap_insert {V} : Insert string V (JsMap V) :=
  fun key v m => MkJsMap (entries_set key v (entries m)).
#[global] Instance JsMap_delete {V} : Delete string (JsMap V) :=
  fun key m => MkJsMap (entries_delete key (entries m)).

(** Property read [x?.key] ([undefined] is [None]). *)
Definition get_field (key : string) (x : Unknown) : option Value :=
  match x with
  | Data (VObj fields) => entries_get key fields
  | _ => None
  end.

(** ** Shared types ([shared/src/types/plugins.type.ts]) *)

Record Attachment := {
  att_type : string;
  att_url : string;
  att_filename : string;
}.

Record Message := {
  m_id : string;
  m_platform : string;
  m_channelId : string;
  m_userId : string;
  m_username : string;
  m_content : string;
  m_timestamp : Z;
  m_attachments : option (list Attachment);
  m_replyTo : option string;
  m_subject : option string;
}.

Record SendMessageOptions := {
  sm_channelId : string;
  sm_content : string;
  sm_replyTo : option string;
  sm_attachments : option (list Attachment);
}.

Record LLMImagePart := {
  img_data : string;
  img_mediaType : string;
}.

Record ToolUse := {
  tu_id : string;
  tu_name : string;
  tu_input : Value;
}.

Inductive Role : Type := user | assistant | system | tool.

(** [content] is declared a string; the tool loop stores what
    [JSON.stringify] gives it, which is [undefined] ([None]) for a tool that
    returns nothing. *)
Record LLMMessage := {
  role : Role;
  content : option string;
  images : option (list LLMImagePart);
  toolCallId : option string;
  toolName : option string;
  toolUses : option (list ToolUse);
}.

Record LLMResponse := {
  r_content : string;
  r_finishReason : option string;
  r_toolUses : option (list ToolUse);
}.

Record ToolParameter := {
  tp_name : string;
  tp_type : string;
  tp_description : string;
  tp_required : bool;
  tp_enum : option (list string);
}.

Record Tool := {
  t_name : string;
  t_description : string;
  t_parameters : list ToolParameter;
  t_requiresApproval : bool;
}.

(** [options?: { temperature?: number; maxTokens?: number }] *)
Record GenerationOptions := {
  temperature : option Z;
  maxTokens : option Z;
}.

(** [LLMGenerateOptions]: what [LLM.generate] receives. *)
Record LLMGenerateOptions := {
  g_temperature : option Z;
  g_maxTokens : option Z;
  g_tools : option (list Tool);
}.

Record ToolContext := {
  c_userId : string;
  c_channelId : string;
  c_platform : string;
  c_message : Message;
  c_assistantId : option string;
}.

(** [ConversationToolUsage] ("ToolUsageRecord" in the specification). *)
Record ConversationToolUsage := {
  u_toolName : string;
  u_input : Value;
  u_output : Unknown;
  u_error : option string;
  u_durationMs : Z;
}.

Record CatalogEntry := {
  ce_type : string;
  ce_name : string;
}.

Record AssistantRecord := {
  a_id : string;
  a_llmProvider : string;
  a_llmModel : string;
  a_systemPrompt : option string;
  a_tools : list string;
}.

Record PluginRecord := {
  pr_id : string;
  pr_assistant : option string;
}.

Record ConversationMessage := {
  cm_id : string;
  cm_role : Role;
  cm_content : option string;
  cm_created : string;
  cm_toolUsage : option ConversationToolUsage;
}.

Record ConversationRecord := {
  cr_id : string;
  cr_title : string;
  cr_messages : option (list ConversationMessage);
  cr_connectorId : option string;
  cr_channelId : option string;
}.

(** The parsed parts of a URL that the core reads. *)
Record URL := {
  url_filenameParam : option string;
  url_pathname : string;
}.

(** ** Ghost trace of the calls issued on plugins and timers *)

Inductive Event : Type :=
| EvGenerate (obj : nat) (model : string) (messages : list LLMMessage)
    (options : option LLMGenerateOptions) (result : Outcome LLMResponse)
| EvRequestApproval (obj : nat) (t : Tool) (input : Value) (ctx : ToolContext)
    (result : Outcome bool)
| EvHandler (obj : nat) (t : Tool) (input : Value) (ctx : ToolContext)
    (result : Outcome Unknown)
| EvLoadPlugin (type : string) (config : Value) (result : Outcome nat)
| EvShutdown (obj : nat) (result : Outcome unit)
| EvDisconnect (obj : nat) (result : Outcome unit)
| EvOnMessage (obj : nat)
| EvOnSlashCommand (obj : nat)
| EvConnect (obj : nat)
| EvSendMessage (obj : nat) (options : SendMessageOptions) (result : Outcome unit)
| EvSendTyping (obj : nat) (channelId : string) (result : Outcome unit)
| EvSendError (obj : nat) (channelId : string) (message : string) (code : string)
    (result : Outcome unit)
| EvSetInterval (timer : nat)
| EvClearInterval (timer : nat).

(** ** Plugin objects ([server/src/types/plugin-system.ts]) *)

Section Core.

(** The world outside the core: plugin internals, network, clock. *)
Context {W : Type}.

(** An awaited call into plugin code: it may change the world and either
    resolves or rejects. *)
Definition Ext (A : Type) : Type := W -> Outcome A * W.

(** [ToolWithHandler extends Tool]: the schema fields plus [handler]. *)
Record ToolWithHandler := {
  schema : Tool;
  handler : Value -> ToolContext -> Ext Unknown;
}.

Record LLM := {
  generate : string -> list LLMMessage -> option LLMGenerateOptions -> Ext LLMResponse;
}.

(** [connect()] is only ever called without being awaited
    ([connector.connect().catch(...)]): [connect] is the call itself, that
    is, what the method does before it hands back its promise.  How the
    promise settles is not seen by the code that made the call. *)
Record Connector := {
  platform : string;
  connect : W -> W;
  disconnect : Ext unit;
  isConnected : W -> bool;
  onSlashCommand : bool;
  sendMessage : option (SendMessageOptions -> Ext unit);
  sendTyping : option (string -> Ext unit);
  sendError : option (string -> string -> string -> Ext unit);
}.

(** A plugin object.  [obj] is its identity; a capability is present when
    the corresponding method exists on the object (["getTools" in plugin]). *)
Record PluginBase := {
  obj : nat;
  shutdown : Ext unit;
  getConnector : option Connector;
  getLLM : option LLM;
  getTools : option (list ToolWithHandler);
  requestApproval : option (ToolWithHandler -> Value -> ToolContext -> Ext bool);
}.

Record InstanceEntry := {
  id : string;
  type : string;
  name : string;
  config : Value;
  enabled : bool;
  plugin : PluginBase;
}.

(** An awaited call of the PocketBase client ([recordService.update],
    [recordService.create]): it resolves ([inl]), or it rejects with a
    [ClientResponseError], an [Error] object, of which [inr] holds the
    [message]. *)
Definition Pocketbase (A : Type) : Type := W -> (A + string) * W.

(** The runtime the core runs on: JavaScript built-ins, the plugin loader
    ([lib/plugin-loader.ts]) and the database repositories
    ([factories/database-repository.factory.ts]; [getOne] and [findAll]
    catch their errors and never reject).  [JSON_stringify] and [JS_String]
    are the texts of JSON data. *)
Class Runtime := {
  Date_now : W -> Z;
  Date_toISOString : Z -> string;
  JSON_stringify : Value -> string;
  JS_String : Value -> string;
  String_trim : string -> string;
  URL_parse : string -> option URL;
  getExternalCatalogEntries : W -> list CatalogEntry;
  loadExternalPlugin : string -> Value -> Ext PluginBase;
  pluginRepository_getOne : string -> W -> option PluginRecord * W;
  assistantRepository_getOne : string -> W -> option AssistantRecord * W;
  conversationRepository_findAll : W -> list ConversationRecord * W;
  conversationRepository_update : string -> list ConversationMessage -> Pocketbase unit;
  conversationRepository_create : ConversationRecord -> Pocketbase unit;
}.

Context {R : Runtime}.

(** ** [server/src/utils/plugin.utils.ts] *)

Definition hasConnector (p : PluginBase) : bool := bool_decide (is_Some (getConnector p)).
Definition hasTools (p : PluginBase) : bool := bool_decide (is_Some (getTools p)).
Definition hasLLM (p : PluginBase) : bool := bool_decide (is_Some (getLLM p)).

(** Strip handler from [ToolWithHandler]. *)
Definition toTool (t : ToolWithHandler) : Tool := schema t.
Definition toTools (ts : list ToolWithHandler) : list Tool := map toTool ts.

(** ** Process state and the monad of the core *)

Record State := {
  world : W;
  (** module-level [plugins] map of plugin-manager.service.ts *)
  plugins : JsMap InstanceEntry;
  (** store of the [LLMMessage[]] array objects, addressed by reference *)
  arrays : list (list LLMMessage);
  (** module-level cache of connector-handler.service.ts *)
  connectorConversationCache : gmap string (list LLMMessage);
  (** interval timers that are currently armed *)
  timers : list nat;
  next_timer : nat;
  trace : list Event;
}.

Definition M (A : Type) : Type := State -> Outcome A * State.

Definition ret {A} (a : A) : M A := fun s => (Returns a, s).

Definition throw {A} (e : Thrown) : M A := fun s => (Throws e, s).

Definition bind {A B} (m : M A) (k : A -> M B) : M B :=
  fun s =>
    match m s with
    | (Returns a, s') => k a s'
    | (Throws e, s') => (Throws e, s')
    end.

Definition try_catch {A} (m : M A) (h : Thrown -> M A) : M A :=
  fun s =>
    match m s with
    | (Returns a, s') => (Returns a, s')
    | (Throws e, s') => h e s'
    end.

Notation "'let*' x ':=' m 'in' k" := (bind m (fun x => k))
  (at level 10, x name, m at level 100, k at level 200).

(** The state after plugin code has run: a new world, more events. *)
Definition with_world (w : W) (evs : list Event) (s : State) : State :=
  {| world := w; plugins := plugins s; arrays := arrays s;
     connectorConversationCache := connectorConversationCache s;
     timers := timers s; next_timer := next_timer s;
     trace := trace s ++ evs |}.

(** A call into plugin code, recorded in the trace with its outcome. *)
Definition call {A} (ev : Outcome A -> Event) (f : Ext A) : M A :=
  fun s => let '(r, w) := f (world s) in (r, with_world w [ev r] s).

Definition emit (ev : Event) : M unit :=
  fun s => (Returns tt, with_world (world s) [ev] s).

Definition with_arrays (h : list (list LLMMessage)) (s : State) : State :=
  {| world := world s; plugins := plugins s; arrays := h;
     connectorConversationCache := connectorConversationCache s;
     timers := timers s; next_timer := next_timer s;
     trace := trace s |}.

(** [[...l]]: a fresh array object. *)
Definition new_array (l : list LLMMessage) : M nat :=
  fun s => (Returns (length (arrays s)), with_arrays (arrays s ++ [l]) s).

Definition read_array (a : nat) : M (list LLMMessage) :=
  fun s => (Returns (default [] (arrays s !! a)), s).

(** [a.push(x)]: in-place update of the array object. *)
Definition array_push (a : nat) (x : LLMMessage) : M unit :=
  fun s => (Returns tt, with_arrays (alter (fun l => l ++ [x]) a (arrays s)) s).

(** [Date.now()] *)
Definition now : M Z := fun s => (Returns (Date_now (world s)), s).

(** A step of the core itself that completes or throws. *)
Definition lift {A} (o : Outcome A) : M A := fun s => (o, s).

(** A call into plugin code that is not awaited: what the call does before
    it returns its promise, recorded in the trace. *)
Definition start (ev : Event) (f : W -> W) : M unit :=
  fun s => (Returns tt, with_world (f (world s)) [ev] s).

(** [JSON.stringify(x)]: the text of JSON data, [undefined] for
    [undefined], a [TypeError] for a value that cannot be serialised. *)
Definition stringify (x : Unknown) : Outcome (option string) :=
  match x with
  | Data v => Returns (Some (JSON_stringify v))
  | Undefined => Returns None
  | Unserialisable _ why => Throws (ErrorObj why)
  end.

(** [logger.error({ ..., error: data }, msg)] ([lib/logger.ts]): the level
    [error] is never filtered out, and the object is formatted with
    [JSON.stringify]; its other fields are strings, and a field that is
    [undefined] is left out. *)
Definition logger_error (data : Unknown) : M unit :=
  match stringify data with
  | Returns _ => ret tt
  | Throws e => throw e
  end.

(** [err instanceof Error ? err.message : err] *)
Definition error_data (err : Thrown) : Unknown :=
  match err with
  | ErrorObj message => Data (VStr message)
  | Raised v => v
  end.

(** ** [server/src/services/tool-executor.service.ts] *)

Record GenerateWithToolsResult := {
  response : LLMResponse;
  toolUsages : list ConversationToolUsage;
}.

Definition MAX_TOOL_LOOP_ITERATIONS : nat := 10.

Definition not_approved : Value := VObj [("error", VStr "Action was not approved")].

(** [tool.handler(toolUse.input, context)] *)
Definition invoke_handler (p : PluginBase) (t : ToolWithHandler) (toolUse : ToolUse)
    (context : ToolContext) : M Unknown :=
  call (EvHandler (obj p) (toTool t) (tu_input toolUse) context)
       (handler t (tu_input toolUse) context).

(** [(t) => t.name === toolUse.name] *)
Definition named (toolUse : ToolUse) (t : ToolWithHandler) : bool :=
  String.eqb (t_name (schema t)) (tu_name toolUse).

Definition executeTool (instanceId : string) (toolUse : ToolUse) (context : ToolContext)
    (plugins : JsMap InstanceEntry) : M Unknown :=
  match plugins !! instanceId with
  | None => throw (ErrorObj ("Plugin with tools not found: " +:+ instanceId))
  | Some entry =>
    match getTools (plugin entry) with
    | None => throw (ErrorObj ("Plugin with tools not found: " +:+ instanceId))
    | Some tools =>
      match find (named toolUse) tools with
      | None => throw (ErrorObj ("Tool not found: " +:+ tu_name toolUse))
      | Some t =>
        match requestApproval (plugin entry) with
        | Some hook =>
          let* approved :=
            call (EvRequestApproval (obj (plugin entry)) (toTool t) (tu_input toolUse) context)
                 (hook t (tu_input toolUse) context) in
          if negb approved then ret (Data not_approved)
          else invoke_handler (plugin entry) t toolUse context
        | None => invoke_handler (plugin entry) t toolUse context
        end
      end
    end
  end.

Definition unknown_tool (toolUse : ToolUse) : string :=
  "Unknown tool: " +:+ tu_name toolUse.

(** [err instanceof Error ? err.message : 'Tool execution failed'] *)
Definition error_message (err : Thrown) : string :=
  match err with
  | ErrorObj message => message
  | Raised _ => "Tool execution failed"
  end.

Definition dquote : string := String (ascii_of_nat 34) EmptyString.

Definition technical_error (toolUse : ToolUse) : string :=
  "The tool " +:+ dquote +:+ tu_name toolUse +:+ dquote +:+
  " encountered a technical error. Please inform the user that there was a problem and suggest they try again later.".

(** The result object built in the [catch] of the tool loop. *)
Definition failure_result (toolUse : ToolUse) (error : string) : Value :=
  VObj [("success", VBool false); ("error", VStr error);
        ("message", VStr (technical_error toolUse))].

(** [typeof result === 'string' ? result : JSON.stringify(result)] *)
Definition result_content (result : Unknown) : Outcome (option string) :=
  match result with
  | Data (VStr s) => Returns (Some s)
  | _ => stringify result
  end.

Definition tool_message (toolUse : ToolUse) (content : option string) : LLMMessage :=
  {| role := tool; content := content; images := None;
     toolCallId := Some (tu_id toolUse); toolName := Some (tu_name toolUse);
     toolUses := None |}.

(** Body of [for (const toolUse of response.toolUses)]: runs one tool use,
    pushes its message on [currentMessages] and yields its usage record.
    The [catch] logs what was thrown before it builds the failure result
    (in the log, a message that ends with a JSON object is replaced by
    [{ message, details }], which is JSON data as well); the content of the
    tool message is computed after the [try], outside it. *)
Definition runToolUse (nameToInstanceId : gmap string string) (actionContext : ToolContext)
    (plugins : JsMap InstanceEntry) (currentMessages : nat) (toolUse : ToolUse)
    : M ConversationToolUsage :=
  let* startTime := now in
  let* outcome :=
    match nameToInstanceId !! tu_name toolUse with
    | None | Some "" =>
      ret (Data (VObj [("error", VStr (unknown_tool toolUse))]), Some (unknown_tool toolUse))
    | Some instanceId =>
      try_catch
        (let* result := executeTool instanceId toolUse actionContext plugins in
         ret (result, None))
        (fun err =>
           let* _ := logger_error (error_data err) in
           let error := error_message err in
           ret (Data (failure_result toolUse error), Some error))
    end in
  let '(result, error) := outcome in
  let* endTime := now in
  let durationMs := (endTime - startTime)%Z in
  let* content := lift (result_content result) in
  let* _ := array_push currentMessages (tool_message toolUse content) in
  ret {| u_toolName := tu_name toolUse; u_input := tu_input toolUse;
         u_output := result; u_error := error; u_durationMs := durationMs |}.

Fixpoint runToolUses (nameToInstanceId : gmap string string) (actionContext : ToolContext)
    (plugins : JsMap InstanceEntry) (currentMessages : nat)
    (toolUses : list ToolUse) (toolUsages : list ConversationToolUsage)
    : M (list ConversationToolUsage) :=
  match toolUses with
  | [] => ret toolUsages
  | toolUse :: rest =>
    let* usage := runToolUse nameToInstanceId actionContext plugins currentMessages toolUse in
    runToolUses nameToInstanceId actionContext plugins currentMessages rest
      (toolUsages ++ [usage])
  end.

Definition call_generate (p : PluginBase) (llm : LLM) (model : string)
    (currentMessages : nat) (options : option LLMGenerateOptions) : M LLMResponse :=
  let* messages := read_array currentMessages in
  call (EvGenerate (obj p) model messages options) (generate llm model messages options).

(** [{ ...options, tools }] *)
Definition spread_options (options : option GenerationOptions)
    (tools : option (list Tool)) : LLMGenerateOptions :=
  {| g_temperature := options ≫= temperature;
     g_maxTokens := options ≫= maxTokens;
     g_tools := tools |}.

Definition assistant_turn (response : LLMResponse) : LLMMessage :=
  {| role := assistant; content := Some (r_content response); images := None;
     toolCallId := None; toolName := None; toolUses := r_toolUses response |}.

(** The [for (let iter = 0; iter < MAX_TOOL_LOOP_ITERATIONS; iter++)] loop
    followed by the final call; [remaining] counts the iterations left. *)
Fixpoint toolLoop (remaining : nat) (p : PluginBase) (llm : LLM) (model : string)
    (options : option GenerationOptions) (genOptions : LLMGenerateOptions)
    (nameToInstanceId : gmap string string) (actionContext : ToolContext)
    (plugins : JsMap InstanceEntry)
    (currentMessages : nat) (toolUsages : list ConversationToolUsage)
    : M GenerateWithToolsResult :=
  match remaining with
  | O =>
    let* finalResponse :=
      call_generate p llm model currentMessages (Some (spread_options options None)) in
    ret {| response := finalResponse; toolUsages := toolUsages |}
  | S remaining' =>
    let* response := call_generate p llm model currentMessages (Some genOptions) in
    match r_toolUses response with
    | None | Some [] => ret {| response := response; toolUsages := toolUsages |}
    | Some requested =>
      let* previous := read_array currentMessages in
      let* currentMessages' := new_array (previous ++ [assistant_turn response]) in
      let* toolUsages' :=
        runToolUses nameToInstanceId actionContext plugins currentMessages'
          requested toolUsages in
      toolLoop remaining' p llm model options genOptions nameToInstanceId actionContext
        plugins currentMessages' toolUsages'
    end
  end.

Definition generateWithTools (providerId : string) (model : string) (messages : nat)
    (tools : list Tool) (nameToInstanceId : gmap string string)
    (actionContext : ToolContext) (plugins : JsMap InstanceEntry)
    (options : option GenerationOptions) : M GenerateWithToolsResult :=
  match plugins !! providerId with
  | None => throw (ErrorObj "LLM provider not found or disabled")
  | Some providerEntry =>
    if negb (enabled providerEntry) then throw (ErrorObj "LLM provider not found or disabled")
    else
      match getLLM (plugin providerEntry) with
      | None => throw (ErrorObj "LLM provider not found or disabled")
      | Some llm =>
        let* original := read_array messages in
        let* currentMessages := new_array original in
        let genOptions :=
          spread_options options
            (if bool_decide (0 < length tools)%nat then Some tools else None) in
        toolLoop MAX_TOOL_LOOP_ITERATIONS (plugin providerEntry) llm model options
          genOptions nameToInstanceId actionContext plugins currentMessages []
      end
  end.

(** ** [server/src/services/plugin-manager.service.ts] *)

Record ResolvedTools := {
  tools : list Tool;
  nameToInstanceId : gmap string string;
}.

(** [for (const tool of pluginTools) nameToInstanceId.set(tool.name, id)] *)
Definition index_tools (instanceId : string) (pluginTools : list ToolWithHandler)
    (index : gmap string string) : gmap string string :=
  foldl (fun m t => <[t_name (schema t) := instanceId]> m) index pluginTools.

(** Body of the loop of [getToolsForActionIds]. *)
Definition addToolsOf (plugins : JsMap InstanceEntry) (acc : ResolvedTools)
    (instanceId : string) : ResolvedTools :=
  match plugins !! instanceId with
  | None => acc
  | Some entry =>
    if negb (enabled entry) then acc
    else
      match getTools (plugin entry) with
      | Some pluginTools =>
        {| tools := tools acc ++ toTools pluginTools;
           nameToInstanceId := index_tools instanceId pluginTools (nameToInstanceId acc) |}
      | None => acc
      end
  end.

Definition getToolsForActionIds (plugins : JsMap InstanceEntry) (actionIds : list string)
    : ResolvedTools :=
  foldl (addToolsOf plugins) {| tools := []; nameToInstanceId := ∅ |} actionIds.

Definition getAllEnabledPluginWithToolIds (plugins : JsMap InstanceEntry) : list string :=
  omap (fun kv : string * InstanceEntry =>
          if enabled kv.2 && hasTools (plugin kv.2) then Some kv.1 else None)
       (entries plugins).

Record PluginInstance := {
  pi_id : string;
  pi_type : string;
  pi_name : string;
  pi_enabled : bool;
  pi_config : Value;
  pi_connected : option bool;
  pi_tools : option (list Tool);
}.

Definition toPluginInstance (entry : InstanceEntry) : M PluginInstance :=
  fun s =>
    (Returns {| pi_id := id entry; pi_type := type entry; pi_name := name entry;
                pi_enabled := enabled entry; pi_config := config entry;
                pi_connected :=
                  (fun connector => isConnected connector (world s))
                    <$> getConnector (plugin entry);
                pi_tools := toTools <$> getTools (plugin entry) |}, s).

Definition with_plugins (m : JsMap InstanceEntry) (s : State) : State :=
  {| world := world s; plugins := m; arrays := arrays s;
     connectorConversationCache := connectorConversationCache s;
     timers := timers s; next_timer := next_timer s;
     trace := trace s |}.

Definition get_plugins : M (JsMap InstanceEntry) := fun s => (Returns (plugins s), s).

Definition update_plugins (f : JsMap InstanceEntry -> JsMap InstanceEntry) : M unit :=
  fun s => (Returns tt, with_plugins (f (plugins s)) s).

Definition ask {A} (f : W -> A) : M A := fun s => (Returns (f (world s)), s).

(** The teardown of [addPlugin] and [unloadPlugin]: disconnect the
    connector if it is connected, shut the plugin down, evict the entry. *)
Definition teardown (instanceId : string) (existing : InstanceEntry) : M unit :=
  let* _ :=
    match getConnector (plugin existing) with
    | Some connector =>
      let* connected := ask (isConnected connector) in
      if connected
      then call (EvDisconnect (obj (plugin existing))) (disconnect connector)
      else ret tt
    | None => ret tt
    end in
  let* _ := call (EvShutdown (obj (plugin existing))) (shutdown (plugin existing)) in
  update_plugins (delete instanceId).

(** The wiring of a connector: [onMessage], [onSlashCommand?.], and
    [connect().catch(...)]: the connection is started, not awaited. *)
Definition wire_connector (p : PluginBase) : M unit :=
  match getConnector p with
  | Some connector =>
    let* _ := emit (EvOnMessage (obj p)) in
    let* _ := if onSlashCommand connector then emit (EvOnSlashCommand (obj p)) else ret tt in
    start (EvConnect (obj p)) (connect connector)
  | None => ret tt
  end.

Definition addPlugin (type : string) (config : Value) (instanceId : option string)
    : M PluginInstance :=
  let* catalog := ask getExternalCatalogEntries in
  match find (fun e => String.eqb (ce_type e) type) catalog with
  | None => throw (ErrorObj ("Plugin not found in catalog: " +:+ type))
  | Some catalogEntry =>
    let* id :=
      match instanceId with
      | Some id => ret id
      | None => let* t := now in ret (type +:+ "-" +:+ pretty t)
      end in
    let* registry := get_plugins in
    let* _ :=
      match registry !! id with
      | Some existing => teardown id existing
      | None => ret tt
      end in
    let* plugin :=
      call (fun r => EvLoadPlugin type config (outcome_map obj r))
           (loadExternalPlugin type config) in
    let entry := {| id := id; type := type; name := ce_name catalogEntry;
                    config := config; enabled := true; plugin := plugin |} in
    let* _ := update_plugins (insert id entry) in
    let* _ := wire_connector plugin in
    toPluginInstance entry
  end.

Definition unloadPlugin (instanceId : string) : M unit :=
  let* registry := get_plugins in
  match registry !! instanceId with
  | None => ret tt
  | Some entry => teardown instanceId entry
  end.

Definition toggle (entry : InstanceEntry) : InstanceEntry :=
  {| id := id entry; type := type entry; name := name entry; config := config entry;
     enabled := negb (enabled entry); plugin := plugin entry |}.

Definition toggleEnabled (instanceId : string) : M unit :=
  let* registry := get_plugins in
  match registry !! instanceId with
  | None => throw (ErrorObj "Instance not found")
  | Some entry => update_plugins (insert instanceId (toggle entry))
  end.

(** The [options] of [generateWithProvider]. *)
Record ProviderOptions := {
  po_temperature : option Z;
  po_maxTokens : option Z;
  po_tools : option (list Tool);
  po_toolNameToInstanceId : option (gmap string string);
  po_actionContext : option ToolContext;
}.

Definition generation_options (o : ProviderOptions) : GenerationOptions :=
  {| temperature := po_temperature o; maxTokens := po_maxTokens o |}.

Definition llm_options (o : ProviderOptions) : LLMGenerateOptions :=
  {| g_temperature := po_temperature o; g_maxTokens := po_maxTokens o;
     g_tools := po_tools o |}.

(** [!tools?.length] *)
Definition no_tools (tools : option (list Tool)) : bool :=
  match tools with
  | None | Some [] => true
  | Some _ => false
  end.

Definition web_context (t : Z) : ToolContext :=
  {| c_userId := "web"; c_channelId := "web"; c_platform := "web";
     c_message := {| m_id := "web"; m_platform := "web"; m_channelId := "web";
                     m_userId := "web"; m_username := "user"; m_content := "";
                     m_timestamp := t; m_attachments := None; m_replyTo := None;
                     m_subject := None |};
     c_assistantId := None |}.

(** The locals [tools], [toolNameToInstanceId], [actionContext]. *)
Record ToolSetup := {
  ts_tools : option (list Tool);
  ts_toolNameToInstanceId : option (gmap string string);
  ts_actionContext : option ToolContext;
}.

(** "Fallback for connector flow when tools weren't provided: use all
    enabled action plugins." *)
Definition connector_fallback (registry : JsMap InstanceEntry) (l : ToolSetup) : ToolSetup :=
  if bool_decide (is_Some (ts_actionContext l))
     && (no_tools (ts_tools l) || bool_decide (ts_toolNameToInstanceId l = None))
  then
    let pluginIds := getAllEnabledPluginWithToolIds registry in
    if bool_decide (0 < length pluginIds)%nat then
      let built := getToolsForActionIds registry pluginIds in
      {| ts_tools := Some (tools built);
         ts_toolNameToInstanceId := Some (nameToInstanceId built);
         ts_actionContext := ts_actionContext l |}
    else l
  else l.

(** "In-app chat (Conversations): no actionContext passed, but we still add
    action tools so the LLM can use them." *)
Definition in_app_fallback (registry : JsMap InstanceEntry) (t : Z) (l : ToolSetup) : ToolSetup :=
  if bool_decide (ts_actionContext l = None)
     && (no_tools (ts_tools l) || bool_decide (ts_toolNameToInstanceId l = None))
  then
    let pluginIds := getAllEnabledPluginWithToolIds registry in
    let built := getToolsForActionIds registry pluginIds in
    if bool_decide (0 < length (tools built))%nat then
      {| ts_tools := Some (default [] (ts_tools l) ++ tools built);
         ts_toolNameToInstanceId :=
           Some (nameToInstanceId built ∪ default ∅ (ts_toolNameToInstanceId l));
         ts_actionContext := Some (web_context t) |}
    else l
  else l.

Definition generateWithProvider (instanceId : string) (model : string) (messages : nat)
    (options : option ProviderOptions) : M LLMResponse :=
  let* registry := get_plugins in
  match registry !! instanceId with
  | None => throw (ErrorObj "LLM provider not found")
  | Some entry =>
    match getLLM (plugin entry) with
    | None => throw (ErrorObj "LLM provider not found")
    | Some llm =>
      if negb (enabled entry) then throw (ErrorObj "LLM provider is disabled")
      else
        let* t := now in
        let locals :=
          in_app_fallback registry t
            (connector_fallback registry
               {| ts_tools := options ≫= po_tools;
                  ts_toolNameToInstanceId := options ≫= po_toolNameToInstanceId;
                  ts_actionContext := options ≫= po_actionContext |}) in
        match ts_tools locals, ts_toolNameToInstanceId locals, ts_actionContext locals with
        | Some (first :: more), Some toolNameToInstanceId, Some actionContext =>
          let* result :=
            generateWithTools instanceId model messages (first :: more)
              toolNameToInstanceId actionContext registry
              (generation_options <$> options) in
          ret (response result)
        | _, _, _ =>
          call_generate (plugin entry) llm model messages (llm_options <$> options)
        end
    end
  end.

(** ** [server/src/services/connector-handler.service.ts] *)

Definition MAX_CACHED_MESSAGES : nat := 30.

(** [l.slice(-n)] *)
Definition slice_last {A} (n : nat) (l : list A) : list A := drop (length l - n) l.

(** [if (l.length > MAX_CACHED_MESSAGES) l = l.slice(-MAX_CACHED_MESSAGES)] *)
Definition cap_messages (l : list LLMMessage) : list LLMMessage :=
  if bool_decide (MAX_CACHED_MESSAGES < length l)%nat
  then slice_last MAX_CACHED_MESSAGES l else l.

Definition with_cache (c : gmap string (list LLMMessage)) (s : State) : State :=
  {| world := world s; plugins := plugins s; arrays := arrays s;
     connectorConversationCache := c;
     timers := timers s; next_timer := next_timer s;
     trace := trace s |}.

Definition cache_get (key : string) : M (option (list LLMMessage)) :=
  fun s => (Returns (connectorConversationCache s !! key), s).

Definition cache_set (key : string) (l : list LLMMessage) : M unit :=
  fun s => (Returns tt, with_cache (<[key := l]> (connectorConversationCache s)) s).

(** [setInterval(...)]: arms a fresh timer. *)
Definition setInterval : M nat :=
  fun s =>
    (Returns (next_timer s),
     {| world := world s; plugins := plugins s; arrays := arrays s;
        connectorConversationCache := connectorConversationCache s;
        timers := timers s ++ [next_timer s]; next_timer := S (next_timer s);
        trace := trace s ++ [EvSetInterval (next_timer s)] |}).

Definition clearInterval (timer : nat) : M unit :=
  fun s =>
    (Returns tt,
     {| world := world s; plugins := plugins s; arrays := arrays s;
        connectorConversationCache := connectorConversationCache s;
        timers := filter (fun t => t ≠ timer) (timers s); next_timer := next_timer s;
        trace := trace s ++ [EvClearInterval timer] |}).

(** The closure [stopTyping], applied to the current [typingInterval]. *)
Definition stopTyping (typingInterval : option nat) : M unit :=
  match typingInterval with
  | Some timer => clearInterval timer
  | None => ret tt
  end.

(** A repository read: changes the world, never rejects. *)
Definition query {A} (f : W -> A * W) : M A :=
  fun s =>
    let '(a, w) := f (world s) in
    (Returns a,
     {| world := w; plugins := plugins s; arrays := arrays s;
        connectorConversationCache := connectorConversationCache s;
        timers := timers s; next_timer := next_timer s; trace := trace s |}).

(** A repository write: changes the world, may reject. *)
Definition command {A} (f : Pocketbase A) : M A :=
  fun s =>
    let '(r, w) := f (world s) in
    (match r with
     | inl a => Returns a
     | inr message => Throws (ErrorObj message)
     end,
     {| world := w; plugins := plugins s; arrays := arrays s;
        connectorConversationCache := connectorConversationCache s;
        timers := timers s; next_timer := next_timer s; trace := trace s |}).

Definition newline : string := String (ascii_of_nat 10) EmptyString.

Definition is_image (a : Attachment) : bool :=
  String.eqb (att_type a) "image" || String.prefix "image/" (att_type a).

(** The user turn sent to the Model: the text, followed by the URLs of the
    attached images. *)
Definition user_content (message : Message) : string :=
  match filter (fun a => is_image a = true) <$> m_attachments message with
  | None | Some [] => m_content message
  | Some incomingImageAttachments =>
    let urls := String.concat newline (att_url <$> incomingImageAttachments) in
    match String_trim (m_content message) with
    | "" =>
      "[User sent image(s). You MUST pass one of these exact URLs as imageUrl when calling img2img or img2txt. Do NOT use example.com or any placeholder.]"
      +:+ newline +:+ urls
    | _ =>
      m_content message +:+ newline +:+ newline +:+
      "[IMAGE URL(s) — You MUST pass one of these exact URLs as imageUrl when calling img2img or img2txt. Do NOT use example.com or any other placeholder.]"
      +:+ newline +:+ urls
    end
  end.

(** [systemPromps.filter(Boolean).join('')] for
    [systemPromps = [assistant.systemPrompt?.trim()]]. *)
Definition system_content (a : AssistantRecord) : string :=
  let systemPromps := [String_trim <$> a_systemPrompt a] in
  String.concat ""
    (omap (fun p => match p with Some "" | None => None | Some p => Some p end)
          systemPromps).

Definition plain_message (r : Role) (c : string) : LLMMessage :=
  {| role := r; content := Some c; images := None; toolCallId := None; toolName := None;
     toolUses := None |}.

(** [pathname.split('/').pop()] *)
Fixpoint last_segment (path : string) (segment : string) : string :=
  match path with
  | EmptyString => segment
  | String c rest =>
    if Ascii.eqb c "/"%char then last_segment rest ""
    else last_segment rest (segment +:+ String c EmptyString)
  end.

Fixpoint includes_dot (s : string) : bool :=
  match s with
  | EmptyString => false
  | String c rest => Ascii.eqb c "."%char || includes_dot rest
  end.

(** Best-effort filename of an image URL. *)
Definition image_filename (url : string) : string :=
  match URL_parse url with
  | None => "image.png"
  | Some urlObj =>
    match url_filenameParam urlObj with
    | Some (String c rest) => String c rest
    | _ =>
      let pathPart := last_segment (url_pathname urlObj) "" in
      if includes_dot pathPart then pathPart else "image.png"
    end
  end.

(** Image URLs found in the tool outputs, as attachments. *)
Definition image_attachments (toolUsages : list ConversationToolUsage) : list Attachment :=
  flat_map
    (fun usage =>
       match get_field "imageUrls" (u_output usage) with
       | Some (VArr urls) =>
         omap (fun url =>
                 match url with
                 | VStr url => Some {| att_type := "image"; att_url := url;
                                       att_filename := image_filename url |}
                 | _ => None
                 end) urls
       | _ => []
       end)
    toolUsages.

(** [usage.error ?? (typeof usage.output === 'string' ? ... : JSON.stringify(...))] *)
Definition tool_content (usage : ConversationToolUsage) : Outcome (option string) :=
  match u_error usage with
  | Some error => Returns (Some error)
  | None => result_content (u_output usage)
  end.

Definition tool_entry (message : Message) (created : string) (idx : nat)
    (usage : ConversationToolUsage) (content : option string) : ConversationMessage :=
  {| cm_id := "tool-" +:+ m_id message +:+ "-" +:+ pretty idx;
     cm_role := tool;
     cm_content := content;
     cm_created := created;
     cm_toolUsage := Some usage |}.

(** [toolUsages.map((usage, idx) => ...)], from index [idx] on: the first
    output that [JSON.stringify] rejects ends the [map]. *)
Fixpoint tool_entries (message : Message) (created : string) (idx : nat)
    (usages : list ConversationToolUsage) : Outcome (list ConversationMessage) :=
  match usages with
  | [] => Returns []
  | usage :: rest =>
    match tool_content usage with
    | Throws e => Throws e
    | Returns content =>
      outcome_map (cons (tool_entry message created idx usage content))
                  (tool_entries message created (S idx) rest)
    end
  end.

(** The [try] block that appends the exchange to the stored conversation. *)
Definition persist (entry : InstanceEntry) (connector : Connector) (message : Message)
    (response_ : LLMResponse) (toolUsages_ : list ConversationToolUsage) : M unit :=
  let* conversations := query conversationRepository_findAll in
  let existing :=
    find (fun r => bool_decide (cr_connectorId r = Some (id entry))
                   && bool_decide (cr_channelId r = Some (m_channelId message)))
         conversations in
  let userEntry :=
    {| cm_id := m_id message; cm_role := user; cm_content := Some (m_content message);
       cm_created := Date_toISOString (m_timestamp message); cm_toolUsage := None |} in
  let* t := now in
  let* toolMessages := lift (tool_entries message (Date_toISOString t) 0 toolUsages_) in
  let assistantEntry :=
    {| cm_id := "assistant-" +:+ m_id message; cm_role := assistant;
       cm_content := Some (r_content response_); cm_created := Date_toISOString t;
       cm_toolUsage := None |} in
  let newMessages := [userEntry] ++ toolMessages ++ [assistantEntry] in
  match existing with
  | Some existing =>
    command (conversationRepository_update (cr_id existing)
               (default [] (cr_messages existing) ++ newMessages))
  | None =>
    let defaultTitle := platform connector +:+ " (" +:+ m_channelId message +:+ ")" in
    command (conversationRepository_create
               {| cr_id := ""; cr_title := default defaultTitle (m_subject message);
                  cr_messages := Some newMessages;
                  cr_connectorId := Some (id entry);
                  cr_channelId := Some (m_channelId message) |})
  end.

Definition no_assistant_notice : string :=
  "No assistant is configured for this bot. Configure one in the web UI (Assistants page).".

(** [!assistant?.llmProvider || !assistant?.llmModel] fails: the assistant
    exists and names a provider and a model. *)
Definition configured (assistant_ : option AssistantRecord) : option AssistantRecord :=
  match assistant_ with
  | Some a =>
    match a_llmProvider a, a_llmModel a with
    | String _ _, String _ _ => Some a
    | _, _ => None
    end
  | None => None
  end.

(** [String(x)] *)
Definition to_string (x : Unknown) : string :=
  match x with
  | Data v => JS_String v
  | Undefined => "undefined"
  | Unserialisable shown _ => shown
  end.

(** [err instanceof Error ? err.message : String(err)] *)
Definition describe_error (err : Thrown) : string :=
  match err with
  | ErrorObj message => message
  | Raised v => to_string v
  end.

(** The [catch] branch of the generation: stop the heartbeat and report. *)
Definition reply_error (entry : InstanceEntry) (connector : Connector) (message : Message)
    (typingInterval : option nat) (err : Thrown) : M unit :=
  let* _ := stopTyping typingInterval in
  let errorMessage := describe_error err in
  match sendError connector, sendMessage connector with
  | Some sendError_, _ =>
    try_catch
      (call (EvSendError (obj (plugin entry)) (m_channelId message) errorMessage "llm_error")
            (sendError_ (m_channelId message) errorMessage "llm_error"))
      (fun _ => ret tt)
  | None, Some sendMessage_ =>
    let reply := {| sm_channelId := m_channelId message;
                    sm_content := "Error: " +:+ errorMessage;
                    sm_replyTo := Some (m_id message); sm_attachments := None |} in
    try_catch (call (EvSendMessage (obj (plugin entry)) reply) (sendMessage_ reply))
              (fun _ => ret tt)
  | None, None => ret tt
  end.

(** The reply of the success path, with the images of the tool outputs. *)
Definition send_reply (entry : InstanceEntry) (connector : Connector)
    (message : Message) (result : GenerateWithToolsResult) : M unit :=
  let imageAttachments := image_attachments (toolUsages result) in
  match sendMessage connector with
  | Some sendMessage_ =>
    let reply := {| sm_channelId := m_channelId message;
                    sm_content := r_content (response result);
                    sm_replyTo := Some (m_id message);
                    sm_attachments :=
                      if bool_decide (0 < length imageAttachments)%nat
                      then Some imageAttachments else None |} in
    call (EvSendMessage (obj (plugin entry)) reply) (sendMessage_ reply)
  | None => ret tt
  end.

(** What follows a successful generation: reply, cache, persist. *)
Definition reply_and_store (entry : InstanceEntry) (connector : Connector)
    (message : Message) (cacheKey : string) (newUserMessage : LLMMessage)
    (result : GenerateWithToolsResult) : M unit :=
  let* _ := send_reply entry connector message result in
  let* stored := cache_get cacheKey in
  let nextCached :=
    cap_messages (default [] stored ++
                  [newUserMessage; plain_message assistant (r_content (response result))]) in
  let* _ := cache_set cacheKey nextCached in
  try_catch (persist entry connector message (response result) (toolUsages result))
            (fun err => logger_error (error_data err)).

(** The heartbeat: one typing indicator now, then one per interval. *)
Definition start_typing (entry : InstanceEntry) (connector : Connector)
    (message : Message) : M (option nat) :=
  match sendTyping connector with
  | Some sendTyping_ =>
    let* _ :=
      try_catch
        (call (EvSendTyping (obj (plugin entry)) (m_channelId message))
              (sendTyping_ (m_channelId message)))
        (fun _ => ret tt) in
    let* timer := setInterval in
    ret (Some timer)
  | None => ret None
  end.

(** The handler once the assistant [a] of the connector is known: from
    the resolution of its tools to the end. *)
Definition converse (entry : InstanceEntry) (connector : Connector) (message : Message)
    (a : AssistantRecord) : M unit :=
  let* registry := get_plugins in
  let resolved := getToolsForActionIds registry (a_tools a) in
  let* typingInterval := start_typing entry connector message in
  let cacheKey := id entry +:+ ":" +:+ m_channelId message in
  let* stored := cache_get cacheKey in
  let cached := cap_messages (default [] stored) in
  let newUserMessage := plain_message user (user_content message) in
  let* messages :=
    new_array ([plain_message system (system_content a)] ++ cached ++ [newUserMessage]) in
  let actionContext :=
    {| c_userId := m_userId message; c_channelId := m_channelId message;
       c_platform := m_platform message; c_message := message;
       c_assistantId := Some (a_id a) |} in
  let* attempt :=
    try_catch
      (let* result :=
         generateWithTools (a_llmProvider a) (a_llmModel a) messages (tools resolved)
           (nameToInstanceId resolved) actionContext registry None in
       ret (inl result))
      (fun err => ret (inr err)) in
  match attempt with
  | inr err => reply_error entry connector message typingInterval err
  | inl result => reply_and_store entry connector message cacheKey newUserMessage result
  end.

Definition handleConnectorMessage (entry : InstanceEntry) (message : Message) : M unit :=
  match (if enabled entry then getConnector (plugin entry) else None) with
  | None => ret tt
  | Some connector =>
    let* connectorRecord := query (pluginRepository_getOne (id entry)) in
    let* assistant_ :=
      match connectorRecord ≫= pr_assistant with
      | Some (String c rest) => query (assistantRepository_getOne (String c rest))
      | _ => ret None
      end in
    match configured assistant_ with
    | None =>
      match sendMessage connector with
      | Some sendMessage_ =>
        let notice := {| sm_channelId := m_channelId message;
                         sm_content := no_assistant_notice;
                         sm_replyTo := Some (m_id message); sm_attachments := None |} in
        try_catch (call (EvSendMessage (obj (plugin entry)) notice) (sendMessage_ notice))
                  (fun _ => ret tt)
      | None => ret tt
      end
    | Some a => converse entry connector message a
    end
  end.

(** ** The rest of [server/src/services/plugin-manager.service.ts] *)

(** The entry object after [entry.config = config] and [entry.plugin = p]. *)
Definition reconfigured (entry : InstanceEntry) (config : Value) (p : PluginBase)
    : InstanceEntry :=
  {| id := id entry; type := type entry; name := name entry; config := config;
     enabled := enabled entry; plugin := p |}.

(** The entry object is updated in place, first its [config], then, once
    the loader has answered, its [plugin]. *)
Definition configurePlugin (instanceId : string) (config : Value) : M unit :=
  let* registry := get_plugins in
  match registry !! instanceId with
  | None => throw (ErrorObj "Instance not found")
  | Some entry =>
    let* _ := call (EvShutdown (obj (plugin entry))) (shutdown (plugin entry)) in
    let* _ := update_plugins (insert instanceId (reconfigured entry config (plugin entry))) in
    let* plugin :=
      call (fun r => EvLoadPlugin (type entry) config (outcome_map obj r))
           (loadExternalPlugin (type entry) config) in
    let* _ := update_plugins (insert instanceId (reconfigured entry config plugin)) in
    wire_connector plugin
  end.

(** ** [server/src/services/chat.service.ts] *)

(** [LLMResponse] extended with [toolUsages?]. *)
Record ChatWithAssistantResponse := {
  cw_response : LLMResponse;
  cw_toolUsages : option (list ConversationToolUsage);
}.

(** [{ temperature?, maxTokens? }] passed where [generateWithProvider]
    expects its wider options. *)
Definition provider_options (o : GenerationOptions) : ProviderOptions :=
  {| po_temperature := temperature o; po_maxTokens := maxTokens o; po_tools := None;
     po_toolNameToInstanceId := None; po_actionContext := None |}.

Definition chatService_generate (providerId : string) (model : string) (messages : nat)
    (options : option GenerationOptions) : M LLMResponse :=
  generateWithProvider providerId model messages (provider_options <$> options).

(** What a template literal makes of a string that may be [undefined]. *)
Definition interpolate (x : option string) : string := default "undefined" x.

(** "Prepend system prompt if configured": the prompt is merged into a
    leading system message, or becomes one. *)
Definition with_system_prompt (a : AssistantRecord) (messages : list LLMMessage)
    : list LLMMessage :=
  match a_systemPrompt a with
  | None => messages
  | Some systemPrompt =>
    match String_trim systemPrompt with
    | "" => messages
    | _ =>
      match messages with
      | first :: rest =>
        match role first with
        | system =>
          plain_message system
            (systemPrompt +:+ newline +:+ newline +:+ interpolate (content first)) :: rest
        | _ => plain_message system systemPrompt :: messages
        end
      | [] => plain_message system systemPrompt :: messages
      end
    end
  end.

Definition web_ui_context (a : AssistantRecord) (t : Z) : ToolContext :=
  {| c_userId := "web-ui"; c_channelId := "web-ui"; c_platform := "web";
     c_message := {| m_id := "web-ui"; m_platform := "web"; m_channelId := "web-ui";
                     m_userId := "web-ui"; m_username := "user"; m_content := "";
                     m_timestamp := t; m_attachments := None; m_replyTo := None;
                     m_subject := None |};
     c_assistantId := Some (a_id a) |}.

Definition generateWithAssistant (assistantId : string) (messages : nat)
    (options : option GenerationOptions) : M ChatWithAssistantResponse :=
  let* assistant_ := query (assistantRepository_getOne assistantId) in
  match assistant_ with
  | None => throw (ErrorObj ("Assistant not found: " +:+ assistantId))
  | Some a =>
    match a_llmProvider a, a_llmModel a with
    | String _ _, String _ _ =>
      let* registry := get_plugins in
      let resolved := getToolsForActionIds registry (a_tools a) in
      let* original := read_array messages in
      let* copy := new_array original in
      let* finalMessages :=
        match String_trim <$> a_systemPrompt a with
        | None | Some "" => ret copy
        | Some _ => new_array (with_system_prompt a original)
        end in
      let* t := now in
      let actionContext := web_ui_context a t in
      let* result :=
        generateWithTools (a_llmProvider a) (a_llmModel a) finalMessages (tools resolved)
          (nameToInstanceId resolved) actionContext registry options in
      ret {| cw_response := response result;
             cw_toolUsages :=
               if bool_decide (0 < length (toolUsages result))%nat
               then Some (toolUsages result) else None |}
    | _, _ => throw (ErrorObj "Assistant has no LLM provider or model configured")
    end
  end.

(** ** [server/src/routes/chat.routes.ts] *)

(** The parsed request body. *)
Record ChatBody := {
  b_assistantId : option string;
  b_providerId : option string;
  b_model : option string;
  b_messages : option (list LLMMessage);
  b_temperature : option Z;
  b_maxTokens : option Z;
}.

(** What the route answers: [c.json(response)] or
    [c.json({ success: false, error }, status)]. *)
Inductive ChatReply : Type :=
| AssistantReply (r : ChatWithAssistantResponse)
| ProviderReply (r : LLMResponse)
| Failure (status : nat) (error : string).

(** [s.includes(sub)] *)
Fixpoint includes (sub s : string) : bool :=
  String.prefix sub s
  || match s with
     | EmptyString => false
     | String _ rest => includes sub rest
     end.

(** The status of the [catch] branch of the route. *)
Definition failure_status (message : string) : nat :=
  if includes "not found" message || includes "disabled" message then 404 else 400.

Definition chatRoute (body : ChatBody) : M ChatReply :=
  try_catch
    (match b_messages body with
     | None | Some [] => ret (Failure 400 "messages required")
     | Some messages =>
       let options :=
         match b_temperature body, b_maxTokens body with
         | None, None => None
         | t, m => Some {| temperature := t; maxTokens := m |}
         end in
       let* received := new_array messages in
       match b_assistantId body with
       | Some (String c rest) =>
         let* response := generateWithAssistant (String c rest) received options in
         ret (AssistantReply response)
       | _ =>
         match b_providerId body, b_model body with
         | Some (String c rest), Some (String c' rest') =>
           let* response :=
             chatService_generate (String c rest) (String c' rest') received options in
           ret (ProviderReply response)
         | _, _ => ret (Failure 400 "assistantId or (providerId + model) required")
         end
       end
     end)
    (fun err =>
       let message :=
         match err with
         | ErrorObj message => message
         | Raised _ => "Unknown error"
         end in
       ret (Failure (failure_status message) message)).

(** ** [normalizeUrl] of [server/src/utils/plugin.utils.ts] *)

(** [s.replace(/\/+$/, '')]: the string without the slashes it ends with. *)
Fixpoint strip_trailing_slashes (s : string) : string :=
  match s with
  | EmptyString => EmptyString
  | String c rest =>
    match strip_trailing_slashes rest with
    | EmptyString => if Ascii.eqb c "/"%char then EmptyString else String c EmptyString
    | kept => String c kept
    end
  end.

(** [x ?? y] *)
Definition nullish {A} (x y : option A) : option A :=
  match x with
  | Some v => Some v
  | None => y
  end.

(** [url.trim().replace(/\/+$/, '') ?? defaultUrl] *)
Definition normalizeUrl (url : string) (defaultUrl : option string) : option string :=
  nullish (Some (strip_trailing_slashes (String_trim url))) defaultUrl.

End Core.

Arguments Ext : clear implicits.
Arguments Pocketbase : clear implicits.
Arguments ToolWithHandler : clear implicits.
Arguments LLM : clear implicits.
Arguments Connector : clear implicits.
Arguments PluginBase : clear implicits.
Arguments InstanceEntry : clear implicits.
Arguments Runtime : clear implicits.
Arguments State : clear implicits.
Arguments M : clear implicits.

(** * The scheduler ([server/src/services/scheduler.service.ts]) *)

(** [shared/src/types/automation.type.ts] *)
Record AutomationExecution := {
  ex_timestamp : string;
  ex_success : bool;
  ex_result : option string;
  ex_durationMs : option Z;
}.

Record AutomationRecord := {
  au_id : string;
  au_name : string;
  au_enabled : bool;
  au_cron : string;
  au_assistant : string;
  au_prompt : string;
  au_executions : option (list AutomationExecution);
  au_maxExecutions : option Z;
}.

Definition DEFAULT_MAX_EXECUTIONS : Z := 10.

(** [l.slice(0, end)]: a negative [end] counts from the end of the list. *)
Definition slice_to {A} (end_ : Z) (l : list A) : list A :=
  if (end_ <? 0)%Z then take (length l - Z.to_nat (- end_)) l
  else take (Z.to_nat end_) l.

(** The history that [addExecution] stores. *)
Definition newExecutions (automation : AutomationRecord) (execution : AutomationExecution)
    : list AutomationExecution :=
  let existingExecutions := default [] (au_executions automation) in
  let maxExecutions := default DEFAULT_MAX_EXECUTIONS (au_maxExecutions automation) in
  slice_to maxExecutions (execution :: existingExecutions).

(** ** The table of cron jobs *)

Record ScheduledJob := {
  automationId : string;
  job : nat;
}.

(** The module-level [scheduledJobs] map and the [CronJob] objects that
    are running, each with the automation its callback closes over. *)
Record Scheduler := {
  scheduledJobs : JsMap ScheduledJob;
  running : list (nat * AutomationRecord);
  next_job : nat;
}.

Section Jobs.

(** Whether [new CronJob(cron, ...)] accepts the expression (it throws
    otherwise). *)
Variable CronJob_valid : string -> bool.

Definition unscheduleAutomation (id : string) (s : Scheduler) : Scheduler :=
  match scheduledJobs s !! id with
  | Some scheduled =>
    {| scheduledJobs := delete id (scheduledJobs s);
       running := filter (fun j => j.1 ≠ job scheduled) (running s);
       next_job := next_job s |}
  | None => s
  end.

Definition scheduleAutomation (automation : AutomationRecord) (s : Scheduler) : Scheduler :=
  let s1 := unscheduleAutomation (au_id automation) s in
  if negb (au_enabled automation) then s1
  else if CronJob_valid (au_cron automation) then
    {| scheduledJobs :=
         <[au_id automation := {| automationId := au_id automation; job := next_job s1 |}]>
           (scheduledJobs s1);
       running := running s1 ++ [(next_job s1, automation)];
       next_job := S (next_job s1) |}
  else s1.

(** The loop of [initialSyncAutomations] over the stored automations. *)
Definition initialSyncAutomations (automations : list AutomationRecord) (s : Scheduler)
    : Scheduler :=
  foldl (fun s automation =>
           if au_enabled automation then scheduleAutomation automation s else s)
        s automations.

(** The callback of [subscribeToAutomations]. *)
Definition onAutomationEvent (action : string) (record : option AutomationRecord)
    (s : Scheduler) : Scheduler :=
  match record with
  | None => s
  | Some record =>
    match au_id record with
    | "" => s
    | id =>
      if String.eqb action "create" then
        if au_enabled record then scheduleAutomation record s else s
      else if String.eqb action "delete" then unscheduleAutomation id s
      else if String.eqb action "update" then scheduleAutomation record s
      else s
    end
  end.

End Jobs.

Section Automations.

Context {W : Type} {R : Runtime W}.

(** [automationRepository.update(id, { executions })] *)
Variable automationRepository_update :
  string -> list AutomationExecution -> Pocketbase W unit.

Definition addExecution (automation : AutomationRecord) (execution : AutomationExecution)
    : M W unit :=
  command (automationRepository_update (au_id automation) (newExecutions automation execution)).

(** Body of the loop over [toolIds] in [executeAutomation]. *)
Definition addInstanceTools (instances : list PluginInstance) (acc : ResolvedTools)
    (id : string) : ResolvedTools :=
  match find (fun i => String.eqb (pi_id i) id) instances with
  | Some instance =>
    if pi_enabled instance then
      match pi_tools instance with
      | Some instanceTools =>
        {| tools := tools acc ++ instanceTools;
           nameToInstanceId :=
             foldl (fun m t => <[t_name t := id]> m) (nameToInstanceId acc) instanceTools |}
      | None => acc
      end
    else acc
  | None => acc
  end.

Definition automationTools (instances : list PluginInstance) (toolIds : list string)
    : ResolvedTools :=
  foldl (addInstanceTools instances) {| tools := []; nameToInstanceId := ∅ |} toolIds.

End Automations.

(** * A test bench

    Test doubles in the style of the mocks the specification's testable
    properties call for: a scripted Model, an insistent Model that asks for
    a tool on every turn, an echo tool, a tool that throws, a chat
    connector.  They instantiate the world and the runtime at which the
    general statements below are exercised. *)

Module Bench.

Record World := {
  clock : Z;
  script : list LLMResponse;
  calls : list string;
  online : list nat;
  next_obj : nat;
}.

Definition note (what : string) (w : World) : World :=
  {| clock := clock w + 1; script := script w; calls := calls w ++ [what];
     online := online w; next_obj := next_obj w |}.

Definition answer : LLMResponse :=
  {| r_content := "done"; r_finishReason := None; r_toolUses := None |}.

Definition asks_for (toolName_ : string) : LLMResponse :=
  {| r_content := ""; r_finishReason := None;
     r_toolUses := Some [{| tu_id := "1"; tu_name := toolName_; tu_input := VObj [("x", VNum 1)] |}] |}.

(** Plays the script, then gives the final [answer]. *)
Definition scripted : LLM World :=
  {| generate := fun _ _ _ w =>
       match script w with
       | r :: rest =>
         (Returns r, {| clock := clock w + 1; script := rest; calls := calls w;
                        online := online w; next_obj := next_obj w |})
       | [] => (Returns answer, note "generate" w)
       end |}.

(** Requests the echo tool on every turn. *)
Definition insistent : LLM World :=
  {| generate := fun _ _ _ w => (Returns (asks_for "echo"), note "generate" w) |}.

(** A backend that is down. *)
Definition unreachable : LLM World :=
  {| generate := fun _ _ _ w => (Throws (ErrorObj "upstream unavailable"), w) |}.

Definition schema_of (n : string) : Tool :=
  {| t_name := n; t_description := ""; t_parameters := []; t_requiresApproval := false |}.

Definition echo : ToolWithHandler World :=
  {| schema := schema_of "echo";
     handler := fun input _ w => (Returns (Data input), note "echo" w) |}.

Definition search (result : string) : ToolWithHandler World :=
  {| schema := schema_of "search";
     handler := fun _ _ w => (Returns (Data (VStr result)), note "search" w) |}.

Definition boom : ToolWithHandler World :=
  {| schema := schema_of "boom";
     handler := fun _ _ w => (Throws (ErrorObj "boom"), note "boom" w) |}.

Definition quiet : Ext World unit := fun w => (Returns tt, w).

Definition llm_plugin (o : nat) (llm : LLM World) : PluginBase World :=
  {| obj := o; shutdown := quiet; getConnector := None; getLLM := Some llm;
     getTools := None; requestApproval := None |}.

Definition tools_plugin (o : nat) (declared : list (ToolWithHandler World))
    (hook : option (ToolWithHandler World -> Value -> ToolContext -> Ext World bool))
    : PluginBase World :=
  {| obj := o; shutdown := fun w => (Returns tt, note "shutdown" w); getConnector := None;
     getLLM := None; getTools := Some declared; requestApproval := hook |}.

Definition deny : ToolWithHandler World -> Value -> ToolContext -> Ext World bool :=
  fun _ _ _ w => (Returns false, note "deny" w).

Definition go_online (o : nat) (w : World) : World :=
  {| clock := clock w; script := script w; calls := calls w;
     online := online w ++ [o]; next_obj := next_obj w |}.

Definition go_offline (o : nat) (w : World) : World :=
  {| clock := clock w; script := script w; calls := calls w;
     online := filter (fun x => x ≠ o) (online w); next_obj := next_obj w |}.

Definition chat_connector (o : nat) : Connector World :=
  {| platform := "chat";
     connect := note "connect";
     disconnect := fun w => (Returns tt, go_offline o w);
     isConnected := fun w => bool_decide (o ∈ online w);
     onSlashCommand := true;
     sendMessage := Some (fun _ w => (Returns tt, note "sendMessage" w));
     sendTyping := Some (fun _ w => (Returns tt, note "sendTyping" w));
     sendError := None |}.

Definition chat_plugin (o : nat) : PluginBase World :=
  {| obj := o; shutdown := fun w => (Returns tt, note "shutdown" w);
     getConnector := Some (chat_connector o); getLLM := None; getTools := None;
     requestApproval := None |}.

Definition entry_of (i : string) (on : bool) (p : PluginBase World) : InstanceEntry World :=
  {| id := i; type := i; name := i; config := VObj []; enabled := on; plugin := p |}.

Definition fresh (w : World) : World :=
  {| clock := clock w; script := script w; calls := calls w;
     online := online w; next_obj := S (next_obj w) |}.

Fixpoint print (fuel : nat) (v : Value) : string :=
  match fuel, v with
  | _, VNull => "null"
  | _, VBool true => "true"
  | _, VBool false => "false"
  | _, VNum n => pretty n
  | _, VStr s => dquote +:+ s +:+ dquote
  | O, _ => "..."
  | S fuel, VArr items => "[" +:+ String.concat "," (print fuel <$> items) +:+ "]"
  | S fuel, VObj fields =>
    "{" +:+ String.concat ","
              ((fun kv : string * Value => dquote +:+ kv.1 +:+ dquote +:+ ":" +:+ print fuel kv.2)
                 <$> fields) +:+ "}"
  end.

#[global] Instance runtime : Runtime World := {|
  Date_now := clock;
  Date_toISOString := fun t => pretty t;
  JSON_stringify := print 8;
  JS_String := print 8;
  String_trim := fun s => s;
  URL_parse := fun _ => None;
  getExternalCatalogEntries := fun _ =>
    [{| ce_type := "chat"; ce_name := "Chat" |}; {| ce_type := "echo"; ce_name := "Echo" |}];
  loadExternalPlugin := fun type _ w =>
    if String.eqb type "chat" then (Returns (chat_plugin (next_obj w)), fresh w)
    else if String.eqb type "echo" then (Returns (tools_plugin (next_obj w) [echo] None), fresh w)
    else (Throws (ErrorObj ("External plugin not found: " +:+ type)), w);
  pluginRepository_getOne := fun i w => (Some {| pr_id := i; pr_assistant := Some "a1" |}, w);
  assistantRepository_getOne := fun i w =>
    (Some {| a_id := i; a_llmProvider := "llm"; a_llmModel := "m1";
             a_systemPrompt := None; a_tools := ["tools"] |}, w);
  conversationRepository_findAll := fun w => ([], w);
  conversationRepository_update := fun _ _ w => (inl tt, w);
  conversationRepository_create := fun _ w => (inl tt, w);
|}.

Definition world0 (responses : list LLMResponse) : World :=
  {| clock := 0; script := responses; calls := []; online := []; next_obj := 100 |}.

Definition state0 (registry : list (string * InstanceEntry World))
    (history : list LLMMessage) (responses : list LLMResponse) : State World :=
  {| world := world0 responses; plugins := MkJsMap registry; arrays := [history];
     connectorConversationCache := ∅; timers := []; next_timer := 0; trace := [] |}.

Definition hello : Message :=
  {| m_id := "m1"; m_platform := "chat"; m_channelId := "general"; m_userId := "u1";
     m_username := "ada"; m_content := "hello"; m_timestamp := 0;
     m_attachments := None; m_replyTo := None; m_subject := None |}.

Definition context : ToolContext :=
  {| c_userId := "u1"; c_channelId := "general"; c_platform := "chat";
     c_message := hello; c_assistantId := None |}.

Definition use (n : string) : ToolUse :=
  {| tu_id := "1"; tu_name := n; tu_input := VObj [("x", VNum 1)] |}.

(** A registry with a chat connector, a Model provider and a tool provider. *)
Definition office (llm : LLM World) (tools_on : bool)
    (hook : option (ToolWithHandler World -> Value -> ToolContext -> Ext World bool))
    : list (string * InstanceEntry World) :=
  [("chat", entry_of "chat" true (chat_plugin 1));
   ("llm", entry_of "llm" true (llm_plugin 2 llm));
   ("tools", entry_of "tools" tools_on (tools_plugin 3 [echo; boom] hook))].

(** Two tool providers that both declare ["search"]. *)
Definition libraries : list (string * InstanceEntry World) :=
  [("a", entry_of "a" true (tools_plugin 4 [search "from a"] None));
   ("b", entry_of "b" true (tools_plugin 5 [search "from b"; echo] None));
   ("c", entry_of "c" false (tools_plugin 6 [boom] None))].

Definition turn (r : Role) (text : string) : LLMMessage :=
  {| role := r; content := Some text; images := None; toolCallId := None;
     toolName := None; toolUses := None |}.

(** A cache that already holds 30 messages for the channel of [hello]. *)
Definition full_cache : gmap string (list LLMMessage) :=
  {[ "chat:general" := (fun n : nat => turn user (pretty n)) <$> seq 0 30 ]}.

Definition state_with_cache (registry : list (string * InstanceEntry World))
    (responses : list LLMResponse) : State World :=
  {| world := world0 responses; plugins := MkJsMap registry; arrays := [];
     connectorConversationCache := full_cache; timers := []; next_timer := 0;
     trace := [] |}.

(** A tool provider that refuses to shut down. *)
Definition stuck_plugin (o : nat) : PluginBase World :=
  {| obj := o; shutdown := fun w => (Throws (ErrorObj "busy"), note "shutdown" w);
     getConnector := None; getLLM := None; getTools := Some [echo];
     requestApproval := None |}.

(** A connector that has lost its channel: nothing can be delivered. *)
Definition mute_connector (o : nat) : Connector World :=
  {| platform := "chat";
     connect := note "connect";
     disconnect := fun w => (Returns tt, go_offline o w);
     isConnected := fun w => bool_decide (o ∈ online w);
     onSlashCommand := true;
     sendMessage := Some (fun _ w => (Throws (ErrorObj "channel closed"), note "sendMessage" w));
     sendTyping := None;
     sendError := None |}.

Definition mute_plugin (o : nat) : PluginBase World :=
  {| obj := o; shutdown := quiet; getConnector := Some (mute_connector o);
     getLLM := None; getTools := None; requestApproval := None |}.

(** The same runtime with no plugin record stored: no connector is bound
    to an assistant. *)
Definition unbound : Runtime World := {|
  Date_now := clock;
  Date_toISOString := fun t => pretty t;
  JSON_stringify := print 8;
  JS_String := print 8;
  String_trim := fun s => s;
  URL_parse := fun _ => None;
  getExternalCatalogEntries := fun _ => [];
  loadExternalPlugin := fun type _ w =>
    (Throws (ErrorObj ("External plugin not found: " +:+ type)), w);
  pluginRepository_getOne := fun _ w => (None, w);
  assistantRepository_getOne := fun _ w => (None, w);
  conversationRepository_findAll := fun w => ([], w);
  conversationRepository_update := fun _ _ w => (inl tt, w);
  conversationRepository_create := fun _ w => (inl tt, w);
|}.

(** An instance as the HTTP API lists it. *)
Definition listed (i : string) (on : bool) (declared : option (list Tool)) : PluginInstance :=
  {| pi_id := i; pi_type := i; pi_name := i; pi_enabled := on; pi_config := VObj [];
     pi_connected := None; pi_tools := declared |}.

(** A tool usage whose output carries one image URL. *)
Definition drawing (url : string) : ConversationToolUsage :=
  {| u_toolName := "draw"; u_input := VObj [];
     u_output := Data (VObj [("imageUrls", VArr [VStr url])]); u_error := None;
     u_durationMs := 1 |}.

(** The BigInt [10n], which [JSON.stringify] rejects; [why] is the message
    of the [TypeError], whose wording is the JavaScript engine's. *)
Definition bigint (why : string) : Unknown := Unserialisable "10" why.

(** A tool that returns a BigInt. *)
Definition count (why : string) : ToolWithHandler World :=
  {| schema := schema_of "count";
     handler := fun _ _ w => (Returns (bigint why), note "count" w) |}.

(** A tool that throws a value that is not an [Error]. *)
Definition crash (why : string) : ToolWithHandler World :=
  {| schema := schema_of "crash";
     handler := fun _ _ w => (Throws (Raised (bigint why)), note "crash" w) |}.

(** A Model provider and a provider of these two tools. *)
Definition lab (why : string) : list (string * InstanceEntry World) :=
  [("llm", entry_of "llm" true (llm_plugin 2 scripted));
   ("tools", entry_of "tools" true (tools_plugin 3 [count why; crash why] None))].

(** An automation that fires every minute. *)
Definition every_minute (i : string) (on : bool) : AutomationRecord :=
  {| au_id := i; au_name := i; au_enabled := on; au_cron := "* * * * *";
     au_assistant := "a1"; au_prompt := "report"; au_executions := None;
     au_maxExecutions := None |}.

(** Accepts the five-field expressions of this bench only. *)
Definition cron_ok (cron : string) : bool := String.eqb cron "* * * * *".

End Bench.

(** * The vocabulary of the statements *)

Section Statements.

Context {W : Type} {R : Runtime W}.

(** A [Map] holds each key once. *)
Definition wf_map {V} (m : JsMap V) : Prop := NoDup (entries m).*1.

(** One call of [LLM.generate], as recorded in the trace. *)
Record Generation := {
  gen_messages : list LLMMessage;
  gen_options : option LLMGenerateOptions;
  gen_result : Outcome LLMResponse;
}.

Definition generation_of (ev : Event) : option Generation :=
  match ev with
  | EvGenerate _ _ messages options result =>
    Some {| gen_messages := messages; gen_options := options; gen_result := result |}
  | _ => None
  end.

Definition generations (evs : list Event) : list Generation := omap generation_of evs.

(** [response.toolUses?.length] is truthy. *)
Definition requests_tools (r : Outcome LLMResponse) : Prop :=
  match r with
  | Returns response =>
    match r_toolUses response with
    | Some (_ :: _) => True
    | _ => False
    end
  | Throws _ => False
  end.

Definition tool_uses_of (g : Generation) : list ToolUse :=
  match gen_result g with
  | Returns response => default [] (r_toolUses response)
  | Throws _ => []
  end.

(** The tool uses the Model asked for, response after response. *)
Definition asked (gens : list Generation) : list ToolUse := gens ≫= tool_uses_of.

(** The tool uses the loop acts on when it runs to its end: those of every
    response but the last. *)
Fixpoint requested (gens : list Generation) : list ToolUse :=
  match gens with
  | [] => []
  | g :: rest =>
    match rest with
    | [] => []
    | _ :: _ => tool_uses_of g ++ requested rest
    end
  end.

(** A value that [JSON.stringify] renders, as a text or as [undefined]. *)
Definition renders (x : Unknown) : Prop :=
  match x with
  | Unserialisable _ _ => False
  | _ => True
  end.

(** The exception of a [JSON.stringify] that failed. *)
Definition stringify_error (e : Thrown) : Prop :=
  exists x, stringify x = Throws e.

(** An outcome of tool code that the tool loop can record: a result that
    [JSON.stringify] renders, an [Error], or a thrown value that the logger
    can format. *)
Definition recordable {A} (render : A -> Prop) (o : Outcome A) : Prop :=
  match o with
  | Returns a => render a
  | Throws (ErrorObj _) => True
  | Throws (Raised x) => renders x
  end.

(** A registry whose tool code (handlers and approval hooks) has
    recordable outcomes only. *)
Definition serialisable (registry : JsMap (InstanceEntry W)) : Prop :=
  forall instanceId entry,
    registry !! instanceId = Some entry ->
    (forall declared t input context w,
       getTools (plugin entry) = Some declared -> t ∈ declared ->
       recordable renders (handler t input context w).1)
    /\ (forall hook t input context w,
          requestApproval (plugin entry) = Some hook ->
          recordable (fun _ => True) (hook t input context w).1).

(** A Model that always answers (a mock fed with responses). *)
Definition never_throws (llm : LLM W) : Prop :=
  forall model messages options w,
    exists response w', generate llm model messages options w = (Returns response, w').

Definition is_handler_call (ev : Event) : bool :=
  match ev with
  | EvHandler _ _ _ _ _ => true
  | _ => false
  end.

Definition handler_calls (evs : list Event) : list Event :=
  filter (fun ev => is_handler_call ev = true) evs.

(** The tool message pushed for a usage record (a usage is recorded only
    once its output has been rendered). *)
Definition usage_message (toolUse : ToolUse) (usage : ConversationToolUsage) : LLMMessage :=
  tool_message toolUse
    (match result_content (u_output usage) with
     | Returns content => content
     | Throws _ => None
     end).

Definition is_tool_message (m : LLMMessage) : Prop := role m = tool.

#[global] Instance is_tool_message_dec m : Decision (is_tool_message m).
Proof. unfold is_tool_message. destruct (role m); (by left) || (by right). Defined.

(** The tools a provider id contributes: those its instance declares, when
    the instance is present, enabled and has the Tooling capability. *)
Definition contributes (registry : JsMap (InstanceEntry W)) (instanceId : string)
    : list (ToolWithHandler W) :=
  match registry !! instanceId with
  | Some entry => if enabled entry then default [] (getTools (plugin entry)) else []
  | None => []
  end.

Definition declares (registry : JsMap (InstanceEntry W)) (toolName_ : string)
    (instanceId : string) : Prop :=
  toolName_ ∈ (fun t => t_name (schema t)) <$> contributes registry instanceId.

#[global] Instance declares_dec registry toolName_ instanceId :
  Decision (declares registry toolName_ instanceId).
Proof. unfold declares. apply _. Defined.

(** The events by which a replacement object comes to life. *)
Definition is_construction (ev : Event) : Prop :=
  match ev with
  | EvLoadPlugin _ _ _ | EvOnMessage _ | EvOnSlashCommand _ | EvConnect _ => True
  | _ => False
  end.

(** An awaited call into plugin code that was rejected. *)
Definition rejected (ev : Event) : Prop :=
  match ev with
  | EvGenerate _ _ _ _ (Throws _) | EvRequestApproval _ _ _ _ (Throws _)
  | EvHandler _ _ _ _ (Throws _) | EvLoadPlugin _ _ (Throws _)
  | EvShutdown _ (Throws _) | EvDisconnect _ (Throws _)
  | EvSendMessage _ _ (Throws _) | EvSendTyping _ _ (Throws _)
  | EvSendError _ _ _ _ (Throws _) => True
  | _ => False
  end.

(** The completed disconnection of an object whose channel is connected. *)
Definition disconnection (w : W) (p : PluginBase W) : list Event :=
  match getConnector p with
  | Some connector =>
    if isConnected connector w then [EvDisconnect (obj p) (Returns tt)] else []
  | None => []
  end.

(** The wiring of a new object: callbacks, then [connect()]. *)
Definition wiring (p : PluginBase W) : list Event :=
  match getConnector p with
  | Some connector =>
    EvOnMessage (obj p)
      :: (if onSlashCommand connector then [EvOnSlashCommand (obj p)] else [])
      ++ [EvConnect (obj p)]
  | None => []
  end.

(** The world when the wiring of a new object is done: its [connect()]
    has been called, not awaited. *)
Definition wired (p : PluginBase W) (w : W) : W :=
  match getConnector p with
  | Some connector => connect connector w
  | None => w
  end.

Definition cache_bounded (c : gmap string (list LLMMessage)) : Prop :=
  forall key l, c !! key = Some l -> (length l <= MAX_CACHED_MESSAGES)%nat.

(** The connector can deliver every message it is asked to send. *)
Definition always_delivers (connector : Connector W) : Prop :=
  forall send, sendMessage connector = Some send ->
    forall options w, exists w', send options w = (Returns tt, w').

(** Plain Model generation: one [generate] call, without tool schemas, and
    no tool handler run. *)
Definition plain_generation (evs : list Event) : Prop :=
  (exists g, generations evs = [g] /\ gen_options g ≫= g_tools = None)
  /\ handler_calls evs = [].

(** The tool set [generateWithProvider] falls back on: the tools of every
    enabled instance of the registry that has the Tooling capability. *)
Definition fallback_tools (registry : JsMap (InstanceEntry W)) : ResolvedTools :=
  getToolsForActionIds registry (getAllEnabledPluginWithToolIds registry).

(** The object on which an event invokes the Tooling capability. *)
Definition tool_call_on (ev : Event) : option nat :=
  match ev with
  | EvRequestApproval o _ _ _ _ | EvHandler o _ _ _ _ => Some o
  | _ => None
  end.

(** The plugin object of an enabled instance of the registry. *)
Definition enabled_object (registry : JsMap (InstanceEntry W)) (o : nat) : Prop :=
  exists instanceId entry,
    registry !! instanceId = Some entry /\ enabled entry = true /\ obj (plugin entry) = o.

(** An event that invokes no tool of a disabled or unknown instance. *)
Definition spares_disabled (registry : JsMap (InstanceEntry W)) (ev : Event) : Prop :=
  forall o, tool_call_on ev = Some o -> enabled_object registry o.

(** A reverse index that names enabled instances only. *)
Definition names_enabled_only (registry : JsMap (InstanceEntry W))
    (index : gmap string string) : Prop :=
  forall toolName_ instanceId,
    index !! toolName_ = Some instanceId ->
    exists entry, registry !! instanceId = Some entry /\ enabled entry = true.

(** ** The tool loop, as seen from a caller *)

(** What the Model is shown after a turn in which it asked for tools: the
    history it was shown before, its own tool-use turn, and one tool
    message per requested tool use, in the order of the requests. *)
Definition answers_tool_requests (g1 g2 : Generation) : Prop :=
  exists response_ results,
    gen_result g1 = Returns response_
    /\ gen_messages g2 = gen_messages g1 ++ assistant_turn response_ :: results
    /\ Forall2 (fun toolUse m =>
                  role m = tool /\ toolCallId m = Some (tu_id toolUse)
                  /\ toolName m = Some (tu_name toolUse))
               (default [] (r_toolUses response_)) results.

Fixpoint chained (gens : list Generation) : Prop :=
  match gens with
  | [] => True
  | g1 :: rest =>
    match rest with
    | [] => True
    | g2 :: _ => answers_tool_requests g1 g2 /\ chained rest
    end
  end.

(** The provider that [generateWithTools] accepts: present, enabled and
    Model-capable. *)
Definition provider_of (registry : JsMap (InstanceEntry W)) (providerId : string)
    : option (InstanceEntry W * LLM W) :=
  match registry !! providerId with
  | Some entry =>
    if enabled entry then (fun llm => (entry, llm)) <$> getLLM (plugin entry) else None
  | None => None
  end.

(** What a handler was invoked for: the tool name, the input, the context. *)
Definition handler_signature (ev : Event) : option (string * Value * ToolContext) :=
  match ev with
  | EvHandler _ t input ctx _ => Some (t_name t, input, ctx)
  | _ => None
  end.

(** What a tool request asks a handler for. *)
Definition request_signature (context : ToolContext) (toolUse : ToolUse)
    : string * Value * ToolContext :=
  (tu_name toolUse, tu_input toolUse, context).

(** The tool that [executeTool] runs for a request, if any. *)
Definition resolved_tool (registry : JsMap (InstanceEntry W)) (instanceId : string)
    (toolUse : ToolUse) : option (ToolWithHandler W) :=
  match registry !! instanceId with
  | Some entry =>
    match getTools (plugin entry) with
    | Some declared => find (named toolUse) declared
    | None => None
    end
  | None => None
  end.

(** The error with which [executeTool] refuses a request it cannot resolve. *)
Definition resolution_error (registry : JsMap (InstanceEntry W)) (instanceId : string)
    (toolUse : ToolUse) : string :=
  match registry !! instanceId ≫= (fun entry => getTools (plugin entry)) with
  | Some _ => "Tool not found: " +:+ tu_name toolUse
  | None => "Plugin with tools not found: " +:+ instanceId
  end.

(** ** The registry operations *)

(** The schemas an entry offers to the Model: those of an enabled entry
    with the Tooling capability. *)
Definition offered (entry : InstanceEntry W) : list Tool :=
  if enabled entry then toTools (default [] (getTools (plugin entry))) else [].

(** The events of a teardown that fails with [e]: the disconnection was
    rejected (and [shutdown()] never called), or [shutdown()] was. *)
Definition failed_teardown (w : W) (p : PluginBase W) (e : Thrown) (evs : list Event)
    : Prop :=
  evs = [EvDisconnect (obj p) (Throws e)]
  \/ evs = disconnection w p ++ [EvShutdown (obj p) (Throws e)].

Definition is_disconnect (ev : Event) : Prop :=
  match ev with
  | EvDisconnect _ _ => True
  | _ => False
  end.

(** ** The chat service and its route *)

(** A tool call (approval hook or handler) on the object of one of the
    instances [allowed]. *)
Definition confined_to (registry : JsMap (InstanceEntry W)) (allowed : string -> Prop)
    (ev : Event) : Prop :=
  forall o, tool_call_on ev = Some o ->
    exists instanceId entry,
      allowed instanceId /\ registry !! instanceId = Some entry
      /\ obj (plugin entry) = o.

(** The caller's history without its leading system message, if any. *)
Definition without_leading_system (messages : list LLMMessage) : list LLMMessage :=
  match messages with
  | first :: rest =>
    match role first with
    | system => rest
    | _ => messages
    end
  | [] => []
  end.

(** A request field that is present and not the empty string. *)
Definition given (field : option string) : option string :=
  match field with
  | Some (String c rest) => Some (String c rest)
  | _ => None
  end.

(** ** The connector message handler *)

(** The state once the repositories have answered and left the world [w]. *)
Definition in_world (w : W) (s : State W) : State W :=
  {| world := w; plugins := plugins s; arrays := arrays s;
     connectorConversationCache := connectorConversationCache s;
     timers := timers s; next_timer := next_timer s; trace := trace s |}.

(** The assistant a connector is bound to, as the handler looks it up: the
    [assistant] of the connector's plugin record, if that assistant is
    stored and names a provider and a model. *)
Definition bound_assistant (entry : InstanceEntry W) (w : W) : option AssistantRecord * W :=
  let '(connectorRecord, w1) := pluginRepository_getOne (id entry) w in
  match connectorRecord ≫= pr_assistant with
  | Some (String c rest) =>
    let '(assistant_, w2) := assistantRepository_getOne (String c rest) w1 in
    (configured assistant_, w2)
  | _ => (None, w1)
  end.

(** How the failure [e] of a generation is reported on the channel:
    through [sendError] if the connector has it, else as an ordinary
    message, else not at all. *)
Definition failure_report (entry : InstanceEntry W) (connector : Connector W)
    (message : Message) (e : Thrown) (evs : list Event) : Prop :=
  match sendError connector, sendMessage connector with
  | Some _, _ =>
    exists r, evs = [EvSendError (obj (plugin entry)) (m_channelId message)
                       (describe_error e) "llm_error" r]
  | None, Some _ =>
    exists r, evs = [EvSendMessage (obj (plugin entry))
                       {| sm_channelId := m_channelId message;
                          sm_content := "Error: " +:+ describe_error e;
                          sm_replyTo := Some (m_id message);
                          sm_attachments := None |} r]
  | None, None => evs = []
  end.

(** ** Automations *)

(** An instance description that describes a registry entry, as
    [toPluginInstance] builds it, in the fields the scheduler reads. *)
Definition describes (entry : InstanceEntry W) (instance : PluginInstance) : Prop :=
  pi_id instance = id entry
  /\ pi_enabled instance = enabled entry
  /\ pi_tools instance = toTools <$> getTools (plugin entry).

(** Every entry is registered under its own [id], as [addPlugin] does. *)
Definition keyed_by_id (registry : JsMap (InstanceEntry W)) : Prop :=
  forall key entry, (key, entry) ∈ entries registry -> id entry = key.

(** ** The table of cron jobs *)

(** The job table and the running cron jobs agree: the running jobs are
    exactly the jobs of the table, each automation has its own job, and job
    handles are not reused. *)
Record jobs_consistent (s : Scheduler) : Prop := {
  jobs_wf : wf_map (scheduledJobs s);
  jobs_distinct : NoDup (running s).*1;
  jobs_running : forall j,
    j ∈ (running s).*1 <->
    exists id scheduled, scheduledJobs s !! id = Some scheduled /\ job scheduled = j;
  jobs_own : forall id1 id2 scheduled1 scheduled2,
    scheduledJobs s !! id1 = Some scheduled1 ->
    scheduledJobs s !! id2 = Some scheduled2 ->
    job scheduled1 = job scheduled2 -> id1 = id2;
  jobs_fresh : forall j, j ∈ (running s).*1 -> (j < next_job s)%nat;
}.

(** The automation that the running job of [id] executes. *)
Definition runs (s : Scheduler) (id : string) (automation : AutomationRecord) : Prop :=
  exists scheduled,
    scheduledJobs s !! id = Some scheduled
    /\ automationId scheduled = id
    /\ (job scheduled, automation) ∈ running s.

(** ** URLs and attachments *)

(** The string of [n] slashes. *)
Fixpoint slashes (n : nat) : string :=
  match n with
  | O => ""
  | S n => String "/" (slashes n)
  end.

(** Whether the last character of [s] is a slash. *)
Fixpoint ends_in_slash (s : string) : bool :=
  match s with
  | EmptyString => false
  | String c EmptyString => Ascii.eqb c "/"
  | String _ rest => ends_in_slash rest
  end.

End Statements.

(** * Properties *)

(** ** The registry as a [Map] *)

Section JsMapFacts.
Context {V : Type}.
Implicit Types (m : JsMap V) (l : list (string * V)) (k : string) (v : V).

Lemma entries_get_set_eq k v l : entries_get k (entries_set k v l) = Some v.
Proof.
  induction l as [|[k' v'] l IH]; cbn.
  - by rewrite String.eqb_refl.
  - destruct (String.eqb k' k) eqn:E; cbn; rewrite E; [done|apply IH].
Qed.

Lemma entries_get_set_ne k k' v l :
  k ≠ k' -> entries_get k' (entries_set k v l) = entries_get k' l.
Proof.
  intros Hne. induction l as [|[k0 v0] l IH]; cbn.
  - by apply String.eqb_neq in Hne as ->.
  - destruct (String.eqb k0 k) eqn:E; cbn.
    + apply String.eqb_eq in E as ->. by apply String.eqb_neq in Hne as ->.
    + by rewrite IH.
Qed.

Lemma entries_get_delete_ne k k' l :
  k ≠ k' -> entries_get k' (entries_delete k l) = entries_get k' l.
Proof.
  intros Hne. induction l as [|[k0 v0] l IH]; cbn; [done|].
  destruct (String.eqb k0 k) eqn:E; cbn.
  - apply String.eqb_eq in E as ->. by apply String.eqb_neq in Hne as ->.
  - by rewrite IH.
Qed.

Lemma entries_delete_keys k l x : x ∈ (entries_delete k l).*1 -> x ∈ l.*1.
Proof.
  induction l as [|[k0 v0] l IH]; cbn; [done|].
  destruct (String.eqb k0 k); cbn.
  - apply list_elem_of_further.
  - intros [->|Hin]%elem_of_cons; [apply list_elem_of_here|].
    by apply list_elem_of_further, IH.
Qed.

Lemma entries_delete_NoDup k l : NoDup l.*1 -> NoDup (entries_delete k l).*1.
Proof.
  induction l as [|[k0 v0] l IH]; cbn; [done|].
  intros [Hk Hl]%NoDup_cons. destruct (String.eqb k0 k); cbn; [done|].
  apply NoDup_cons. split; [|by apply IH].
  intros Hin. apply Hk. by apply (entries_delete_keys k l).
Qed.

Lemma entries_set_keys k v l x : x ∈ (entries_set k v l).*1 -> x = k \/ x ∈ l.*1.
Proof.
  induction l as [|[k0 v0] l IH]; cbn.
  - intros ->%list_elem_of_singleton. by left.
  - destruct (String.eqb k0 k) eqn:E; cbn.
    + intros Hin. by right.
    + intros [->|Hin]%elem_of_cons; [right; apply list_elem_of_here|].
      destruct (IH Hin); [by left|right; by apply list_elem_of_further].
Qed.

Lemma entries_set_NoDup k v l : NoDup l.*1 -> NoDup (entries_set k v l).*1.
Proof.
  induction l as [|[k0 v0] l IH]; cbn.
  - intros _. apply NoDup_singleton.
  - intros [Hk Hl]%NoDup_cons. destruct (String.eqb k0 k) eqn:E; cbn.
    + by apply NoDup_cons.
    + apply NoDup_cons. split; [|by apply IH].
      intros [->|Hin]%entries_set_keys; [|done].
      by rewrite String.eqb_refl in E.
Qed.

Lemma JsMap_lookup_insert_eq m k v : <[k := v]> m !! k = Some v.
Proof. apply entries_get_set_eq. Qed.

Lemma JsMap_lookup_insert_ne m k k' v : k ≠ k' -> <[k := v]> m !! k' = m !! k'.
Proof. apply entries_get_set_ne. Qed.

Lemma JsMap_lookup_delete_ne m k k' : k ≠ k' -> delete k m !! k' = m !! k'.
Proof. apply entries_get_delete_ne. Qed.

Lemma wf_map_insert m k v : wf_map m -> wf_map (<[k := v]> m).
Proof. apply entries_set_NoDup. Qed.

Lemma wf_map_delete m k : wf_map m -> wf_map (delete k m).
Proof. apply entries_delete_NoDup. Qed.

Lemma entries_get_None k l : entries_get k l = None <-> k ∉ l.*1.
Proof.
  induction l as [|[k0 v0] l IH]; cbn; [split; [intros _; apply not_elem_of_nil|done]|].
  rewrite not_elem_of_cons. destruct (String.eqb_spec k0 k) as [->|Hne].
  - split; [done|]. by intros [? _].
  - rewrite IH. split; [by split|by intros [_ ?]].
Qed.

Lemma entries_get_elem_of k v l : NoDup l.*1 -> (k, v) ∈ l <-> entries_get k l = Some v.
Proof.
  induction l as [|[k0 v0] l IH]; cbn; intros Hnd.
  - split; [by intros ?%elem_of_nil|done].
  - apply NoDup_cons in Hnd as [Hk0 Hnd]. rewrite elem_of_cons.
    destruct (String.eqb_spec k0 k) as [->|Hne].
    + split; [|by intros [= ->]; left].
      intros [[= ->]|Hin]; [done|]. destruct Hk0.
      apply list_elem_of_fmap. by exists (k, v).
    + rewrite <- IH by done. split; [|by right]. by intros [[= ? ?]|?].
Qed.

Lemma entries_set_absent k v l : entries_get k l = None -> entries_set k v l = l ++ [(k, v)].
Proof.
  induction l as [|[k0 v0] l IH]; cbn; [done|].
  destruct (String.eqb k0 k); [done|]. intros Hl. by rewrite IH.
Qed.

Lemma entries_set_present k v v0 l :
  entries_get k l = Some v0 -> (entries_set k v l).*1 = l.*1.
Proof.
  induction l as [|[k0 v1] l IH]; cbn; [done|].
  destruct (String.eqb k0 k); [done|]. intros Hl. cbn. f_equal. by apply IH.
Qed.

Lemma entries_set_same k v l : entries_get k l = Some v -> entries_set k v l = l.
Proof.
  induction l as [|[k0 v1] l IH]; cbn; [done|].
  destruct (String.eqb k0 k); [by intros [= ->]|]. intros Hl. by rewrite IH.
Qed.

Lemma entries_set_twice k v v' l : entries_set k v (entries_set k v' l) = entries_set k v l.
Proof.
  induction l as [|[k0 v1] l IH]; cbn; [by rewrite String.eqb_refl|].
  destruct (String.eqb k0 k) eqn:Hk; cbn; rewrite Hk; [done|]. by rewrite IH.
Qed.

Lemma entries_get_delete_eq k l : NoDup l.*1 -> entries_get k (entries_delete k l) = None.
Proof.
  induction l as [|[k0 v0] l IH]; cbn; intros Hnd; [done|].
  apply NoDup_cons in Hnd as [Hk0 Hnd].
  destruct (String.eqb_spec k0 k) as [->|Hne]; [by apply entries_get_None|].
  cbn. destruct (String.eqb_spec k0 k); [done|]. by apply IH.
Qed.

Lemma JsMap_lookup_delete_eq m k : wf_map m -> delete k m !! k = None.
Proof. apply entries_get_delete_eq. Qed.

Lemma JsMap_elem_of m k v : wf_map m -> (k, v) ∈ entries m <-> m !! k = Some v.
Proof. apply entries_get_elem_of. Qed.

Lemma entries_delete_absent k l :
  entries_get k l = None -> entries_delete k l = l.
Proof.
  induction l as [|[k0 v0] l IH]; cbn; [done|].
  destruct (String.eqb k0 k); [done|]. intros Hl. by rewrite IH.
Qed.

End JsMapFacts.

Section Properties.

Context {W : Type} {R : Runtime W}.

(** ** The monad *)

Lemma with_world_twice (w1 w2 : W) (e1 e2 : list Event) (s : State W) :
  with_world w2 e2 (with_world w1 e1 s) = with_world w2 (e1 ++ e2) s.
Proof. unfold with_world; cbn. by rewrite <- app_assoc. Qed.

Lemma with_world_same (s : State W) : with_world (world s) [] s = s.
Proof. destruct s; unfold with_world; cbn. by rewrite app_nil_r. Qed.

Lemma with_arrays_with_world (h : list (list LLMMessage)) (w : W) (e : list Event)
    (s : State W) :
  with_world w e (with_arrays h s) = with_arrays h (with_world w e s).
Proof. reflexivity. Qed.

(** ** What the Model was asked *)

Lemma generations_app (e1 e2 : list Event) :
  generations (e1 ++ e2) = generations e1 ++ generations e2.
Proof. apply omap_app. Qed.

(** ** One tool use *)

Ltac unchanged s :=
  exists (world s), []; rewrite ?with_world_same; done.

Lemma executeTool_effect (instanceId : string) (toolUse : ToolUse) (context : ToolContext)
    (registry : JsMap (InstanceEntry W)) (s : State W) :
  exists w evs,
    (executeTool instanceId toolUse context registry s).2 = with_world w evs s
    /\ generations evs = [].
Proof.
  unfold executeTool.
  destruct (registry !! instanceId) as [entry|]; [|unchanged s].
  destruct (getTools (plugin entry)) as [declared|]; [|unchanged s].
  destruct (find (named toolUse) declared) as [t|]; [|unchanged s].
  assert (Hrun : forall s0 : State W, exists w evs,
             (invoke_handler (plugin entry) t toolUse context s0).2 = with_world w evs s0
             /\ generations evs = []).
  { intros s0. unfold invoke_handler, call.
    destruct (handler t (tu_input toolUse) context (world s0)) as [r w]; cbn. eauto. }
  destruct (requestApproval (plugin entry)) as [hook|]; [|apply Hrun].
  unfold bind, call.
  destruct (hook t (tu_input toolUse) context (world s)) as [[[|]|e] w1]; cbn; eauto.
  destruct (Hrun (with_world w1
    [EvRequestApproval (obj (plugin entry)) (toTool t) (tu_input toolUse) context
       (Returns true)] s)) as (w2 & evs & -> & Hq).
  rewrite with_world_twice. eexists _, _; split; [done|].
  by rewrite generations_app, Hq.
Qed.

(** C6 (approval gate).  Once [executeTool] has resolved the instance and
    found the named tool among its declared tools: when the instance
    declares [requestApproval], the hook is called first, with the tool,
    the input and the context; if it returns [false] the handler is never
    invoked (the only event is the hook's, the world is the one the hook
    left) and the result is exactly [{error: "Action was not approved"}],
    returned normally and not thrown; if it returns [true], or when no
    hook is declared, the outcome is the handler's, verbatim. *)
Theorem executeTool_approval_gate
    (registry : JsMap (InstanceEntry W)) (instanceId : string) (toolUse : ToolUse)
    (context : ToolContext) (entry : InstanceEntry W)
    (declared : list (ToolWithHandler W)) (t : ToolWithHandler W) (s : State W) :
  registry !! instanceId = Some entry ->
  getTools (plugin entry) = Some declared ->
  find (named toolUse) declared = Some t ->
  let run := executeTool instanceId toolUse context registry s in
  let input := tu_input toolUse in
  let p := plugin entry in
  match requestApproval p with
  | Some hook =>
    let '(verdict, w1) := hook t input context (world s) in
    let asked := EvRequestApproval (obj p) (toTool t) input context verdict in
    match verdict with
    | Returns false =>
      run = (Returns (Data (VObj [("error", VStr "Action was not approved")])),
             with_world w1 [asked] s)
    | Returns true =>
      let '(result, w2) := handler t input context w1 in
      run = (result,
             with_world w2 [asked; EvHandler (obj p) (toTool t) input context result] s)
    | Throws e => run = (Throws e, with_world w1 [asked] s)
    end
  | None =>
    let '(result, w2) := handler t input context (world s) in
    run = (result, with_world w2 [EvHandler (obj p) (toTool t) input context result] s)
  end.
Proof.
  intros Hentry Htools Hfind. cbn zeta.
  unfold executeTool. rewrite Hentry, Htools, Hfind.
  destruct (requestApproval (plugin entry)) as [hook|].
  - unfold bind, call, invoke_handler, ret.
    destruct (hook t (tu_input toolUse) context (world s)) as [[[|]|e] w1]; cbn.
    + unfold call; cbn. destruct (handler t (tu_input toolUse) context w1); cbn.
      by rewrite with_world_twice.
    + reflexivity.
    + reflexivity.
  - unfold invoke_handler, call.
    destruct (handler t (tu_input toolUse) context (world s)); reflexivity.
Qed.

(** One tool use: its record and its message, or an exception once the
    tool code has run; the Model is not called. *)
Lemma runToolUse_spec (index : gmap string string) (context : ToolContext)
    (registry : JsMap (InstanceEntry W)) (cur : nat) (toolUse : ToolUse) (s : State W) :
  exists w evs,
    generations evs = []
    /\ match runToolUse index context registry cur toolUse s with
       | (Returns usage, s1) =>
         s1 = with_arrays (alter (fun l => l ++ [usage_message toolUse usage]) cur (arrays s))
                (with_world w evs s)
         /\ u_toolName usage = tu_name toolUse
         /\ u_input usage = tu_input toolUse
       | (Throws e, s1) => s1 = with_world w evs s /\ stringify_error e
       end.
Proof.
  unfold runToolUse, bind, now, ret, array_push, lift; cbn.
  destruct (index !! tu_name toolUse) as [[|c instanceId]|] eqn:Hindex; cbn.
  1, 3: exists (world s), []; rewrite with_world_same; done.
  unfold try_catch, bind.
  destruct (executeTool_effect (String c instanceId) toolUse context registry s)
    as (w & evs & Hs & Hq).
  exists w, evs. split; [done|].
  destruct (executeTool (String c instanceId) toolUse context registry s) as [[v|e] s1];
    cbn in Hs; subst s1; cbn.
  - unfold usage_message.
    destruct v as [[]| |shown why]; cbn; try done.
    split; [done|]. by exists (Unserialisable shown why).
  - destruct e as [message|[v| |shown why]]; cbn; try done.
    split; [done|]. by exists (Unserialisable shown why).
Qed.

Lemma runToolUses_spec (index : gmap string string) (context : ToolContext)
    (registry : JsMap (InstanceEntry W)) (cur : nat) (requested_ : list ToolUse) :
  forall (usages : list ConversationToolUsage) (s : State W),
  exists w evs,
    generations evs = []
    /\ match runToolUses index context registry cur requested_ usages s with
       | (Returns all, s1) =>
         exists new,
           all = usages ++ new
           /\ s1 = with_arrays
                     (alter (fun l => l ++ zip_with usage_message requested_ new) cur
                            (arrays s))
                     (with_world w evs s)
           /\ u_toolName <$> new = tu_name <$> requested_
           /\ u_input <$> new = tu_input <$> requested_
       | (Throws e, s1) =>
         exists added,
           s1 = with_arrays (alter (fun l => l ++ added) cur (arrays s)) (with_world w evs s)
           /\ stringify_error e
       end.
Proof.
  induction requested_ as [|toolUse rest IH]; intros usages s; cbn.
  - exists (world s), []. rewrite with_world_same. split; [done|].
    exists []. rewrite app_nil_r. split; [done|]. split; [|done].
    rewrite list_alter_id; [by destruct s|]. intros l. apply app_nil_r.
  - unfold bind.
    destruct (runToolUse_spec index context registry cur toolUse s)
      as (w1 & e1 & Hq1 & Hone).
    destruct (runToolUse index context registry cur toolUse s) as [[usage|e] s1].
    2: { exists w1, e1. split; [done|]. exists []. destruct Hone as [-> Herr].
         split; [|done].
         rewrite list_alter_id; [by destruct s|]. intros l. apply app_nil_r. }
    destruct Hone as (-> & Hn1 & Hi1).
    set (s1 := with_arrays _ _).
    destruct (IH (usages ++ [usage]) s1) as (w2 & e2 & Hq2 & Hrest).
    exists w2, (e1 ++ e2). split; [by rewrite generations_app, Hq1, Hq2|].
    assert (Hstate : forall added,
      with_arrays (alter (fun l => l ++ added) cur (arrays s1)) (with_world w2 e2 s1)
      = with_arrays
          (alter (fun l => l ++ usage_message toolUse usage :: added) cur (arrays s))
          (with_world w2 (e1 ++ e2) s)).
    { intros added. subst s1. unfold with_arrays, with_world; cbn. f_equal.
      - rewrite list_alter_alter_eq. apply list_alter_ext; [|done].
        intros l _. cbn. by rewrite <- app_assoc.
      - by rewrite app_assoc. }
    destruct (runToolUses index context registry cur rest (usages ++ [usage]) s1)
      as [[all|e] s2].
    + destruct Hrest as (new & -> & -> & Hn2 & Hi2). exists (usage :: new).
      rewrite <- app_assoc. cbn. rewrite Hn1, Hi1, Hn2, Hi2, Hstate. done.
    + destruct Hrest as (added & -> & Herr). eexists. by rewrite Hstate.
Qed.

(** With recordable tool outcomes the tool uses are all served. *)
Lemma executeTool_recordable (instanceId : string) (toolUse : ToolUse)
    (context : ToolContext) (registry : JsMap (InstanceEntry W)) (s : State W) :
  serialisable registry ->
  recordable renders (executeTool instanceId toolUse context registry s).1.
Proof.
  intros Hreg. unfold executeTool.
  destruct (registry !! instanceId) as [entry|] eqn:Hentry; [|done].
  destruct (getTools (plugin entry)) as [declared|] eqn:Htools; [|done].
  destruct (find (named toolUse) declared) as [t|] eqn:Hfind; [|done].
  destruct (Hreg _ _ Hentry) as [Hhandlers Hhooks].
  assert (Ht : t ∈ declared).
  { apply list_elem_of_In. by apply (find_some _ _ Hfind). }
  assert (Hrun : forall s0 : State W,
             recordable renders (invoke_handler (plugin entry) t toolUse context s0).1).
  { intros s0. unfold invoke_handler, call.
    pose proof (Hhandlers declared t (tu_input toolUse) context (world s0) Htools Ht) as Hh.
    by destruct (handler t (tu_input toolUse) context (world s0)). }
  destruct (requestApproval (plugin entry)) as [hook|] eqn:Hhook; [|apply Hrun].
  unfold bind, call.
  pose proof (Hhooks hook t (tu_input toolUse) context (world s) eq_refl) as Hh.
  destruct (hook t (tu_input toolUse) context (world s)) as [[[|]|e] w1]; cbn; [|done|done].
  apply Hrun.
Qed.

Lemma runToolUse_returns (index : gmap string string) (context : ToolContext)
    (registry : JsMap (InstanceEntry W)) (cur : nat) (toolUse : ToolUse) (s : State W) :
  serialisable registry ->
  exists usage s1, runToolUse index context registry cur toolUse s = (Returns usage, s1).
Proof.
  intros Hreg. unfold runToolUse, bind, now, ret, array_push, lift; cbn.
  destruct (index !! tu_name toolUse) as [[|c instanceId]|] eqn:Hindex; cbn; eauto.
  unfold try_catch, bind.
  pose proof (executeTool_recordable (String c instanceId) toolUse context registry s Hreg)
    as Hrec.
  destruct (executeTool (String c instanceId) toolUse context registry s) as [[v|e] s1];
    cbn in Hrec |- *.
  - destruct v as [[]| |]; cbn; by eauto.
  - destruct e as [message|[]]; cbn; by eauto.
Qed.

Lemma runToolUses_returns (index : gmap string string) (context : ToolContext)
    (registry : JsMap (InstanceEntry W)) (cur : nat) (requested_ : list ToolUse) :
  serialisable registry ->
  forall (usages : list ConversationToolUsage) (s : State W),
  exists all s1,
    runToolUses index context registry cur requested_ usages s = (Returns all, s1).
Proof.
  intros Hreg. induction requested_ as [|toolUse rest IH]; intros usages s; cbn.
  - by eexists _, _.
  - unfold bind.
    destruct (runToolUse_returns index context registry cur toolUse s Hreg)
      as (usage & s1 & ->).
    apply IH.
Qed.

(** ** The loop *)

Lemma call_generate_run (p : PluginBase W) (llm : LLM W) (model : string) (cur : nat)
    (options : option LLMGenerateOptions) (s : State W) (H : list LLMMessage) :
  arrays s !! cur = Some H ->
  call_generate p llm model cur options s =
    let '(r, w) := generate llm model H options (world s) in
    (r, with_world w [EvGenerate (obj p) model H options r] s).
Proof.
  intros HH. unfold call_generate, bind, read_array, call. rewrite HH; cbn.
  by destruct (generate llm model H options (world s)).
Qed.

Definition loop_outcome (n : nat) (options : option GenerationOptions)
    (H : list LLMMessage) (usages : list ConversationToolUsage)
    (result : GenerateWithToolsResult) (gens : list Generation) : Prop :=
  (1 <= length gens <= S n)%nat
  /\ gen_messages <$> head gens = Some H
  /\ gen_result <$> last gens = Some (Returns (response result))
  /\ (Forall requests_tools (gen_result <$> take n gens) ->
      length gens = S n
      /\ gen_options <$> last gens = Some (Some (spread_options options None)))
  /\ exists new added,
      toolUsages result = usages ++ new
      /\ gen_messages <$> last gens = Some (H ++ added)
      /\ u_toolName <$> new = tu_name <$> requested gens
      /\ u_input <$> new = tu_input <$> requested gens
      /\ filter is_tool_message added = zip_with usage_message (requested gens) new.

Lemma filter_usage_messages (uses : list ToolUse) (new : list ConversationToolUsage) :
  filter is_tool_message (zip_with usage_message uses new) = zip_with usage_message uses new.
Proof.
  revert new; induction uses as [|u uses IH]; intros [|x new]; try done.
  cbn [zip_with]. rewrite filter_cons_True; [|done]. by rewrite IH.
Qed.

Lemma toolLoop_total (p : PluginBase W) (llm : LLM W) (model : string)
    (options : option GenerationOptions) (genOptions : LLMGenerateOptions)
    (index : gmap string string) (context : ToolContext)
    (registry : JsMap (InstanceEntry W)) :
  never_throws llm ->
  serialisable registry ->
  forall (n cur : nat) (usages : list ConversationToolUsage) (s : State W)
         (H : list LLMMessage),
    arrays s !! cur = Some H ->
    exists result s' evs,
      toolLoop n p llm model options genOptions index context registry cur usages s
        = (Returns result, s')
      /\ trace s' = trace s ++ evs
      /\ loop_outcome n options H usages result (generations evs).
Proof.
  intros Hllm Hreg. induction n as [|n IH]; intros cur usages s H Hcur; cbn [toolLoop].
  - unfold bind. rewrite (call_generate_run _ _ _ _ _ _ _ Hcur).
    destruct (Hllm model H (Some (spread_options options None)) (world s)) as (r & w & ->).
    eexists _, _, _. split; [reflexivity|]. split; [reflexivity|].
    unfold loop_outcome; cbn. repeat split; try lia.
    exists [], []. by rewrite !app_nil_r.
  - unfold bind. rewrite (call_generate_run _ _ _ _ _ _ _ Hcur).
    destruct (Hllm model H (Some genOptions) (world s)) as (r & w & ->).
    destruct (r_toolUses r) as [[|toolUse more]|] eqn:Huses.
    1, 3: eexists _, _, _; (split; [reflexivity|]); (split; [reflexivity|]);
          unfold loop_outcome; cbn; rewrite ?Huses;
          (split; [lia|]); (split; [done|]); (split; [done|]);
          (split; [intros Hall; apply Forall_cons in Hall as [Hr _]; cbn in Hr;
                   by rewrite Huses in Hr|]);
          exists [], []; by rewrite !app_nil_r.
    unfold read_array, new_array; cbn -[runToolUses toolLoop].
    rewrite Hcur; cbn -[runToolUses toolLoop].
    set (turn := assistant_turn r).
    set (s2 := with_arrays _ _).
    destruct (runToolUses_spec index context registry (length (arrays s))
                (toolUse :: more) usages s2) as (w3 & e3 & Hq3 & Hspec).
    destruct (runToolUses_returns index context registry (length (arrays s))
                (toolUse :: more) Hreg usages s2) as (all & s3' & Hret).
    rewrite Hret in Hspec |- *. destruct Hspec as (new1 & -> & -> & Hn3 & Hi3).
    set (s3 := with_arrays _ _).
    assert (H3 : arrays s3 !! length (arrays s)
                 = Some ((H ++ [turn]) ++ zip_with usage_message (toolUse :: more) new1)).
    { subst s3 s2. cbn. rewrite list_lookup_alter_eq, list_lookup_middle; done. }
    destruct (IH _ (usages ++ new1) s3 _ H3) as (result & s' & evs & -> & Htr & Hout).
    eexists result, s', (_ :: e3 ++ evs). split; [reflexivity|].
    split. { rewrite Htr. subst s3 s2; cbn. by rewrite <- !app_assoc. }
    destruct Hout as (Hlen & Hhead & Hlast & Hfinal & new2 & added2 & Hus & Hmsgs & Hn & Hi & Hf).
    unfold loop_outcome. cbn [generations omap list_omap generation_of].
    fold (generations (e3 ++ evs)). rewrite generations_app, Hq3. cbn [app].
    destruct (generations evs) as [|g gens] eqn:Hgens; [cbn in Hlen; lia|].
    set (g0 := {| gen_messages := H; gen_options := Some genOptions; gen_result := Returns r |}).
    assert (Hreq : requested (g0 :: g :: gens) = (toolUse :: more) ++ requested (g :: gens)).
    { cbn [requested]. unfold tool_uses_of; cbn. by rewrite Huses. }
    assert (Hl1 : length (toolUse :: more) = length new1).
    { by rewrite <- (length_fmap tu_name), <- Hn3, length_fmap. }
    split; [cbn in *; lia|]. split; [done|].
    split; [by rewrite last_cons_cons|].
    split.
    { cbn [take fmap list_fmap]. intros Hall. apply Forall_cons in Hall as [_ Hall].
      apply Hfinal in Hall as [Hl Ho]. rewrite last_cons_cons. split; [cbn in *; lia|done]. }
    exists (new1 ++ new2), ([turn] ++ zip_with usage_message (toolUse :: more) new1 ++ added2).
    rewrite last_cons_cons, Hreq.
    split; [by rewrite Hus, app_assoc|].
    split; [rewrite Hmsgs; f_equal; by rewrite <- !app_assoc|].
    split; [by rewrite !fmap_app, Hn3, Hn|].
    split; [by rewrite !fmap_app, Hi3, Hi|].
    rewrite !filter_app, filter_usage_messages, Hf.
    rewrite filter_cons_False, filter_nil by (subst turn; done). cbn [app].
    symmetry. by apply (zip_with_app usage_message (toolUse :: more)).
Qed.

Lemma call_generate_effect (p : PluginBase W) (llm : LLM W) (model : string) (cur : nat)
    (options : option LLMGenerateOptions) (s : State W) :
  exists H r w,
    call_generate p llm model cur options s =
      (r, with_world w [EvGenerate (obj p) model H options r] s).
Proof.
  unfold call_generate, bind, read_array, call; cbn.
  destruct (generate llm model _ options (world s)) as [r w] eqn:Hg.
  by exists (default [] (arrays s !! cur)), r, w.
Qed.

(** Whatever the Model and the tools do, the loop issues at most
    [remaining + 1] Model calls and leaves every array that existed before
    it untouched: it only pushes on arrays it has allocated itself. *)
Lemma toolLoop_frame (p : PluginBase W) (llm : LLM W) (model : string)
    (options : option GenerationOptions) (genOptions : LLMGenerateOptions)
    (index : gmap string string) (context : ToolContext)
    (registry : JsMap (InstanceEntry W)) :
  forall (n cur : nat) (usages : list ConversationToolUsage) (s : State W),
    let s' :=
      (toolLoop n p llm model options genOptions index context registry cur usages s).2 in
    (exists evs, trace s' = trace s ++ evs /\ (length (generations evs) <= S n)%nat)
    /\ (length (arrays s) <= length (arrays s'))%nat
    /\ (forall a, (a < length (arrays s))%nat -> arrays s' !! a = arrays s !! a).
Proof.
  induction n as [|n IH]; intros cur usages s; cbn [toolLoop]; unfold bind.
  - destruct (call_generate_effect p llm model cur
                (Some (spread_options options None)) s) as (H & r & w & ->).
    destruct r; cbn; (split; [by eexists|done]).
  - destruct (call_generate_effect p llm model cur (Some genOptions) s)
      as (H & r & w & ->).
    destruct r as [r|e]; [|cbn; split; [eexists; split; [done|cbn; lia]|done]].
    destruct (r_toolUses r) as [[|toolUse more]|] eqn:Huses.
    1, 3: cbn; split; [eexists; split; [done|cbn; lia]|done].
    unfold read_array, new_array; cbn -[runToolUses toolLoop].
    set (s2 := with_arrays _ _).
    destruct (runToolUses_spec index context registry (length (arrays s))
                (toolUse :: more) usages s2) as (w3 & e3 & Hq3 & Hspec).
    destruct (runToolUses index context registry (length (arrays s))
                (toolUse :: more) usages s2) as [[all|e] s3'].
    2: { destruct Hspec as (added & -> & _). cbn. split; [|split].
         - eexists (_ :: e3). split; [by rewrite <- app_assoc|].
           cbn [generations omap list_omap generation_of]. fold (generations e3).
           rewrite Hq3. cbn. lia.
         - rewrite length_alter, length_app. lia.
         - intros a Ha. rewrite list_lookup_alter_ne by lia. by rewrite lookup_app_l. }
    destruct Hspec as (new1 & -> & -> & _).
    set (s3 := with_arrays _ _).
    destruct (IH (length (arrays s)) (usages ++ new1) s3) as ((evs & Htr & Hlen) & Hgrow & Hkeep).
    assert (Hl3 : length (arrays s3) = S (length (arrays s))).
    { subst s3 s2; cbn. rewrite length_alter, length_app; cbn. lia. }
    split; [|split].
    + eexists (_ :: e3 ++ evs). split.
      * rewrite Htr. subst s3 s2; cbn. by rewrite <- !app_assoc.
      * cbn [generations omap list_omap generation_of]. fold (generations (e3 ++ evs)).
        rewrite generations_app, Hq3. cbn. lia.
    + lia.
    + intros a Ha. rewrite Hkeep by lia. subst s3 s2; cbn.
      rewrite list_lookup_alter_ne by lia. by rewrite lookup_app_l.
Qed.

(** ** [generateWithTools] *)

Lemma generateWithTools_resolved (registry : JsMap (InstanceEntry W)) (providerId : string)
    (model : string) (messages : nat) (tools_ : list Tool) (index : gmap string string)
    (context : ToolContext) (options : option GenerationOptions) (s : State W)
    (entry : InstanceEntry W) (llm : LLM W) :
  registry !! providerId = Some entry ->
  enabled entry = true ->
  getLLM (plugin entry) = Some llm ->
  generateWithTools providerId model messages tools_ index context registry options s =
    toolLoop MAX_TOOL_LOOP_ITERATIONS (plugin entry) llm model options
      (spread_options options (if bool_decide (0 < length tools_)%nat then Some tools_ else None))
      index context registry (length (arrays s)) []
      (with_arrays (arrays s ++ [default [] (arrays s !! messages)]) s).
Proof.
  intros Hentry Hon Hllm. unfold generateWithTools.
  by rewrite Hentry, Hon, Hllm.
Qed.

(** Termination of the loop.  For every provider id that resolves to an
    enabled instance with the Model capability, [generateWithTools] issues
    at most [MAX_TOOL_LOOP_ITERATIONS + 1 = 11] calls of the Model's
    [generate], whatever the Model and the tools do.  For a Model that
    answers every call (a sequence of responses) and tool code whose
    outcomes can be recorded, the function returns a result, whose
    response is that of the last [generate] call; and when the first 10
    responses all carry tool-use requests, there are exactly 11 calls and
    the last one is issued with [tools] undefined: the iteration limit
    never surfaces as an error. *)
Theorem generateWithTools_terminates (registry : JsMap (InstanceEntry W))
    (providerId : string) (model : string) (messages : nat) (tools_ : list Tool)
    (index : gmap string string) (context : ToolContext)
    (options : option GenerationOptions) (s : State W)
    (entry : InstanceEntry W) (llm : LLM W) :
  registry !! providerId = Some entry ->
  enabled entry = true ->
  getLLM (plugin entry) = Some llm ->
  let run := generateWithTools providerId model messages tools_ index context
               registry options s in
  exists evs,
    trace run.2 = trace s ++ evs
    /\ (length (generations evs) <= MAX_TOOL_LOOP_ITERATIONS + 1)%nat
    /\ (MAX_TOOL_LOOP_ITERATIONS + 1 = 11)%nat
    /\ (never_throws llm ->
        serialisable registry ->
        exists result,
          run.1 = Returns result
          /\ gen_result <$> last (generations evs) = Some (Returns (response result))
          /\ (Forall requests_tools
                (gen_result <$> take MAX_TOOL_LOOP_ITERATIONS (generations evs)) ->
              length (generations evs) = (MAX_TOOL_LOOP_ITERATIONS + 1)%nat
              /\ gen_options <$> last (generations evs)
                 = Some (Some {| g_temperature := options ≫= temperature;
                                 g_maxTokens := options ≫= maxTokens;
                                 g_tools := None |}))).
Proof.
  intros Hentry Hon Hllm run. subst run.
  rewrite (generateWithTools_resolved _ _ _ _ _ _ _ _ _ _ _ Hentry Hon Hllm).
  set (genOptions := spread_options _ _). set (s1 := with_arrays _ _).
  destruct (toolLoop_frame (plugin entry) llm model options genOptions index context
              registry MAX_TOOL_LOOP_ITERATIONS (length (arrays s)) [] s1)
    as ((evs & Htr & Hlen) & _ & _).
  exists evs. split; [done|].
  split; [unfold MAX_TOOL_LOOP_ITERATIONS in *; lia|]. split; [done|].
  intros Htotal Hreg.
  destruct (toolLoop_total (plugin entry) llm model options genOptions index context
              registry Htotal Hreg MAX_TOOL_LOOP_ITERATIONS (length (arrays s)) [] s1
              (default [] (arrays s !! messages)))
    as (result & s' & evs' & Hrun & Htr' & Hout).
  { subst s1; cbn. by rewrite list_lookup_middle. }
  rewrite Hrun in Htr |- *. cbn in Htr |- *.
  assert (evs' = evs) as -> by (rewrite Htr' in Htr; by apply app_inv_head in Htr).
  destruct Hout as (_ & _ & Hlast & Hfinal & _).
  exists result. split; [done|]. split; [done|].
  intros Hall. destruct (Hfinal Hall) as [Hl Ho].
  split; [unfold MAX_TOOL_LOOP_ITERATIONS in *; lia|done].
Qed.

(** C10 (frame).  [generateWithTools] never mutates the array its caller
    supplies: assistant turns and tool messages go to arrays the function
    allocates itself, so whether it returns or throws the caller's array
    holds exactly the messages it held before the call. *)
Theorem generateWithTools_keeps_caller_messages (registry : JsMap (InstanceEntry W))
    (providerId : string) (model : string) (messages : nat) (tools_ : list Tool)
    (index : gmap string string) (context : ToolContext)
    (options : option GenerationOptions) (s : State W) :
  (messages < length (arrays s))%nat ->
  arrays (generateWithTools providerId model messages tools_ index context
            registry options s).2 !! messages
  = arrays s !! messages.
Proof.
  intros Hvalid. unfold generateWithTools.
  destruct (registry !! providerId) as [entry|]; [|done].
  destruct (enabled entry); [|done]. cbn [negb].
  destruct (getLLM (plugin entry)) as [llm|]; [|done].
  unfold bind, read_array, new_array. cbn -[toolLoop].
  set (genOptions := spread_options _ _). set (s1 := with_arrays _ _).
  destruct (toolLoop_frame (plugin entry) llm model options genOptions index context
              registry MAX_TOOL_LOOP_ITERATIONS (length (arrays s)) [] s1)
    as (_ & _ & Hkeep).
  rewrite Hkeep.
  - subst s1; cbn. by rewrite lookup_app_l.
  - subst s1; cbn. rewrite length_app; cbn. lia.
Qed.

(** Isolation of tool failures, for tool code whose outcomes can be
    recorded.  Every tool use goes through the loop body [runToolUse], which
    then does not throw: it yields exactly one usage record (tool name and
    input of the request) and pushes exactly one tool-role message (the
    rendered output, [toolCallId], [toolName]) on the history.  When the
    name is absent from the reverse index the output is
    [{error: "Unknown tool: <name>"}], with the same text as [error], and
    nothing is called; when [executeTool] throws, the exception is caught,
    [error] is set to its message and the output is the structured failure
    object; otherwise the output is the tool's result and [error] stays
    unset.  For a Model that answers every call the whole function
    therefore returns the response of its last Model call, with one usage
    record and one tool message per requested tool use, in the order of the
    requests. *)
Theorem tool_failures_are_isolated (registry : JsMap (InstanceEntry W))
    (providerId : string) (model : string) (messages : nat) (tools_ : list Tool)
    (index : gmap string string) (context : ToolContext)
    (options : option GenerationOptions) (s : State W)
    (entry : InstanceEntry W) (llm : LLM W) :
  registry !! providerId = Some entry ->
  enabled entry = true ->
  getLLM (plugin entry) = Some llm ->
  never_throws llm ->
  serialisable registry ->
  (forall (currentMessages : nat) (toolUse : ToolUse) (s0 : State W),
     exists usage s1,
       runToolUse index context registry currentMessages toolUse s0 = (Returns usage, s1)
       /\ u_toolName usage = tu_name toolUse
       /\ u_input usage = tu_input toolUse
       /\ arrays s1
          = alter (fun l => l ++ [usage_message toolUse usage]) currentMessages (arrays s0)
       /\ match index !! tu_name toolUse with
          | None | Some "" =>
            u_output usage
            = Data (VObj [("error", VStr ("Unknown tool: " +:+ tu_name toolUse))])
            /\ u_error usage = Some ("Unknown tool: " +:+ tu_name toolUse)
            /\ trace s1 = trace s0
          | Some instanceId =>
            match (executeTool instanceId toolUse context registry s0).1 with
            | Throws err =>
              u_error usage = Some (error_message err)
              /\ u_output usage =
                   Data (VObj [("success", VBool false); ("error", VStr (error_message err));
                               ("message", VStr (technical_error toolUse))])
            | Returns v => u_error usage = None /\ u_output usage = v
            end
          end)
  /\ exists result s' evs added,
       generateWithTools providerId model messages tools_ index context registry options s
         = (Returns result, s')
       /\ trace s' = trace s ++ evs
       /\ gen_result <$> last (generations evs) = Some (Returns (response result))
       /\ gen_messages <$> last (generations evs)
            = Some (default [] (arrays s !! messages) ++ added)
       /\ u_toolName <$> toolUsages result = tu_name <$> requested (generations evs)
       /\ u_input <$> toolUsages result = tu_input <$> requested (generations evs)
       /\ filter is_tool_message added
            = zip_with usage_message (requested (generations evs)) (toolUsages result).
Proof.
  intros Hentry Hon Hllm Htotal Hreg. split.
  - intros cur toolUse s0.
    unfold runToolUse, bind, now, ret, array_push, lift; cbn.
    destruct (index !! tu_name toolUse) as [[|c instanceId]|] eqn:Hindex; cbn.
    1, 3: eexists _, _; split; [reflexivity|]; cbn; done.
    unfold try_catch, bind.
    pose proof (executeTool_recordable (String c instanceId) toolUse context registry s0
                  Hreg) as Hrec.
    destruct (executeTool_effect (String c instanceId) toolUse context registry s0)
      as (w & evs & Hs & _).
    destruct (executeTool (String c instanceId) toolUse context registry s0) as [[v|e] s1];
      cbn in Hs, Hrec; subst s1; cbn.
    + unfold usage_message.
      destruct v as [[]| |]; cbn; [..|done]; eexists _, _; (split; [reflexivity|]); done.
    + destruct e as [message|[]]; cbn; [..|done];
        eexists _, _; (split; [reflexivity|]); done.
  - rewrite (generateWithTools_resolved _ _ _ _ _ _ _ _ _ _ _ Hentry Hon Hllm).
    set (genOptions := spread_options _ _). set (s1 := with_arrays _ _).
    destruct (toolLoop_total (plugin entry) llm model options genOptions index context
                registry Htotal Hreg MAX_TOOL_LOOP_ITERATIONS (length (arrays s)) [] s1
                (default [] (arrays s !! messages)))
      as (result & s' & evs & Hrun & Htr & Hout).
    { subst s1; cbn. by rewrite list_lookup_middle. }
    destruct Hout as (_ & _ & Hlast & _ & new & added & Hus & Hmsgs & Hn & Hi & Hf).
    cbn in Hus. subst new.
    by exists result, s', evs, added.
Qed.

(** ** Tool resolution *)

Lemma index_tools_lookup (instanceId : string) (declared : list (ToolWithHandler W))
    (index : gmap string string) (n : string) :
  index_tools instanceId declared index !! n =
    if decide (n ∈ (fun t => t_name (schema t)) <$> declared) then Some instanceId
    else index !! n.
Proof.
  unfold index_tools. revert index.
  induction declared as [|t declared IH]; intros index; cbn.
  - by rewrite decide_False by apply not_elem_of_nil.
  - rewrite IH. destruct (decide (n ∈ _ <$> declared)) as [Hin|Hout].
    + by rewrite decide_True by (by apply elem_of_cons; right).
    + destruct (decide (n = t_name (schema t))) as [->|Hne].
      * rewrite decide_True by apply list_elem_of_here. apply lookup_insert_eq.
      * rewrite decide_False by (intros [?|?]%elem_of_cons; done).
        by apply lookup_insert_ne.
Qed.

Lemma addToolsOf_spec (registry : JsMap (InstanceEntry W)) (acc : ResolvedTools)
    (instanceId : string) :
  addToolsOf registry acc instanceId =
    {| tools := tools acc ++ toTools (contributes registry instanceId);
       nameToInstanceId :=
         index_tools instanceId (contributes registry instanceId) (nameToInstanceId acc) |}.
Proof.
  unfold addToolsOf, contributes.
  destruct (registry !! instanceId) as [entry|]; cbn;
    [|destruct acc; cbn; by rewrite app_nil_r].
  destruct (enabled entry); cbn; [|destruct acc; cbn; by rewrite app_nil_r].
  destruct (getTools (plugin entry)); cbn; [done|destruct acc; cbn; by rewrite app_nil_r].
Qed.

(** C5 (tool resolution).  For every ordered list of provider ids,
    [getToolsForActionIds] skips each id whose instance is absent, disabled
    or without the Tooling capability ([contributes] is empty for it); the
    returned tool list is the concatenation, in the order of the ids, of
    the handler-stripped schemas of the remaining instances; and the
    reverse index maps a tool name to the last id of the list whose
    instance declares it (last write wins), the schemas of every declaring
    provider staying in the list. *)
Theorem getToolsForActionIds_resolution (registry : JsMap (InstanceEntry W))
    (providerIds : list string) :
  tools (getToolsForActionIds registry providerIds)
    = providerIds ≫= (fun instanceId => schema <$> contributes registry instanceId)
  /\ forall toolName_ : string,
       nameToInstanceId (getToolsForActionIds registry providerIds) !! toolName_
       = last (filter (declares registry toolName_) providerIds).
Proof.
  unfold getToolsForActionIds.
  induction providerIds as [|instanceId providerIds [IHt IHn]] using rev_ind.
  - split; [done|]. intros n. cbn. apply lookup_empty.
  - rewrite foldl_snoc, addToolsOf_spec; cbn. split.
    + rewrite IHt, bind_app. cbn. by rewrite app_nil_r.
    + intros n. rewrite index_tools_lookup, IHn, filter_app.
      unfold declares at 3.
      destruct (decide (n ∈ _ <$> contributes registry instanceId)) as [Hin|Hout].
      * rewrite filter_cons_True, filter_nil by done. by rewrite last_snoc.
      * rewrite filter_cons_False, filter_nil by done. by rewrite app_nil_r.
Qed.

(** ** Replacing an instance *)

Lemma teardown_cases (instanceId : string) (old : InstanceEntry W) (s : State W) :
  exists w,
    teardown instanceId old s =
      (Returns tt,
       with_plugins (delete instanceId (plugins s))
         (with_world w (disconnection (world s) (plugin old)
                        ++ [EvShutdown (obj (plugin old)) (Returns tt)]) s))
    \/ exists e evs,
         teardown instanceId old s = (Throws e, with_world w evs s)
         /\ failed_teardown (world s) (plugin old) e evs.
Proof.
  unfold teardown, bind, disconnection, failed_teardown, ask, ret, call, update_plugins.
  unfold disconnection.
  destruct (getConnector (plugin old)) as [connector|]; cbn.
  - destruct (isConnected connector (world s)) eqn:Hcon; cbn.
    + destruct (disconnect connector (world s)) as [[[]|e] w0] eqn:Hd; cbn.
      * destruct (shutdown (plugin old) w0) as [[[]|e] w1]; exists w1;
          rewrite with_world_twice; [by left|right].
        eexists _, _. split; [done|]. by right.
      * exists w0. right. eexists _, _. split; [done|]. by left.
    + destruct (shutdown (plugin old) (world s)) as [[[]|e] w1]; exists w1; [by left|right].
      eexists _, _. split; [done|]. by right.
  - destruct (shutdown (plugin old) (world s)) as [[[]|e] w1]; exists w1; [by left|right].
    eexists _, _. split; [done|]. by right.
Qed.

Lemma failed_teardown_rejected (w : W) (p : PluginBase W) (e : Thrown) (evs : list Event) :
  failed_teardown w p e evs -> Exists rejected evs /\ ~ Exists is_construction evs.
Proof.
  unfold failed_teardown, disconnection. intros [->| ->].
  - split; [by apply Exists_cons_hd|]. by intros [?|?%Exists_nil]%Exists_cons.
  - split; [apply Exists_app; right; by apply Exists_cons_hd|].
    destruct (getConnector p) as [connector|]; [destruct (isConnected connector w)|]; cbn;
      rewrite ?Exists_cons, Exists_nil; cbn; tauto.
Qed.

Lemma wire_connector_run (p : PluginBase W) (s : State W) :
  wire_connector p s = (Returns tt, with_world (wired p (world s)) (wiring p) s).
Proof.
  unfold wire_connector, wiring, wired, bind, emit, start, ret.
  destruct (getConnector p) as [connector|]; cbn.
  - destruct (onSlashCommand connector); cbn; by rewrite !with_world_twice.
  - by rewrite with_world_same.
Qed.


(** ** The connector message handler *)

(** The part of the state that only the core itself writes. *)
Definition same_core (s s' : State W) : Prop :=
  plugins s' = plugins s
  /\ connectorConversationCache s' = connectorConversationCache s
  /\ timers s' = timers s
  /\ next_timer s' = next_timer s.

Lemma toolLoop_core (p : PluginBase W) (llm : LLM W) (model : string)
    (options : option GenerationOptions) (genOptions : LLMGenerateOptions)
    (index : gmap string string) (context : ToolContext)
    (registry : JsMap (InstanceEntry W)) :
  forall (n cur : nat) (usages : list ConversationToolUsage) (s : State W),
    same_core s
      (toolLoop n p llm model options genOptions index context registry cur usages s).2.
Proof.
  induction n as [|n IH]; intros cur usages s; cbn [toolLoop]; unfold bind.
  - destruct (call_generate_effect p llm model cur
                (Some (spread_options options None)) s) as (H & r & w & ->).
    by destruct r.
  - destruct (call_generate_effect p llm model cur (Some genOptions) s)
      as (H & r & w & ->).
    destruct r as [r|e]; [|done].
    destruct (r_toolUses r) as [[|toolUse more]|] eqn:Huses; [done| |done].
    unfold read_array, new_array; cbn -[runToolUses toolLoop].
    set (s2 := with_arrays _ _).
    destruct (runToolUses_spec index context registry (length (arrays s))
                (toolUse :: more) usages s2) as (w3 & e3 & _ & Hspec).
    destruct (runToolUses index context registry (length (arrays s))
                (toolUse :: more) usages s2) as [[all|e] s3'].
    2: { by destruct Hspec as (added & -> & _). }
    destruct Hspec as (new1 & -> & -> & _).
    set (s3 := with_arrays _ _).
    destruct (IH (length (arrays s)) (usages ++ new1) s3) as (Hp & Hc & Ht & Hn).
    unfold same_core. by rewrite Hp, Hc, Ht, Hn.
Qed.

Lemma generateWithTools_core (registry : JsMap (InstanceEntry W))
    (providerId : string) (model : string) (messages : nat) (tools_ : list Tool)
    (index : gmap string string) (context : ToolContext)
    (options : option GenerationOptions) (s : State W) :
  same_core s
    (generateWithTools providerId model messages tools_ index context registry options s).2.
Proof.
  unfold generateWithTools.
  destruct (registry !! providerId) as [entry|]; [|done].
  destruct (enabled entry); [|done]. cbn [negb].
  destruct (getLLM (plugin entry)) as [llm|]; [|done].
  unfold bind, read_array, new_array. cbn -[toolLoop].
  set (genOptions := spread_options _ _). set (s1 := with_arrays _ _).
  apply (toolLoop_core (plugin entry) llm model options genOptions index context
           registry MAX_TOOL_LOOP_ITERATIONS (length (arrays s)) [] s1).
Qed.

(** Computations whose every run relates the state before and after by a
    given preorder. *)
Section Preserved.

Variable P : State W -> State W -> Prop.
Hypothesis P_refl : forall s, P s s.
Hypothesis P_trans : forall s1 s2 s3, P s1 s2 -> P s2 s3 -> P s1 s3.

Definition preserves {A} (m : M W A) : Prop := forall s, P s (m s).2.

Lemma preserves_ret {A} (a : A) : preserves (ret a).
Proof. intros s. apply P_refl. Qed.

Lemma preserves_throw {A} (e : Thrown) : preserves (throw (A := A) e).
Proof. intros s. apply P_refl. Qed.

Lemma preserves_bind {A B} (m : M W A) (k : A -> M W B) :
  preserves m -> (forall a, preserves (k a)) -> preserves (bind m k).
Proof.
  intros Hm Hk s. unfold bind. specialize (Hm s).
  destruct (m s) as [[a|e] s1]; cbn in *; [|done]. eapply P_trans; [done|apply Hk].
Qed.

Lemma preserves_try_catch {A} (m : M W A) (h : Thrown -> M W A) :
  preserves m -> (forall e, preserves (h e)) -> preserves (try_catch m h).
Proof.
  intros Hm Hh s. unfold try_catch. specialize (Hm s).
  destruct (m s) as [[a|e] s1]; cbn in *; [done|]. eapply P_trans; [done|apply Hh].
Qed.

End Preserved.

(** Leaves the registry and the cache alone and calls no Model. *)
Definition quietly (s s' : State W) : Prop :=
  plugins s' = plugins s
  /\ connectorConversationCache s' = connectorConversationCache s
  /\ exists evs, trace s' = trace s ++ evs /\ generations evs = [].

Definition cache_kept (s s' : State W) : Prop :=
  connectorConversationCache s' = connectorConversationCache s.

Lemma quietly_refl s : quietly s s.
Proof. repeat split. exists []. by rewrite app_nil_r. Qed.

Lemma quietly_trans s1 s2 s3 : quietly s1 s2 -> quietly s2 s3 -> quietly s1 s3.
Proof.
  intros (Hp1 & Hc1 & e1 & Ht1 & Hq1) (Hp2 & Hc2 & e2 & Ht2 & Hq2).
  split; [congruence|]. split; [congruence|]. exists (e1 ++ e2).
  by rewrite Ht2, Ht1, <- app_assoc, generations_app, Hq1, Hq2.
Qed.

Lemma cache_kept_refl s : cache_kept s s.
Proof. done. Qed.

Lemma cache_kept_trans s1 s2 s3 : cache_kept s1 s2 -> cache_kept s2 s3 -> cache_kept s1 s3.
Proof. unfold cache_kept. congruence. Qed.

Abbreviation quiet := (preserves quietly).
Abbreviation keeps_cache := (preserves cache_kept).

Lemma quiet_keeps_cache {A} (m : M W A) : quiet m -> keeps_cache m.
Proof. intros Hm s. apply Hm. Qed.

Lemma quiet_call {A} (ev : Outcome A -> Event) (f : Ext W A) :
  (forall r, generation_of (ev r) = None) -> quiet (call ev f).
Proof.
  intros Hev s. unfold call. destruct (f (world s)) as [r w]; cbn.
  repeat split. exists [ev r]. split; [done|]. cbn. by rewrite Hev.
Qed.

Lemma quiet_query {A} (f : W -> A * W) : quiet (query f).
Proof.
  intros s. unfold query. destruct (f (world s)); cbn.
  repeat split. exists []. by rewrite app_nil_r.
Qed.

Lemma quiet_command {A} (f : Pocketbase W A) : quiet (command f).
Proof.
  intros s. unfold command. destruct (f (world s)); cbn.
  repeat split. exists []. by rewrite app_nil_r.
Qed.

Lemma quiet_lift {A} (o : Outcome A) : quiet (lift o).
Proof. intros s. apply quietly_refl. Qed.

Lemma quiet_logger_error (data : Unknown) : quiet (logger_error data).
Proof. intros s. unfold logger_error. destruct (stringify data); apply quietly_refl. Qed.

Lemma quiet_setInterval : quiet setInterval.
Proof. intros s. repeat split. by eexists [_]. Qed.

Lemma quiet_clearInterval (timer : nat) : quiet (clearInterval timer).
Proof. intros s. repeat split. by eexists [_]. Qed.

Lemma quiet_new_array (l : list LLMMessage) : quiet (new_array l).
Proof. intros s. repeat split. exists []. cbn. by rewrite app_nil_r. Qed.

Lemma keeps_cache_generateWithTools (registry : JsMap (InstanceEntry W))
    (providerId : string) (model : string) (messages : nat) (tools_ : list Tool)
    (index : gmap string string) (context : ToolContext)
    (options : option GenerationOptions) :
  keeps_cache (generateWithTools providerId model messages tools_ index context
                 registry options).
Proof. intros s. apply generateWithTools_core. Qed.

Definition quiet_ret {A} (a : A) : quiet (ret a) := preserves_ret quietly quietly_refl a.
Definition quiet_bind {A B} (m : M W A) (k : A -> M W B) :=
  preserves_bind quietly quietly_trans m k.
Definition quiet_try_catch {A} (m : M W A) (h : Thrown -> M W A) :=
  preserves_try_catch quietly quietly_trans m h.
Definition keeps_cache_bind {A B} (m : M W A) (k : A -> M W B) :=
  preserves_bind cache_kept cache_kept_trans m k.
Definition keeps_cache_try_catch {A} (m : M W A) (h : Thrown -> M W A) :=
  preserves_try_catch cache_kept cache_kept_trans m h.

Create HintDb handler discriminated.

#[local] Hint Resolve quiet_ret quiet_query quiet_command quiet_setInterval
  quiet_clearInterval quiet_new_array quiet_lift quiet_logger_error
  keeps_cache_generateWithTools : handler.
#[local] Hint Extern 1 (preserves quietly (bind _ _)) =>
  apply quiet_bind; [|intros ?] : handler.
#[local] Hint Extern 1 (preserves quietly (try_catch _ _)) =>
  apply quiet_try_catch; [|intros ?] : handler.
#[local] Hint Extern 1 (preserves cache_kept (bind _ _)) =>
  apply keeps_cache_bind; [|intros ?] : handler.
#[local] Hint Extern 1 (preserves cache_kept (try_catch _ _)) =>
  apply keeps_cache_try_catch; [|intros ?] : handler.
#[local] Hint Extern 1 (preserves quietly (call _ _)) =>
  apply quiet_call; intros ?; reflexivity : handler.
#[local] Hint Extern 1 (preserves _ match ?x with _ => _ end) => destruct x : handler.
#[local] Hint Extern 2 (preserves quietly _) =>
  (intros ?; apply quietly_refl) : handler.
#[local] Hint Extern 5 (preserves cache_kept _) =>
  apply quiet_keeps_cache : handler.

Lemma quiet_start_typing (entry : InstanceEntry W) (connector : Connector W)
    (message : Message) : quiet (start_typing entry connector message).
Proof. unfold start_typing. auto 10 with handler. Qed.

Lemma quiet_persist (entry : InstanceEntry W) (connector : Connector W)
    (message : Message) (response_ : LLMResponse)
    (toolUsages_ : list ConversationToolUsage) :
  quiet (persist entry connector message response_ toolUsages_).
Proof. unfold persist. auto 10 with handler. Qed.

Lemma tool_entries_throws (message : Message) (created : string)
    (usages : list ConversationToolUsage) :
  forall (idx : nat) (e : Thrown),
    tool_entries message created idx usages = Throws e -> stringify_error e.
Proof.
  induction usages as [|usage rest IH]; intros idx e; cbn; [done|].
  unfold tool_content.
  destruct (u_error usage) as [error|]; cbn.
  - specialize (IH (S idx) e). destruct (tool_entries _ _ _ rest); cbn; [done|].
    intros [= ->]. by apply IH.
  - specialize (IH (S idx) e).
    destruct (u_output usage) as [[]| |shown why]; cbn;
      try (intros [= <-]; by exists (Unserialisable shown why));
      (destruct (tool_entries _ _ _ rest); cbn; [done|]; intros [= ->]; by apply IH).
Qed.

(** Whatever makes the persistence fail is an [Error] object: the
    [TypeError] of [JSON.stringify] or the rejection of the PocketBase
    client. *)
Lemma persist_throws_Error (entry : InstanceEntry W) (connector : Connector W)
    (message : Message) (response_ : LLMResponse)
    (toolUsages_ : list ConversationToolUsage) (s : State W) (e : Thrown) :
  (persist entry connector message response_ toolUsages_ s).1 = Throws e ->
  exists text, e = ErrorObj text.
Proof.
  unfold persist, bind, query, now, lift, ret.
  destruct (conversationRepository_findAll (world s)) as [conversations w1]; cbn.
  destruct (tool_entries message _ 0 toolUsages_) as [toolMessages|e0] eqn:Hentries; cbn.
  2: { intros [= <-]. apply tool_entries_throws in Hentries as ([v| |shown why] & Hx);
       cbn in Hx; try done. injection Hx as <-. by eexists. }
  destruct (find _ conversations) as [existing|]; unfold command; cbn.
  - destruct (conversationRepository_update _ _ _) as [[[]|text] w2]; cbn; [done|].
    intros [= <-]. by eexists.
  - destruct (conversationRepository_create _ _) as [[[]|text] w2]; cbn; [done|].
    intros [= <-]. by eexists.
Qed.

Lemma quiet_reply_error (entry : InstanceEntry W) (connector : Connector W)
    (message : Message) (typingInterval : option nat) (err : Thrown) :
  quiet (reply_error entry connector message typingInterval err).
Proof. unfold reply_error, stopTyping. auto 10 with handler. Qed.

Lemma cap_messages_slice (l : list LLMMessage) :
  cap_messages l = slice_last MAX_CACHED_MESSAGES l.
Proof.
  unfold cap_messages, slice_last. case_bool_decide; [done|].
  replace (length l - MAX_CACHED_MESSAGES)%nat with 0%nat by lia. done.
Qed.

Lemma slice_last_length {A} (n : nat) (l : list A) : (length (slice_last n l) <= n)%nat.
Proof. unfold slice_last. rewrite length_drop. lia. Qed.

(** What one inbound message may do to the cache: nothing, or replace the
    list of its key by the last 30 of that list followed by the new user
    turn and the assistant's reply. *)
Definition cache_step (key : string) (newUserMessage : LLMMessage)
    (c c' : gmap string (list LLMMessage)) : Prop :=
  c' = c
  \/ exists reply,
       c' = <[key := slice_last 30 (default [] (c !! key)
                                    ++ [newUserMessage; plain_message assistant reply])]> c.

Lemma cache_step_after {A B} (key : string) (u : LLMMessage) (m : M W A) (k : A -> M W B)
    (s : State W) :
  keeps_cache m ->
  (forall a s1, cache_step key u (connectorConversationCache s1)
                  (connectorConversationCache (k a s1).2)) ->
  cache_step key u (connectorConversationCache s)
    (connectorConversationCache (bind m k s).2).
Proof.
  intros Hm Hk. unfold bind. specialize (Hm s). unfold cache_kept in Hm.
  destruct (m s) as [[a|e] s1]; cbn in *; rewrite <- Hm; [apply Hk|by left].
Qed.

Lemma keeps_cache_step {A} (key : string) (u : LLMMessage) (m : M W A) (s : State W) :
  keeps_cache m ->
  cache_step key u (connectorConversationCache s) (connectorConversationCache (m s).2).
Proof. intros Hm. left. apply Hm. Qed.

Lemma quiet_send_reply entry connector message result :
  quiet (send_reply entry connector message result).
Proof. unfold send_reply. cbn zeta. auto 10 with handler. Qed.

Lemma reply_and_store_run (entry : InstanceEntry W) (connector : Connector W)
    (message : Message) (key : string) (u : LLMMessage)
    (result : GenerateWithToolsResult) (s : State W) :
  let run := reply_and_store entry connector message key u result s in
  let sent := send_reply entry connector message result s in
  match sent.1 with
  | Returns _ =>
    run.1 = Returns tt
    /\ connectorConversationCache run.2
       = <[key := slice_last 30 (default [] (connectorConversationCache s !! key)
                                 ++ [u; plain_message assistant (r_content (response result))])]>
           (connectorConversationCache s)
  | Throws e =>
    run.1 = Throws e /\ connectorConversationCache run.2 = connectorConversationCache s
  end
  /\ plugins run.2 = plugins s
  /\ exists evs, trace run.2 = trace s ++ evs /\ generations evs = [].
Proof.
  cbn zeta. unfold reply_and_store.
  destruct (quiet_send_reply entry connector message result s)
    as (Hp1 & Hc1 & e1 & Ht1 & Hq1).
  unfold bind, cache_get, cache_set, try_catch.
  destruct (send_reply entry connector message result s) as [[[]|e] s1]; cbn in *;
    [|repeat split; eauto].
  set (s2 := with_cache _ s1).
  destruct (quiet_persist entry connector message (response result) (toolUsages result) s2)
    as (Hp2 & Hc2 & e2 & Ht2 & Hq2).
  assert (Hcache : connectorConversationCache
                     (persist entry connector message (response result)
                        (toolUsages result) s2).2
                   = <[key := slice_last 30
                                (default [] (connectorConversationCache s !! key)
                                 ++ [u; plain_message assistant (r_content (response result))])]>
                       (connectorConversationCache s)).
  { rewrite Hc2. subst s2; cbn. by rewrite Hc1, cap_messages_slice. }
  assert (Htrace : trace (persist entry connector message (response result)
                            (toolUsages result) s2).2 = trace s ++ e1 ++ e2).
  { rewrite Ht2. subst s2; cbn. by rewrite Ht1, <- app_assoc. }
  assert (Hplug : plugins (persist entry connector message (response result)
                            (toolUsages result) s2).2 = plugins s).
  { rewrite Hp2. subst s2; cbn. done. }
  pose proof (persist_throws_Error entry connector message (response result)
                (toolUsages result) s2) as Herror.
  destruct (persist _ _ _ _ _ s2) as [[[]|e] s3]; cbn in *.
  - split; [done|]. split; [done|]. exists (e1 ++ e2).
    by rewrite generations_app, Hq1, Hq2.
  - destruct (Herror e eq_refl) as (text & ->). cbn.
    split; [done|]. split; [done|]. exists (e1 ++ e2).
    by rewrite generations_app, Hq1, Hq2.
Qed.

Lemma converse_cache_step (entry : InstanceEntry W) (connector : Connector W)
    (message : Message) (a : AssistantRecord) (s : State W) :
  cache_step (id entry +:+ ":" +:+ m_channelId message)
    (plain_message user (user_content message))
    (connectorConversationCache s)
    (connectorConversationCache (converse entry connector message a s).2).
Proof.
  unfold converse.
  apply cache_step_after; [auto with handler|]. intros registry s3.
  apply cache_step_after; [apply quiet_keeps_cache, quiet_start_typing|].
  intros typingInterval s4.
  apply cache_step_after; [auto with handler|]. intros stored s5.
  apply cache_step_after; [auto with handler|]. intros messages s6.
  apply cache_step_after; [auto 10 with handler|]. intros [result|err] s7.
  - destruct (reply_and_store_run entry connector message
                (id entry +:+ ":" +:+ m_channelId message)
                (plain_message user (user_content message)) result s7) as (Hr & _).
    destruct (send_reply entry connector message result s7).1;
      destruct Hr as [_ Hr]; [right|left]; eauto.
  - apply keeps_cache_step, quiet_keeps_cache, quiet_reply_error.
Qed.

Lemma handleConnectorMessage_cache_step (entry : InstanceEntry W) (message : Message)
    (s : State W) :
  cache_step (id entry +:+ ":" +:+ m_channelId message)
    (plain_message user (user_content message))
    (connectorConversationCache s)
    (connectorConversationCache (handleConnectorMessage entry message s).2).
Proof.
  unfold handleConnectorMessage.
  destruct (if enabled entry then getConnector (plugin entry) else None) as [connector|];
    [|by left].
  apply cache_step_after; [auto with handler|]. intros connectorRecord s1.
  apply cache_step_after; [auto 10 with handler|]. intros assistant_ s2.
  destruct (configured assistant_) as [a|];
    [apply converse_cache_step|apply keeps_cache_step; auto 10 with handler].
Qed.

Lemma generateWithTools_returns (registry : JsMap (InstanceEntry W))
    (providerId : string) (model : string) (messages : nat) (tools_ : list Tool)
    (index : gmap string string) (context : ToolContext)
    (options : option GenerationOptions) (s : State W)
    (entry : InstanceEntry W) (llm : LLM W) :
  registry !! providerId = Some entry ->
  enabled entry = true ->
  getLLM (plugin entry) = Some llm ->
  never_throws llm ->
  serialisable registry ->
  exists result s' evs,
    generateWithTools providerId model messages tools_ index context registry options s
      = (Returns result, s')
    /\ trace s' = trace s ++ evs
    /\ gen_result <$> last (generations evs) = Some (Returns (response result)).
Proof.
  intros Hentry Hon Hllm Htotal Hreg.
  rewrite (generateWithTools_resolved _ _ _ _ _ _ _ _ _ _ _ Hentry Hon Hllm).
  set (genOptions := spread_options _ _). set (s1 := with_arrays _ _).
  destruct (toolLoop_total (plugin entry) llm model options genOptions index context
              registry Htotal Hreg MAX_TOOL_LOOP_ITERATIONS (length (arrays s)) [] s1
              (default [] (arrays s !! messages)))
    as (result & s' & evs & Hrun & Htr & Hout).
  { subst s1; cbn. by rewrite list_lookup_middle. }
  destruct Hout as (_ & _ & Hlast & _).
  by exists result, s', evs.
Qed.

Lemma start_typing_returns (entry : InstanceEntry W) (connector : Connector W)
    (message : Message) (s : State W) :
  exists typingInterval, (start_typing entry connector message s).1 = Returns typingInterval.
Proof.
  unfold start_typing. destruct (sendTyping connector) as [typing|]; [|by eexists].
  unfold bind, try_catch, call, setInterval, ret.
  destruct (typing (m_channelId message) (world s)) as [[[]|e] w]; cbn; by eexists.
Qed.

Lemma send_reply_delivered (entry : InstanceEntry W) (connector : Connector W)
    (message : Message) (result : GenerateWithToolsResult) (s : State W) :
  always_delivers connector ->
  (send_reply entry connector message result s).1 = Returns tt.
Proof.
  intros Hsend. unfold send_reply.
  destruct (sendMessage connector) as [send|] eqn:Hs; [|done].
  unfold call.
  by destruct (Hsend send Hs {| sm_channelId := m_channelId message;
                    sm_content := r_content (response result);
                    sm_replyTo := Some (m_id message);
                    sm_attachments :=
                      if bool_decide (0 < length (image_attachments (toolUsages result)))%nat
                      then Some (image_attachments (toolUsages result)) else None |}
                 (world s)) as (w' & ->).
Qed.

Lemma converse_completes (entry : InstanceEntry W) (connector : Connector W)
    (message : Message) (a : AssistantRecord) (s : State W)
    (provider : InstanceEntry W) (llm : LLM W) :
  plugins s !! a_llmProvider a = Some provider ->
  enabled provider = true ->
  getLLM (plugin provider) = Some llm ->
  never_throws llm ->
  serialisable (plugins s) ->
  always_delivers connector ->
  let run := converse entry connector message a s in
  let key := id entry +:+ ":" +:+ m_channelId message in
  exists evs response_,
    run.1 = Returns tt
    /\ trace run.2 = trace s ++ evs
    /\ gen_result <$> last (generations evs) = Some (Returns response_)
    /\ connectorConversationCache run.2
       = <[key := slice_last 30
                    (default [] (connectorConversationCache s !! key)
                     ++ [plain_message user (user_content message);
                         plain_message assistant (r_content response_)])]>
           (connectorConversationCache s).
Proof.
  intros Hprov Hpon Hllm Htotal Hreg Hsend run key. subst run key.
  destruct (start_typing_returns entry connector message s) as (typingInterval & Hty).
  destruct (quiet_start_typing entry connector message s) as (Hp1 & Hc1 & e1 & Ht1 & Hq1).
  destruct (start_typing entry connector message s) as [o1 s1] eqn:Hstart;
    cbn in Hty, Hp1, Hc1, Ht1. subst o1.
  set (key := id entry +:+ ":" +:+ m_channelId message).
  set (u := plain_message user (user_content message)).
  set (history := [plain_message system (system_content a)]
                  ++ cap_messages (default [] (connectorConversationCache s1 !! key))
                  ++ [u]).
  set (s2 := with_arrays (arrays s1 ++ [history]) s1).
  set (context := {| c_userId := m_userId message; c_channelId := m_channelId message;
                     c_platform := m_platform message; c_message := message;
                     c_assistantId := Some (a_id a) |}).
  destruct (generateWithTools_returns (plugins s) (a_llmProvider a) (a_llmModel a)
              (length (arrays s1)) (tools (getToolsForActionIds (plugins s) (a_tools a)))
              (nameToInstanceId (getToolsForActionIds (plugins s) (a_tools a)))
              context None s2 provider llm Hprov Hpon Hllm Htotal Hreg)
    as (result & s3 & e3 & Hgen & Ht3 & Hlast).
  pose proof (generateWithTools_core (plugins s) (a_llmProvider a) (a_llmModel a)
              (length (arrays s1)) (tools (getToolsForActionIds (plugins s) (a_tools a)))
              (nameToInstanceId (getToolsForActionIds (plugins s) (a_tools a)))
              context None s2) as (Hp3 & Hc3 & _).
  rewrite Hgen in Hp3, Hc3. cbn in Hp3, Hc3.
  assert (Hrun : converse entry connector message a s
                 = reply_and_store entry connector message key u result s3).
  { unfold converse, bind, get_plugins, cache_get, new_array, try_catch, ret.
    rewrite Hstart. fold key u history s2 context. by rewrite Hgen. }
  rewrite Hrun.
  destruct (reply_and_store_run entry connector message key u result s3)
    as (Hr & _ & e4 & Ht4 & Hq4).
  rewrite (send_reply_delivered entry connector message result s3 Hsend) in Hr.
  destruct Hr as [Hret Hcache].
  exists (e1 ++ e3 ++ e4), (response result).
  split; [done|]. split.
  { rewrite Ht4, Ht3. subst s2; cbn. by rewrite Ht1, <- !app_assoc. }
  split.
  { rewrite !generations_app, Hq1, Hq4, app_nil_r. done. }
  rewrite Hcache, Hc3. subst s2; cbn. by rewrite Hc1.
Qed.


(** ** Generation for a provider *)

Lemma getToolsForActionIds_nil (registry : JsMap (InstanceEntry W)) :
  tools (getToolsForActionIds registry []) = [].
Proof. done. Qed.

(** C8, as amended.  When its caller supplies neither tools nor a reverse
    index, [generateWithProvider] falls back on the tools of every enabled
    instance of the registry that has the Tooling capability.  Only when
    that set is empty does it perform plain Model generation: a single
    [generate] call with the caller's options, no tool schemas attached,
    and no tool handler run.  Otherwise it runs [generateWithTools] with
    those tools, their reverse index and the caller's context (or a
    synthetic web context), and returns its response. *)
Theorem generateWithProvider_falls_back_on_registry_tools (instanceId : string)
    (model : string) (messages : nat) (options : option ProviderOptions) (s : State W)
    (entry : InstanceEntry W) (llm : LLM W) :
  plugins s !! instanceId = Some entry ->
  getLLM (plugin entry) = Some llm ->
  enabled entry = true ->
  options ≫= po_tools = None ->
  options ≫= po_toolNameToInstanceId = None ->
  let run := generateWithProvider instanceId model messages options s in
  let history := default [] (arrays s !! messages) in
  let context :=
    default (web_context (Date_now (world s))) (options ≫= po_actionContext) in
  match tools (fallback_tools (plugins s)) with
  | [] =>
    exists r w,
      generate llm model history (llm_options <$> options) (world s) = (r, w)
      /\ run = (r, with_world w
                    [EvGenerate (obj (plugin entry)) model history
                       (llm_options <$> options) r] s)
      /\ plain_generation
           [EvGenerate (obj (plugin entry)) model history (llm_options <$> options) r]
  | first :: more =>
    run = bind (generateWithTools instanceId model messages (first :: more)
                  (nameToInstanceId (fallback_tools (plugins s))) context (plugins s)
                  (generation_options <$> options))
               (fun result => ret (response result)) s
  end.
Proof.
  intros Hentry Hllm Hon Htools Hindex run history context.
  subst run history context.
  assert (Hrun : generateWithProvider instanceId model messages options s =
    let locals :=
      in_app_fallback (plugins s) (Date_now (world s))
        (connector_fallback (plugins s)
           {| ts_tools := None; ts_toolNameToInstanceId := None;
              ts_actionContext := options ≫= po_actionContext |}) in
    match ts_tools locals, ts_toolNameToInstanceId locals, ts_actionContext locals with
    | Some (first :: more), Some index, Some context =>
      bind (generateWithTools instanceId model messages (first :: more) index context
              (plugins s) (generation_options <$> options))
           (fun result => ret (response result)) s
    | _, _, _ => call_generate (plugin entry) llm model messages (llm_options <$> options) s
    end).
  { unfold generateWithProvider, get_plugins, now. unfold bind at 1.
    lazy beta iota zeta. rewrite Hentry, Hllm, Hon. cbn [negb]. unfold bind at 1.
    lazy beta iota zeta. rewrite Htools, Hindex. by repeat case_match. }
  rewrite Hrun. clear Hrun.
  assert (Hplain : exists r w,
    generate llm model (default [] (arrays s !! messages)) (llm_options <$> options) (world s)
      = (r, w)
    /\ call_generate (plugin entry) llm model messages (llm_options <$> options) s
       = (r, with_world w
               [EvGenerate (obj (plugin entry)) model (default [] (arrays s !! messages))
                  (llm_options <$> options) r] s)
    /\ plain_generation
         [EvGenerate (obj (plugin entry)) model (default [] (arrays s !! messages))
            (llm_options <$> options) r]).
  { unfold call_generate, bind, read_array, call; cbn.
    destruct (generate llm model _ (llm_options <$> options) (world s)) as [r w] eqn:Hg.
    exists r, w. repeat split; try done. eexists. split; [done|].
    destruct options as [o|]; [|done]. cbn in *. by rewrite Htools. }
  unfold fallback_tools.
  set (ids := getAllEnabledPluginWithToolIds (plugins s)).
  assert (Hids : ids = [] -> tools (getToolsForActionIds (plugins s) ids) = [])
    by (by intros ->).
  set (built := getToolsForActionIds (plugins s) ids) in *.
  assert (Hlen : forall {A} (l : list A), bool_decide (0 < length l)%nat
                  = match l with [] => false | _ => true end).
  { intros A [|x l]; cbn; [by apply bool_decide_eq_false_2; lia|].
    apply bool_decide_eq_true_2; lia. }
  destruct (options ≫= po_actionContext) as [context|] eqn:Hctx;
    unfold connector_fallback, in_app_fallback; cbn -[call_generate getToolsForActionIds];
    rewrite !Hlen; fold ids; fold built.
  - destruct ids as [|i ids']; cbn -[call_generate getToolsForActionIds].
    + by rewrite Hids.
    + by destruct (tools built) as [|first more] eqn:Hb.
  - destruct (tools built) as [|first more] eqn:Hb;
      cbn -[call_generate getToolsForActionIds]; [done|].
    by rewrite (right_id_L ∅ (∪)).
Qed.

(** ** Disabled instances *)

Lemma resolved_index_names_enabled_only (registry : JsMap (InstanceEntry W))
    (providerIds : list string) :
  names_enabled_only registry (nameToInstanceId (getToolsForActionIds registry providerIds)).
Proof.
  unfold getToolsForActionIds.
  induction providerIds as [|instanceId providerIds IH] using rev_ind.
  - intros n i. cbn. by rewrite lookup_empty.
  - rewrite foldl_snoc, addToolsOf_spec; cbn. intros n i.
    rewrite index_tools_lookup. case_decide as Hin; [|apply IH].
    intros [= <-]. unfold contributes in Hin.
    destruct (registry !! instanceId) as [entry|]; [|by apply not_elem_of_nil in Hin].
    destruct (enabled entry) eqn:Hon; [by exists entry|by apply not_elem_of_nil in Hin].
Qed.

(** Runs that only add events satisfying [ok] to the trace. *)
Definition emits_only (ok : Event -> Prop) (s s' : State W) : Prop :=
  exists evs, trace s' = trace s ++ evs /\ Forall ok evs.

Lemma emits_only_refl ok s : emits_only ok s s.
Proof. exists []. by rewrite app_nil_r. Qed.

Lemma emits_only_trans ok s1 s2 s3 :
  emits_only ok s1 s2 -> emits_only ok s2 s3 -> emits_only ok s1 s3.
Proof.
  intros (e1 & Ht1 & Hok1) (e2 & Ht2 & Hok2). exists (e1 ++ e2).
  rewrite Ht2, Ht1, <- app_assoc. split; [done|]. by apply Forall_app.
Qed.

Lemma emits_only_call {A} ok (ev : Outcome A -> Event) (f : Ext W A) :
  (forall r, ok (ev r)) -> preserves (emits_only ok) (call ev f).
Proof.
  intros Hev s. unfold call. destruct (f (world s)) as [r w]; cbn.
  exists [ev r]. split; [done|]. by apply Forall_singleton.
Qed.

Lemma emits_only_silent {A} ok (m : M W A) :
  (forall s, trace (m s).2 = trace s) -> preserves (emits_only ok) m.
Proof. intros Hm s. exists []. by rewrite Hm, app_nil_r. Qed.

Lemma emits_only_logger_error ok (data : Unknown) :
  preserves (emits_only ok) (logger_error data).
Proof.
  apply emits_only_silent. intros s. unfold logger_error. by destruct (stringify data).
Qed.

Section ToolCalls.

Variable registry : JsMap (InstanceEntry W).
Variable index : gmap string string.
Hypothesis index_ok : names_enabled_only registry index.

Let P := emits_only (spares_disabled registry).

Let P_bind {A B} (m : M W A) (k : A -> M W B) :=
  preserves_bind P (emits_only_trans _) m k.

Lemma executeTool_spares_disabled (instanceId : string) (toolUse : ToolUse)
    (context : ToolContext) :
  (exists entry, registry !! instanceId = Some entry /\ enabled entry = true) ->
  preserves P (executeTool instanceId toolUse context registry).
Proof.
  intros (entry & Hentry & Hon). unfold executeTool. rewrite Hentry.
  assert (Hobj : enabled_object registry (obj (plugin entry))) by (by exists instanceId, entry).
  destruct (getTools (plugin entry)) as [declared|]; [|apply preserves_throw, emits_only_refl].
  destruct (find (named toolUse) declared) as [t|]; [|apply preserves_throw, emits_only_refl].
  assert (Hrun : preserves P (invoke_handler (plugin entry) t toolUse context)).
  { apply emits_only_call. intros r o [= <-]. exact Hobj. }
  destruct (requestApproval (plugin entry)) as [hook|]; [|exact Hrun].
  apply P_bind.
  - apply emits_only_call. intros r o [= <-]. exact Hobj.
  - intros [|]; cbn; [exact Hrun|apply preserves_ret, emits_only_refl].
Qed.

Lemma runToolUse_spares_disabled (context : ToolContext) (cur : nat) (toolUse : ToolUse) :
  preserves P (runToolUse index context registry cur toolUse).
Proof.
  unfold runToolUse.
  apply P_bind; [by apply emits_only_silent|]. intros startTime.
  apply P_bind.
  - destruct (index !! tu_name toolUse) as [[|c instanceId]|] eqn:Hindex;
      try (apply preserves_ret, emits_only_refl).
    apply preserves_try_catch; [apply emits_only_trans| |].
    + apply P_bind; [|intros ?; apply preserves_ret, emits_only_refl].
      apply executeTool_spares_disabled. by apply (index_ok (tu_name toolUse)).
    + intros err. apply P_bind; [apply emits_only_logger_error|].
      intros _. apply preserves_ret, emits_only_refl.
  - intros [result error].
    apply P_bind; [by apply emits_only_silent|]. intros endTime.
    apply P_bind; [by apply emits_only_silent|]. intros content.
    apply P_bind; [by apply emits_only_silent|]. intros _.
    apply preserves_ret, emits_only_refl.
Qed.

Lemma runToolUses_spares_disabled (context : ToolContext) (cur : nat)
    (requested_ : list ToolUse) :
  forall usages, preserves P (runToolUses index context registry cur requested_ usages).
Proof.
  induction requested_ as [|toolUse rest IH]; intros usages; cbn.
  - apply preserves_ret, emits_only_refl.
  - apply P_bind; [apply runToolUse_spares_disabled|]. intros usage. apply IH.
Qed.

Lemma toolLoop_spares_disabled (p : PluginBase W) (llm : LLM W) (model : string)
    (options : option GenerationOptions) (genOptions : LLMGenerateOptions)
    (context : ToolContext) :
  forall (n cur : nat) (usages : list ConversationToolUsage),
    preserves P (toolLoop n p llm model options genOptions index context registry
                   cur usages).
Proof.
  assert (Hgen : forall cur o, preserves P (call_generate p llm model cur o)).
  { intros cur o. unfold call_generate.
    apply P_bind; [by apply emits_only_silent|]. intros messages.
    apply emits_only_call. by intros r o'. }
  induction n as [|n IH]; intros cur usages; cbn [toolLoop].
  - apply P_bind; [apply Hgen|]. intros r. apply preserves_ret, emits_only_refl.
  - apply P_bind; [apply Hgen|]. intros r.
    destruct (r_toolUses r) as [[|toolUse more]|];
      try (apply preserves_ret, emits_only_refl).
    apply P_bind; [by apply emits_only_silent|]. intros previous.
    apply P_bind; [apply emits_only_silent; intros s; cbn; done|]. intros cur'.
    apply P_bind; [apply runToolUses_spares_disabled|]. intros usages'. apply IH.
Qed.

Lemma generateWithTools_spares_disabled (providerId model : string) (messages : nat)
    (tools_ : list Tool) (context : ToolContext) (options : option GenerationOptions) :
  preserves P (generateWithTools providerId model messages tools_ index context
                 registry options).
Proof.
  unfold generateWithTools.
  destruct (registry !! providerId) as [entry|]; [|apply preserves_throw, emits_only_refl].
  destruct (enabled entry); cbn [negb]; [|apply preserves_throw, emits_only_refl].
  destruct (getLLM (plugin entry)) as [llm|]; [|apply preserves_throw, emits_only_refl].
  apply P_bind; [by apply emits_only_silent|]. intros original.
  apply P_bind; [apply emits_only_silent; intros s; cbn; done|]. intros cur.
  apply toolLoop_spares_disabled.
Qed.

End ToolCalls.

(** C7, as amended.  Disabled instances are kept out where instances are
    selected for dispatch.  Tool resolution skips them: no tool name of the
    reverse index it returns maps to a disabled (or absent) instance, so a
    tool loop run with the resolved tools on the same registry invokes the
    approval hook and the handlers of enabled instances only.
    [generateWithTools] refuses a disabled provider before calling it, and
    [handleConnectorMessage] does nothing for a disabled connector. *)
Theorem disabled_instances_are_not_selected (registry : JsMap (InstanceEntry W))
    (providerIds : list string) :
  let resolved := getToolsForActionIds registry providerIds in
  (forall toolName_ instanceId,
     nameToInstanceId resolved !! toolName_ = Some instanceId ->
     exists entry, registry !! instanceId = Some entry /\ enabled entry = true)
  /\ (forall providerId model messages context options (s : State W),
       let run := generateWithTools providerId model messages (tools resolved)
                    (nameToInstanceId resolved) context registry options s in
       exists evs,
         trace run.2 = trace s ++ evs
         /\ forall ev o, ev ∈ evs -> tool_call_on ev = Some o -> enabled_object registry o)
  /\ (forall providerId model messages tools_ index context options (s : State W) entry,
       registry !! providerId = Some entry ->
       enabled entry = false ->
       generateWithTools providerId model messages tools_ index context registry options s
       = (Throws (ErrorObj "LLM provider not found or disabled"), s))
  /\ (forall (entry : InstanceEntry W) message (s : State W),
       enabled entry = false ->
       handleConnectorMessage entry message s = (Returns tt, s)).
Proof.
  intros resolved. split; [|split; [|split]].
  - apply resolved_index_names_enabled_only.
  - intros providerId model messages context options s run.
    destruct (generateWithTools_spares_disabled registry (nameToInstanceId resolved)
                (resolved_index_names_enabled_only registry providerIds)
                providerId model messages (tools resolved) context options s)
      as (evs & Htrace & Hok).
    exists evs. split; [done|]. intros ev o Hin. by apply (proj1 (Forall_forall _ _) Hok).
  - intros providerId model messages tools_ index context options s entry Hentry Hoff.
    unfold generateWithTools. by rewrite Hentry, Hoff.
  - intros entry message s Hoff. unfold handleConnectorMessage. by rewrite Hoff.
Qed.

(** ** The outcome and the calls of [generateWithTools] *)

Lemma usage_messages_answer (uses : list ToolUse) (new : list ConversationToolUsage) :
  length uses = length new ->
  Forall2 (fun toolUse m =>
             role m = tool /\ toolCallId m = Some (tu_id toolUse)
             /\ toolName m = Some (tu_name toolUse))
          uses (zip_with usage_message uses new).
Proof.
  revert new; induction uses as [|u uses IH]; intros [|x new] Hlen; cbn in *;
    try discriminate; constructor; [done|].
  apply IH. lia.
Qed.

Lemma toolLoop_shape (p : PluginBase W) (llm : LLM W) (model : string)
    (options : option GenerationOptions) (genOptions : LLMGenerateOptions)
    (index : gmap string string) (context : ToolContext)
    (registry : JsMap (InstanceEntry W)) :
  forall (n cur : nat) (usages : list ConversationToolUsage) (s : State W)
         (H : list LLMMessage),
    arrays s !! cur = Some H ->
    exists evs front final,
      trace (toolLoop n p llm model options genOptions index context registry cur usages s).2
        = trace s ++ evs
      /\ generations evs = front ++ [final]
      /\ Forall (fun g => requests_tools (gen_result g)) front
      /\ match (toolLoop n p llm model options genOptions index context registry cur
                  usages s).1 with
         | Returns result => gen_result final = Returns (response result)
         | Throws e =>
           gen_result final = Throws e
           \/ (requests_tools (gen_result final) /\ stringify_error e
               /\ ~ serialisable registry)
         end
      /\ gen_messages <$> head (front ++ [final]) = Some H
      /\ chained (front ++ [final]).
Proof.
  induction n as [|n IH]; intros cur usages s H Hcur; cbn [toolLoop]; unfold bind.
  - rewrite (call_generate_run _ _ _ _ _ _ _ Hcur).
    destruct (generate llm model H _ (world s)) as [[r|e] w]; cbn;
      eexists [_], [], _; cbn; repeat split; try done; by left.
  - rewrite (call_generate_run _ _ _ _ _ _ _ Hcur).
    destruct (generate llm model H _ (world s)) as [[r|e] w];
      [|cbn; eexists [_], [], _; cbn; repeat split; try done; by left].
    destruct (r_toolUses r) as [[|toolUse more]|] eqn:Huses.
    1, 3: cbn; eexists [_], [], _; cbn; repeat split; done.
    unfold read_array, new_array; cbn -[runToolUses toolLoop].
    rewrite Hcur; cbn -[runToolUses toolLoop].
    set (turn := assistant_turn r).
    set (s2 := with_arrays _ _).
    destruct (runToolUses_spec index context registry (length (arrays s))
                (toolUse :: more) usages s2) as (w3 & e3 & Hq3 & Hspec).
    pose proof (fun Hreg => runToolUses_returns index context registry (length (arrays s))
                (toolUse :: more) Hreg usages s2) as Hreturns.
    destruct (runToolUses index context registry (length (arrays s))
                (toolUse :: more) usages s2) as [[all|e] s3'].
    2: { destruct Hspec as (added & -> & Herr). cbn.
         eexists (_ :: e3), [], _. split; [by rewrite <- app_assoc|].
         split. { cbn [generations omap list_omap generation_of]. fold (generations e3).
                  by rewrite Hq3. }
         split; [done|]. split; [|done]. right. cbn. rewrite Huses.
         split; [done|]. split; [done|]. intros Hreg.
         by destruct (Hreturns Hreg) as (? & ? & ?). }
    clear Hreturns. destruct Hspec as (new1 & -> & -> & Hn3 & Hi3).
    set (s3 := with_arrays _ _).
    assert (H3 : arrays s3 !! length (arrays s)
                 = Some ((H ++ [turn]) ++ zip_with usage_message (toolUse :: more) new1)).
    { subst s3 s2. cbn. rewrite list_lookup_alter_eq, list_lookup_middle; done. }
    destruct (IH _ (usages ++ new1) s3 _ H3)
      as (evs & front & final & Htr & Hgens & Hfront & Hfinal & Hhead & Hchain).
    set (g0 := {| gen_messages := H; gen_options := Some genOptions; gen_result := Returns r |}).
    exists (EvGenerate (obj p) model H (Some genOptions) (Returns r) :: e3 ++ evs),
           (g0 :: front), final.
    split. { rewrite Htr. subst s3 s2; cbn. by rewrite <- !app_assoc. }
    split. { cbn [generations omap list_omap generation_of]. fold (generations (e3 ++ evs)).
             by rewrite generations_app, Hq3, Hgens. }
    split. { constructor; [cbn; by rewrite Huses|done]. }
    split; [done|]. split; [done|].
    assert (Hl1 : length (toolUse :: more) = length new1).
    { by rewrite <- (length_fmap tu_name), <- Hn3, length_fmap. }
    cbn [app chained]. destruct (front ++ [final]) as [|g1 rest]; [done|].
    split; [|done]. cbn in Hhead. injection Hhead as Hhead.
    exists r, (zip_with usage_message (toolUse :: more) new1).
    split; [done|]. split.
    { rewrite Hhead. cbn [gen_messages g0]. by rewrite <- app_assoc. }
    rewrite Huses. by apply usage_messages_answer.
Qed.

Lemma provider_of_Some (registry : JsMap (InstanceEntry W)) (providerId : string)
    (entry : InstanceEntry W) (llm : LLM W) :
  provider_of registry providerId = Some (entry, llm) ->
  registry !! providerId = Some entry /\ enabled entry = true
  /\ getLLM (plugin entry) = Some llm.
Proof.
  unfold provider_of. destruct (registry !! providerId) as [e|]; [|done].
  destruct (enabled e) eqn:Hon; [|done].
  destruct (getLLM (plugin e)) as [l|] eqn:Hl; [|done]. cbn. by intros [= <- <-].
Qed.

Lemma provider_of_None (registry : JsMap (InstanceEntry W)) (providerId model : string)
    (messages : nat) (tools_ : list Tool) (index : gmap string string)
    (context : ToolContext) (options : option GenerationOptions) (s : State W) :
  provider_of registry providerId = None ->
  generateWithTools providerId model messages tools_ index context registry options s
  = (Throws (ErrorObj "LLM provider not found or disabled"), s).
Proof.
  unfold provider_of, generateWithTools.
  destruct (registry !! providerId) as [e|]; [|done].
  destruct (enabled e); [|done]. by destruct (getLLM (plugin e)).
Qed.

Lemma no_generations (evs : list Event) :
  generations evs = [] -> forall ev, ev ∈ evs -> generation_of ev = None.
Proof.
  induction evs as [|ev0 evs IH]; intros Hq ev Hin; [by apply elem_of_nil in Hin|].
  cbn in Hq. destruct (generation_of ev0) eqn:Hev0; [done|].
  apply elem_of_cons in Hin as [->|Hin]; [done|]. by apply IH.
Qed.

Lemma toolLoop_calls (p : PluginBase W) (llm : LLM W) (model : string)
    (options : option GenerationOptions) (genOptions : LLMGenerateOptions)
    (index : gmap string string) (context : ToolContext)
    (registry : JsMap (InstanceEntry W)) :
  forall (n cur : nat) (usages : list ConversationToolUsage) (s : State W),
    exists evs,
      trace (toolLoop n p llm model options genOptions index context registry cur usages s).2
        = trace s ++ evs
      /\ forall o model_ history opts r,
           EvGenerate o model_ history opts r ∈ evs ->
           o = obj p /\ model_ = model
           /\ (opts = Some genOptions \/ opts = Some (spread_options options None)).
Proof.
  induction n as [|n IH]; intros cur usages s; cbn [toolLoop]; unfold bind.
  - destruct (call_generate_effect p llm model cur
                (Some (spread_options options None)) s) as (H & r & w & ->).
    exists [EvGenerate (obj p) model H (Some (spread_options options None)) r].
    split; [by destruct r|].
    intros o model_ history opts r' Hin. apply list_elem_of_singleton in Hin.
    injection Hin as -> -> -> -> ->. auto.
  - destruct (call_generate_effect p llm model cur (Some genOptions) s)
      as (H & r & w & ->).
    assert (Hone : forall o model_ history opts r',
               EvGenerate o model_ history opts r'
                 ∈ [EvGenerate (obj p) model H (Some genOptions) r] ->
               o = obj p /\ model_ = model
               /\ (opts = Some genOptions \/ opts = Some (spread_options options None))).
    { intros o model_ history opts r' Hin. apply list_elem_of_singleton in Hin.
      injection Hin as -> -> -> -> ->. auto. }
    destruct r as [r|e]; [|eexists; split; [done|apply Hone]].
    destruct (r_toolUses r) as [[|toolUse more]|] eqn:Huses.
    1, 3: eexists; split; [done|apply Hone].
    unfold read_array, new_array; cbn -[runToolUses toolLoop].
    set (s2 := with_arrays _ _).
    destruct (runToolUses_spec index context registry (length (arrays s))
                (toolUse :: more) usages s2) as (w3 & e3 & Hq3 & Hspec).
    destruct (runToolUses index context registry (length (arrays s))
                (toolUse :: more) usages s2) as [[all|e] s3'].
    2: { destruct Hspec as (added & -> & _). cbn.
         exists (EvGenerate (obj p) model H (Some genOptions) (Returns r) :: e3).
         split; [by rewrite <- app_assoc|].
         intros o model_ history opts r' Hin.
         apply elem_of_cons in Hin as [Heq|Hin];
           [apply (Hone o model_ history opts r'); rewrite Heq; apply list_elem_of_here|].
         by apply (no_generations _ Hq3) in Hin. }
    destruct Hspec as (new1 & -> & -> & _).
    set (s3 := with_arrays _ _).
    destruct (IH (length (arrays s)) (usages ++ new1) s3) as (evs & Htr & Hevs).
    exists (EvGenerate (obj p) model H (Some genOptions) (Returns r) :: e3 ++ evs).
    split. { rewrite Htr. subst s3 s2; cbn. by rewrite <- !app_assoc. }
    intros o model_ history opts r' Hin.
    apply elem_of_cons in Hin as [Heq|Hin];
      [apply (Hone o model_ history opts r'); rewrite Heq; apply list_elem_of_here|].
    apply elem_of_app in Hin as [Hin|Hin]; [|by eapply Hevs].
    by apply (no_generations _ Hq3) in Hin.
Qed.


(** The history shown to the Model only grows, and by whole turns.  The
    first call of [generateWithTools] is given the caller's messages; each
    later call is given what the call before it was given, followed by the
    assistant turn that carries the tool requests of the response, followed
    by exactly one tool message per requested tool use, in the order of the
    requests, each tagged with the id and the name of its request. *)
Theorem generateWithTools_history_grows (registry : JsMap (InstanceEntry W))
    (providerId : string) (model : string) (messages : nat) (tools_ : list Tool)
    (index : gmap string string) (context : ToolContext)
    (options : option GenerationOptions) (s : State W) :
  let run := generateWithTools providerId model messages tools_ index context
               registry options s in
  exists evs,
    trace run.2 = trace s ++ evs
    /\ chained (generations evs)
    /\ forall first, head (generations evs) = Some first ->
         gen_messages first = default [] (arrays s !! messages).
Proof.
  cbn zeta. destruct (provider_of registry providerId) as [[entry llm]|] eqn:Hp.
  2: { rewrite provider_of_None by done. exists []. by rewrite app_nil_r. }
  apply provider_of_Some in Hp as (Hentry & Hon & Hllm).
  rewrite (generateWithTools_resolved _ _ _ _ _ _ _ _ _ _ _ Hentry Hon Hllm).
  set (s1 := with_arrays _ s).
  assert (H1 : arrays s1 !! length (arrays s) = Some (default [] (arrays s !! messages))).
  { subst s1; cbn. by rewrite list_lookup_middle. }
  destruct (toolLoop_shape (plugin entry) llm model options
              (spread_options options
                 (if bool_decide (0 < length tools_)%nat then Some tools_ else None))
              index context registry MAX_TOOL_LOOP_ITERATIONS _ [] s1 _ H1)
    as (evs & front & final & Htr & Hgens & _ & _ & Hhead & Hchain).
  exists evs. rewrite Hgens. split; [done|]. split; [done|].
  intros first Hfirst. rewrite Hfirst in Hhead. by injection Hhead.
Qed.

(** Every Model call of [generateWithTools] goes to the plugin object of
    the provider entry, which is enabled, with the caller's model name and
    the caller's temperature and token limit.  The tool schemas it carries
    are the caller's non-empty tool list or none at all: an empty tool list
    is never sent. *)
Theorem generateWithTools_calls_the_provider (registry : JsMap (InstanceEntry W))
    (providerId : string) (model : string) (messages : nat) (tools_ : list Tool)
    (index : gmap string string) (context : ToolContext)
    (options : option GenerationOptions) (s : State W) :
  let run := generateWithTools providerId model messages tools_ index context
               registry options s in
  exists evs,
    trace run.2 = trace s ++ evs
    /\ forall o model_ history opts r,
         EvGenerate o model_ history opts r ∈ evs ->
         (exists entry, registry !! providerId = Some entry /\ enabled entry = true
                        /\ o = obj (plugin entry))
         /\ model_ = model
         /\ exists schemas,
              opts = Some {| g_temperature := options ≫= temperature;
                             g_maxTokens := options ≫= maxTokens;
                             g_tools := schemas |}
              /\ (schemas = None \/ (schemas = Some tools_ /\ tools_ <> [])).
Proof.
  cbn zeta. destruct (provider_of registry providerId) as [[entry llm]|] eqn:Hp.
  2: { rewrite provider_of_None by done. exists []. rewrite app_nil_r. split; [done|].
       intros o model_ history opts r Hin. by apply elem_of_nil in Hin. }
  apply provider_of_Some in Hp as (Hentry & Hon & Hllm).
  rewrite (generateWithTools_resolved _ _ _ _ _ _ _ _ _ _ _ Hentry Hon Hllm).
  set (s1 := with_arrays _ s).
  destruct (toolLoop_calls (plugin entry) llm model options
              (spread_options options
                 (if bool_decide (0 < length tools_)%nat then Some tools_ else None))
              index context registry MAX_TOOL_LOOP_ITERATIONS (length (arrays s)) [] s1)
    as (evs & Htr & Hevs).
  exists evs. split; [done|].
  intros o model_ history opts r Hin.
  destruct (Hevs _ _ _ _ _ Hin) as (-> & -> & Hopts).
  split; [by exists entry|]. split; [done|].
  destruct Hopts as [->| ->]; [|by exists None; auto].
  destruct tools_ as [|t ts]; cbn; [by exists None; auto|].
  exists (Some (t :: ts)). split; [done|]. by right.
Qed.

Lemma executeTool_unresolved (registry : JsMap (InstanceEntry W)) (instanceId : string)
    (toolUse : ToolUse) (context : ToolContext) (s : State W) :
  resolved_tool registry instanceId toolUse = None ->
  executeTool instanceId toolUse context registry s
  = (Throws (ErrorObj (resolution_error registry instanceId toolUse)), s).
Proof.
  unfold resolved_tool, resolution_error, executeTool.
  destruct (registry !! instanceId) as [entry|]; [|done]. cbn.
  destruct (getTools (plugin entry)) as [declared|]; [|done].
  by intros ->.
Qed.

Lemma executeTool_handlers (registry : JsMap (InstanceEntry W)) (instanceId : string)
    (toolUse : ToolUse) (context : ToolContext) (s : State W) :
  exists evs,
    trace (executeTool instanceId toolUse context registry s).2 = trace s ++ evs
    /\ omap handler_signature evs `sublist_of` [request_signature context toolUse].
Proof.
  assert (Hnone : exists evs : list Event,
             trace s = trace s ++ evs
             /\ omap handler_signature evs `sublist_of` [request_signature context toolUse]).
  { exists []. rewrite app_nil_r. split; [done|]. apply sublist_nil_l. }
  unfold executeTool.
  destruct (registry !! instanceId) as [entry|]; [|done].
  destruct (getTools (plugin entry)) as [declared|]; [|done].
  destruct (find (named toolUse) declared) as [t|] eqn:Hfind; [|done].
  apply find_some in Hfind as [_ Hname]. apply String.eqb_eq in Hname.
  assert (Hrun : forall s0 : State W, exists evs,
             trace (invoke_handler (plugin entry) t toolUse context s0).2 = trace s0 ++ evs
             /\ omap handler_signature evs = [request_signature context toolUse]).
  { intros s0. unfold invoke_handler, call.
    destruct (handler t (tu_input toolUse) context (world s0)) as [r w]; cbn.
    eexists; split; [done|]. cbn. unfold request_signature, toTool. by rewrite Hname. }
  destruct (requestApproval (plugin entry)) as [hook|].
  2: { destruct (Hrun s) as (evs & Htr & Hsig). exists evs. by rewrite Hsig. }
  unfold bind, call.
  destruct (hook t (tu_input toolUse) context (world s)) as [[[|]|e] w1]; cbn.
  - destruct (Hrun (with_world w1
      [EvRequestApproval (obj (plugin entry)) (toTool t) (tu_input toolUse) context
         (Returns true)] s)) as (evs & -> & Hsig).
    eexists (_ :: evs). cbn. rewrite <- app_assoc. split; [done|]. by rewrite Hsig.
  - eexists [_]. split; [done|]. cbn. apply sublist_nil_l.
  - eexists [_]. split; [done|]. cbn. apply sublist_nil_l.
Qed.

Lemma runToolUse_handlers (index : gmap string string) (context : ToolContext)
    (registry : JsMap (InstanceEntry W)) (cur : nat) (toolUse : ToolUse) (s : State W) :
  exists evs,
    trace (runToolUse index context registry cur toolUse s).2 = trace s ++ evs
    /\ omap handler_signature evs `sublist_of` [request_signature context toolUse].
Proof.
  unfold runToolUse, bind, now, ret, array_push, lift; cbn.
  destruct (index !! tu_name toolUse) as [[|c instanceId]|] eqn:Hindex; cbn.
  1, 3: exists []; rewrite app_nil_r; split; [done|apply sublist_nil_l].
  unfold try_catch, bind.
  destruct (executeTool_handlers registry (String c instanceId) toolUse context s)
    as (evs & Htr & Hsig).
  destruct (executeTool (String c instanceId) toolUse context registry s) as [[v|e] s1];
    cbn in *.
  - destruct v as [[]| |]; cbn; by exists evs.
  - destruct e as [message|[]]; cbn; by exists evs.
Qed.

Lemma runToolUses_handlers (index : gmap string string) (context : ToolContext)
    (registry : JsMap (InstanceEntry W)) (cur : nat) (requested_ : list ToolUse) :
  forall (usages : list ConversationToolUsage) (s : State W),
  exists evs,
    trace (runToolUses index context registry cur requested_ usages s).2 = trace s ++ evs
    /\ omap handler_signature evs `sublist_of` (request_signature context <$> requested_).
Proof.
  induction requested_ as [|toolUse rest IH]; intros usages s; cbn [runToolUses].
  - exists []. rewrite app_nil_r. split; [done|]. apply sublist_nil_l.
  - unfold bind.
    destruct (runToolUse_handlers index context registry cur toolUse s) as (e1 & Htr1 & Hs1).
    destruct (runToolUse index context registry cur toolUse s) as [[usage|e] s1];
      cbn in Htr1.
    2: { exists e1. split; [done|].
         change (omap handler_signature e1
                 `sublist_of` [request_signature context toolUse]
                              ++ (request_signature context <$> rest)).
         by apply sublist_inserts_r. }
    destruct (IH (usages ++ [usage]) s1) as (e2 & -> & Hs2).
    exists (e1 ++ e2). split; [by rewrite Htr1, app_assoc|].
    rewrite omap_app. by apply (sublist_app _ [_]).
Qed.

Lemma toolLoop_handlers (p : PluginBase W) (llm : LLM W) (model : string)
    (options : option GenerationOptions) (genOptions : LLMGenerateOptions)
    (index : gmap string string) (context : ToolContext)
    (registry : JsMap (InstanceEntry W)) :
  forall (n cur : nat) (usages : list ConversationToolUsage) (s : State W),
    let run := toolLoop n p llm model options genOptions index context registry cur
                 usages s in
    exists evs,
      trace run.2 = trace s ++ evs
      /\ generations evs <> []
      /\ omap handler_signature evs
         `sublist_of` (request_signature context <$> asked (generations evs))
      /\ match run.1 with
         | Returns _ =>
           omap handler_signature evs
           `sublist_of` (request_signature context <$> requested (generations evs))
         | Throws _ => True
         end.
Proof.
  induction n as [|n IH]; intros cur usages s; cbn [toolLoop]; unfold bind.
  - destruct (call_generate_effect p llm model cur
                (Some (spread_options options None)) s) as (H & r & w & ->).
    eexists [_]. split; [by destruct r|]. split; [done|]. cbn.
    split; [apply sublist_nil_l|]. destruct r; [apply sublist_nil_l|done].
  - destruct (call_generate_effect p llm model cur (Some genOptions) s)
      as (H & r & w & ->).
    destruct r as [r|e];
      [|eexists [_]; split; [done|]; split; [done|]; cbn; split; [apply sublist_nil_l|done]].
    destruct (r_toolUses r) as [[|toolUse more]|] eqn:Huses.
    1, 3: eexists [_]; split; [done|]; split; [done|]; cbn;
          split; apply sublist_nil_l.
    unfold read_array, new_array; cbn -[runToolUses toolLoop].
    set (s2 := with_arrays _ _).
    destruct (runToolUses_handlers index context registry (length (arrays s))
                (toolUse :: more) usages s2) as (e3 & Htr3 & Hs3).
    destruct (runToolUses_spec index context registry (length (arrays s))
                (toolUse :: more) usages s2) as (w3 & e3' & Hq3 & Hspec).
    set (g0 := {| gen_messages := H; gen_options := Some genOptions;
                  gen_result := Returns r |}).
    assert (Huses0 : tool_uses_of g0 = toolUse :: more).
    { unfold tool_uses_of; cbn. by rewrite Huses. }
    destruct (runToolUses index context registry (length (arrays s))
                (toolUse :: more) usages s2) as [[all|e] s3'].
    2: { destruct Hspec as (added & -> & _). cbn in Htr3. apply app_inv_head in Htr3.
         subst e3'. cbn.
         exists (EvGenerate (obj p) model H (Some genOptions) (Returns r) :: e3).
         split; [by rewrite <- app_assoc|].
         cbn [generations omap list_omap generation_of handler_signature].
         fold (generations e3). fold (omap handler_signature e3). rewrite Hq3.
         split; [done|]. split; [|done].
         unfold asked. cbn [mbind list_bind]. fold g0. rewrite Huses0, app_nil_r.
         exact Hs3. }
    destruct Hspec as (new1 & -> & -> & _). cbn in Htr3. apply app_inv_head in Htr3.
    subst e3'.
    set (s3 := with_arrays _ _).
    destruct (IH (length (arrays s)) (usages ++ new1) s3) as (evs & Htr & Hne & Hall & Hsub).
    exists (EvGenerate (obj p) model H (Some genOptions) (Returns r) :: e3 ++ evs).
    split. { rewrite Htr. subst s3 s2; cbn. by rewrite <- !app_assoc. }
    cbn [generations omap list_omap generation_of handler_signature].
    fold (generations (e3 ++ evs)). rewrite generations_app, Hq3. cbn [app].
    fold (omap handler_signature (e3 ++ evs)). rewrite omap_app.
    split; [done|]. split.
    + unfold asked. cbn [mbind list_bind]. fold g0. fold (asked (generations evs)).
      rewrite Huses0, fmap_app. by apply sublist_app.
    + destruct (toolLoop n p llm model options genOptions index context registry
                  (length (arrays s)) (usages ++ new1) s3).1; [|done].
      destruct (generations evs) as [|g gens] eqn:Hgens; [done|].
      cbn [requested]. fold g0. rewrite Huses0, fmap_app. by apply sublist_app.
Qed.

(** Handlers run only on request.  Read in order, the handler invocations
    of one [generateWithTools] form a subsequence of the tool uses the
    Model asked for: each invocation is for the tool name of a request, with
    the input of that request and the caller's context; no request is
    served twice, none out of order.  When the function returns, the tool
    uses of the last response are not among those served. *)
Theorem handlers_follow_requests (registry : JsMap (InstanceEntry W))
    (providerId : string) (model : string) (messages : nat) (tools_ : list Tool)
    (index : gmap string string) (context : ToolContext)
    (options : option GenerationOptions) (s : State W) :
  let run := generateWithTools providerId model messages tools_ index context
               registry options s in
  let signature toolUse := (tu_name toolUse, tu_input toolUse, context) in
  exists evs,
    trace run.2 = trace s ++ evs
    /\ omap handler_signature evs `sublist_of` (signature <$> asked (generations evs))
    /\ match run.1 with
       | Returns _ =>
         omap handler_signature evs `sublist_of` (signature <$> requested (generations evs))
       | Throws _ => True
       end.
Proof.
  cbn zeta. destruct (provider_of registry providerId) as [[entry llm]|] eqn:Hp.
  2: { rewrite provider_of_None by done. exists []. by rewrite app_nil_r. }
  apply provider_of_Some in Hp as (Hentry & Hon & Hllm).
  rewrite (generateWithTools_resolved _ _ _ _ _ _ _ _ _ _ _ Hentry Hon Hllm).
  set (s1 := with_arrays _ s).
  destruct (toolLoop_handlers (plugin entry) llm model options
              (spread_options options
                 (if bool_decide (0 < length tools_)%nat then Some tools_ else None))
              index context registry MAX_TOOL_LOOP_ITERATIONS (length (arrays s)) [] s1)
    as (evs & Htr & _ & Hall & Hsub).
  by exists evs.
Qed.

(** A stale reverse index is reported to the Model, not run.  When the
    index sends a tool name to an instance that is not registered, that has
    no Tooling capability, or that does not declare a tool of that name, no
    plugin code runs: the tool use is answered with the failure result whose
    error is ["Plugin with tools not found: <instance id>"] or
    ["Tool not found: <tool name>"], and the same text is the error of its
    usage record. *)
Theorem stale_index_is_reported (index : gmap string string) (context : ToolContext)
    (registry : JsMap (InstanceEntry W)) (currentMessages : nat) (toolUse : ToolUse)
    (instanceId : string) (s : State W) :
  index !! tu_name toolUse = Some instanceId ->
  instanceId <> "" ->
  resolved_tool registry instanceId toolUse = None ->
  let error :=
    match registry !! instanceId ≫= (fun entry => getTools (plugin entry)) with
    | Some _ => "Tool not found: " +:+ tu_name toolUse
    | None => "Plugin with tools not found: " +:+ instanceId
    end in
  exists usage s1,
    runToolUse index context registry currentMessages toolUse s = (Returns usage, s1)
    /\ trace s1 = trace s
    /\ world s1 = world s
    /\ u_error usage = Some error
    /\ u_output usage
       = Data (VObj [("success", VBool false); ("error", VStr error);
                     ("message", VStr (technical_error toolUse))]).
Proof.
  intros Hindex Hid Hstale. cbn zeta.
  unfold runToolUse, bind, now, ret, array_push, lift; cbn.
  rewrite Hindex. destruct instanceId as [|c rest]; [done|].
  unfold try_catch, bind.
  rewrite (executeTool_unresolved _ _ _ _ _ Hstale). cbn.
  eexists _, _. split; [done|]. by cbn.
Qed.

(** ** The operations of the plugin manager *)

Lemma resolved_tools (registry : JsMap (InstanceEntry W)) (providerIds : list string) :
  tools (getToolsForActionIds registry providerIds)
  = providerIds ≫= (fun instanceId => toTools (contributes registry instanceId)).
Proof.
  unfold getToolsForActionIds.
  rewrite <- (app_nil_l (providerIds ≫= _)).
  change (@nil Tool) with (tools {| tools := []; nameToInstanceId := ∅ |}) at 2.
  generalize ({| tools := []; nameToInstanceId := ∅ |}).
  induction providerIds as [|i ids IH]; intros acc; cbn; [by rewrite app_nil_r|].
  rewrite IH, addToolsOf_spec. cbn. by rewrite <- app_assoc.
Qed.

Lemma contributes_offered (registry : JsMap (InstanceEntry W)) (instanceId : string)
    (entry : InstanceEntry W) :
  registry !! instanceId = Some entry ->
  toTools (contributes registry instanceId) = offered entry.
Proof. intros Hl. unfold contributes, offered. rewrite Hl. by destruct (enabled entry). Qed.

(** [getAllEnabledPluginWithToolIds] lists exactly the instances that are
    enabled and Tooling-capable, each once, in the order in which the
    registry holds them (the insertion order of the [Map]). *)
Theorem getAllEnabledPluginWithToolIds_spec (registry : JsMap (InstanceEntry W)) :
  wf_map registry ->
  let ids := getAllEnabledPluginWithToolIds registry in
  NoDup ids
  /\ ids `sublist_of` (entries registry).*1
  /\ forall instanceId,
       instanceId ∈ ids <->
       exists entry, registry !! instanceId = Some entry /\ enabled entry = true
                     /\ is_Some (getTools (plugin entry)).
Proof.
  intros Hwf ids.
  assert (Hsub : ids `sublist_of` (entries registry).*1).
  { subst ids. unfold getAllEnabledPluginWithToolIds.
    induction (entries registry) as [|[k e] l IH]; cbn; [done|].
    destruct (enabled e && hasTools (plugin e)); cbn;
      [by apply sublist_skip|by apply sublist_cons]. }
  split; [by eapply sublist_NoDup|]. split; [done|].
  intros instanceId. subst ids. unfold getAllEnabledPluginWithToolIds.
  rewrite list_elem_of_omap. split.
  - intros ([k e] & Hin & Hf). cbn in Hf.
    destruct (enabled e) eqn:Hon; [|done]. unfold hasTools in Hf.
    case_bool_decide as Htools; cbn in Hf; [|done]. injection Hf as ->.
    exists e. by rewrite <- JsMap_elem_of.
  - intros (e & Hl & Hon & Htools). exists (instanceId, e).
    rewrite JsMap_elem_of by done. split; [done|]. cbn. rewrite Hon. unfold hasTools.
    by rewrite bool_decide_eq_true_2.
Qed.

(** The tool set that [generateWithProvider] falls back on holds every
    schema of every enabled, Tooling-capable instance, instance after
    instance in the order of the registry, and nothing else. *)
Theorem fallback_tools_cover_the_registry (registry : JsMap (InstanceEntry W)) :
  wf_map registry ->
  tools (getToolsForActionIds registry (getAllEnabledPluginWithToolIds registry))
  = (entries registry).*2 ≫= offered.
Proof.
  intros Hwf. rewrite resolved_tools. unfold getAllEnabledPluginWithToolIds.
  assert (Hall : forall kv, kv ∈ entries registry -> registry !! kv.1 = Some kv.2).
  { intros [k e] Hin. by apply JsMap_elem_of. }
  revert Hall. generalize (entries registry) as l.
  induction l as [|[k e] l IH]; intros Hall; [done|].
  assert (Hk : registry !! k = Some e) by (apply (Hall (k, e)); left).
  specialize (IH (fun kv Hin => Hall kv (list_elem_of_further _ _ _ Hin))).
  rewrite fmap_cons, bind_cons, <- IH. cbn [omap list_omap fst snd].
  unfold offered, hasTools. destruct (enabled e) eqn:Hon; cbn [andb].
  - case_bool_decide as Htools.
    + rewrite bind_cons. f_equal. unfold contributes. by rewrite Hk, Hon.
    + destruct (getTools (plugin e)) eqn:Ht; [destruct Htools; by eexists|done].
  - done.
Qed.

Lemma unloadPlugin_run (instanceId : string) (s : State W) :
  match plugins s !! instanceId with
  | None => unloadPlugin instanceId s = (Returns tt, s)
  | Some entry =>
    exists w,
      unloadPlugin instanceId s =
        (Returns tt,
         with_plugins (delete instanceId (plugins s))
           (with_world w (disconnection (world s) (plugin entry)
                          ++ [EvShutdown (obj (plugin entry)) (Returns tt)]) s))
      \/ exists e evs,
           unloadPlugin instanceId s = (Throws e, with_world w evs s)
           /\ failed_teardown (world s) (plugin entry) e evs
  end.
Proof.
  unfold unloadPlugin, bind, get_plugins; cbn.
  destruct (plugins s !! instanceId) as [entry|]; [|done].
  apply teardown_cases.
Qed.

(** [unloadPlugin] that completes has removed the instance.  For an id
    that is not registered it does nothing at all.  For a registered id it
    disconnects the connector if it is connected, awaits [shutdown()], and
    only then evicts the entry: afterwards the id is unknown to the
    registry, every other entry is where it was, and these calls are the
    only ones issued. *)
Theorem unloadPlugin_removes_instance (instanceId : string) (s : State W) :
  wf_map (plugins s) ->
  let run := unloadPlugin instanceId s in
  run.1 = Returns tt ->
  plugins run.2 !! instanceId = None
  /\ (forall other, other <> instanceId -> plugins run.2 !! other = plugins s !! other)
  /\ wf_map (plugins run.2)
  /\ match plugins s !! instanceId with
     | None => run.2 = s
     | Some entry =>
       trace run.2 = trace s ++ disconnection (world s) (plugin entry)
                             ++ [EvShutdown (obj (plugin entry)) (Returns tt)]
     end.
Proof.
  intros Hwf run Hret. subst run.
  pose proof (unloadPlugin_run instanceId s) as Hrun.
  destruct (plugins s !! instanceId) as [entry|] eqn:Hentry.
  - destruct Hrun as (w & [Hrun | (e & evs & Hrun & _)]); rewrite Hrun in Hret |- *;
      [|done]. cbn.
    split; [by apply JsMap_lookup_delete_eq|].
    split; [intros other Hne; by apply JsMap_lookup_delete_ne|].
    split; [by apply wf_map_delete|done].
  - rewrite Hrun. cbn. by rewrite Hentry.
Qed.

(** [unloadPlugin] that fails has removed nothing.  When [disconnect()] or
    [shutdown()] of the instance rejects, [unloadPlugin] rejects with the
    same error and the registry is exactly what it was: the instance is
    still registered (and, when it was [disconnect()] that failed,
    [shutdown()] has not been called). *)
Theorem unloadPlugin_failure_keeps_instance (instanceId : string) (s : State W)
    (e : Thrown) :
  let run := unloadPlugin instanceId s in
  run.1 = Throws e ->
  plugins run.2 = plugins s
  /\ exists entry evs,
       plugins s !! instanceId = Some entry
       /\ trace run.2 = trace s ++ evs
       /\ (evs = [EvDisconnect (obj (plugin entry)) (Throws e)]
           \/ evs = disconnection (world s) (plugin entry)
                    ++ [EvShutdown (obj (plugin entry)) (Throws e)]).
Proof.
  intros run Hthrow. subst run.
  pose proof (unloadPlugin_run instanceId s) as Hrun.
  destruct (plugins s !! instanceId) as [entry|] eqn:Hentry.
  - destruct Hrun as (w & [Hrun | (e' & evs & Hrun & Hevs)]); rewrite Hrun in Hthrow |- *;
      [done|]. cbn in Hthrow. injection Hthrow as ->.
    split; [done|]. by exists entry, evs.
  - by rewrite Hrun in Hthrow.
Qed.

(** [addPlugin] with an id that is not yet registered.  Nothing is torn
    down.  When the loader rejects, [addPlugin] rejects with the loader's
    error and the registry is unchanged.  When the loader answers, the new
    entry is appended to the registry (after all existing entries), enabled,
    named after its catalog entry, and [addPlugin] returns its description
    whatever [connect()] does: the connection is started, not awaited. *)
Theorem addPlugin_registers_fresh_instance (type_ : string) (config_ : Value)
    (instanceId : string) (s : State W) (catalogEntry : CatalogEntry) :
  find (fun e => String.eqb (ce_type e) type_) (getExternalCatalogEntries (world s))
    = Some catalogEntry ->
  plugins s !! instanceId = None ->
  let run := addPlugin type_ config_ (Some instanceId) s in
  match loadExternalPlugin type_ config_ (world s) with
  | (Throws e, w1) =>
    run = (Throws e, with_world w1 [EvLoadPlugin type_ config_ (Throws e)] s)
  | (Returns p, _) =>
    let entry := {| id := instanceId; type := type_; name := ce_name catalogEntry;
                    config := config_; enabled := true; plugin := p |} in
    exists instance w2,
      run = (Returns instance,
             with_plugins (MkJsMap (entries (plugins s) ++ [(instanceId, entry)]))
               (with_world w2 (EvLoadPlugin type_ config_ (Returns (obj p))
                               :: wiring p) s))
      /\ pi_id instance = instanceId
      /\ pi_name instance = ce_name catalogEntry
      /\ pi_enabled instance = true
      /\ pi_tools instance = toTools <$> getTools p
  end.
Proof.
  intros Hcat Hfresh run. subst run.
  unfold addPlugin, bind, ask, ret, get_plugins; cbn. rewrite Hcat, Hfresh.
  unfold call, update_plugins; cbn.
  destruct (loadExternalPlugin type_ config_ (world s)) as [[p|e] w1] eqn:Hload; cbn;
    [|done].
  set (s3 := with_plugins _ _).
  rewrite (wire_connector_run p s3).
  subst s3. unfold toPluginInstance. cbn.
  eexists _, _. split; [apply (f_equal2 pair); [reflexivity|]|done].
  unfold with_plugins, with_world; cbn. f_equal.
  - unfold insert, JsMap_insert. f_equal. by apply entries_set_absent.
  - by rewrite <- app_assoc.
Qed.

(** How [addPlugin] fails, and what it leaves behind.  An unknown plugin
    type is refused before anything is touched.  When the old instance
    cannot be torn down ([disconnect()] or [shutdown()] rejects), the
    registry is unchanged and nothing is loaded.  When the teardown has
    succeeded and the loader rejects, the old instance is already gone: the
    replacement is not atomic, the id is left unregistered. *)
Theorem addPlugin_failure_modes (type_ : string) (config_ : Value)
    (instanceId : option string) (s : State W) (e : Thrown) :
  let id_ := default (type_ +:+ "-" +:+ pretty (Date_now (world s))) instanceId in
  let run := addPlugin type_ config_ instanceId s in
  run.1 = Throws e ->
  exists evs,
    trace run.2 = trace s ++ evs
    /\ ((find (fun c => String.eqb (ce_type c) type_) (getExternalCatalogEntries (world s))
           = None
         /\ e = ErrorObj ("Plugin not found in catalog: " +:+ type_)
         /\ run.2 = s)
        \/ (exists old,
              plugins s !! id_ = Some old
              /\ plugins run.2 = plugins s
              /\ (evs = [EvDisconnect (obj (plugin old)) (Throws e)]
                  \/ evs = disconnection (world s) (plugin old)
                           ++ [EvShutdown (obj (plugin old)) (Throws e)]))
        \/ (plugins run.2 = delete id_ (plugins s)
            /\ last evs = Some (EvLoadPlugin type_ config_ (Throws e)))).
Proof.
  intros id_ run.
  assert (Hdef : run = addPlugin type_ config_ (Some id_) s).
  { subst run id_. destruct instanceId; [done|].
    unfold addPlugin, bind, ask, now, ret, get_plugins; cbn. by destruct (find _ _). }
  rewrite Hdef. clear Hdef run. clearbody id_.
  unfold addPlugin, bind, ask, ret, get_plugins; cbn.
  destruct (find _ (getExternalCatalogEntries (world s))) as [catalogEntry|] eqn:Hcat.
  2: { cbn. intros [= <-]. exists []. rewrite app_nil_r. split; [done|]. by left. }
  destruct (plugins s !! id_) as [old|] eqn:Hold.
  - destruct (teardown_cases id_ old s) as (w1 & [-> | (e' & evs & -> & Hevs)]).
    2: { cbn. intros [= ->]. exists evs. split; [done|]. right; left. by exists old. }
    unfold call, update_plugins; cbn.
    destruct (loadExternalPlugin type_ config_ w1) as [[p|e0] w2]; cbn.
    + set (s3 := with_plugins _ _).
      by rewrite (wire_connector_run p s3).
    + intros [= ->]. cbn.
      exists ((disconnection (world s) (plugin old)
               ++ [EvShutdown (obj (plugin old)) (Returns tt)])
              ++ [EvLoadPlugin type_ config_ (Throws e)]).
      split; [by rewrite !app_assoc|].
      right; right. split; [done|]. by rewrite last_snoc.
  - unfold call, update_plugins; cbn.
    destruct (loadExternalPlugin type_ config_ (world s)) as [[p|e0] w2]; cbn.
    + set (s3 := with_plugins _ _).
      by rewrite (wire_connector_run p s3).
    + intros [= ->]. cbn. eexists. split; [done|].
      right; right. split; [|done].
      unfold delete, JsMap_delete. destruct (plugins s) as [l]. cbn. f_equal.
      symmetry. by apply entries_delete_absent.
Qed.

Lemma toggle_toggle (entry : InstanceEntry W) : toggle (toggle entry) = entry.
Proof. destruct entry as [? ? ? ? on ?]. unfold toggle; cbn. by rewrite negb_involutive. Qed.

Lemma with_plugins_same (s : State W) : with_plugins (plugins s) s = s.
Proof. by destruct s. Qed.

Lemma toggleEnabled_run (instanceId : string) (s : State W) :
  toggleEnabled instanceId s =
    match plugins s !! instanceId with
    | None => (Throws (ErrorObj "Instance not found"), s)
    | Some entry =>
      (Returns tt, with_plugins (<[instanceId := toggle entry]> (plugins s)) s)
    end.
Proof.
  unfold toggleEnabled, bind, get_plugins, update_plugins; cbn.
  by destruct (plugins s !! instanceId).
Qed.

Lemma contributes_ext (registry registry' : JsMap (InstanceEntry W)) (instanceId : string) :
  registry' !! instanceId = registry !! instanceId ->
  contributes registry' instanceId = contributes registry instanceId.
Proof. unfold contributes. by intros ->. Qed.

(** [toggleEnabled] flips the flag and does nothing else.  For an id that
    is not registered it throws ["Instance not found"] and changes nothing.
    Otherwise the entry keeps its plugin object, its configuration and its
    place in the registry, every other entry is untouched, and no call is
    made on any plugin: the object is neither shut down nor reloaded. *)
Theorem toggleEnabled_flips_the_flag (instanceId : string) (s : State W) :
  let run := toggleEnabled instanceId s in
  match plugins s !! instanceId with
  | None => run = (Throws (ErrorObj "Instance not found"), s)
  | Some entry =>
    run.1 = Returns tt
    /\ plugins run.2 !! instanceId
       = Some {| id := id entry; type := type entry; name := name entry;
                 config := config entry; enabled := negb (enabled entry);
                 plugin := plugin entry |}
    /\ (forall other, other <> instanceId -> plugins run.2 !! other = plugins s !! other)
    /\ (entries (plugins run.2)).*1 = (entries (plugins s)).*1
    /\ run.2 = with_plugins (plugins run.2) s
  end.
Proof.
  cbn zeta. rewrite toggleEnabled_run.
  destruct (plugins s !! instanceId) as [entry|] eqn:Hentry; [|done]. cbn.
  split; [done|]. split; [apply JsMap_lookup_insert_eq|].
  split; [intros other Hne; by apply JsMap_lookup_insert_ne|].
  split; [|done]. by eapply entries_set_present.
Qed.

(** Toggling an instance twice restores the process state exactly. *)
Theorem toggleEnabled_twice (instanceId : string) (s : State W) :
  is_Some (plugins s !! instanceId) ->
  toggleEnabled instanceId (toggleEnabled instanceId s).2 = (Returns tt, s).
Proof.
  intros [entry Hentry].
  set (s1 := (toggleEnabled instanceId s).2). rewrite (toggleEnabled_run instanceId s1).
  subst s1. rewrite (toggleEnabled_run instanceId s), Hentry. cbn [snd plugins with_plugins].
  rewrite JsMap_lookup_insert_eq, toggle_toggle.
  destruct s as [w [l] a c t n tr]. unfold with_plugins, insert, JsMap_insert; cbn in *.
  do 3 f_equal. rewrite entries_set_twice. by apply entries_set_same.
Qed.

(** Disabling an instance withdraws its tools.  Once [toggleEnabled] has
    switched an enabled instance off, tool resolution over any list of ids
    yields what it yielded before for the list without that id: the same
    tools in the same order and the same reverse index. *)
Theorem toggleEnabled_withdraws_tools (instanceId : string) (s : State W)
    (entry : InstanceEntry W) (providerIds : list string) :
  plugins s !! instanceId = Some entry ->
  enabled entry = true ->
  getToolsForActionIds (plugins (toggleEnabled instanceId s).2) providerIds
  = getToolsForActionIds (plugins s) (filter (fun i => i <> instanceId) providerIds).
Proof.
  intros Hentry Hon. rewrite toggleEnabled_run, Hentry. cbn.
  unfold getToolsForActionIds. generalize ({| tools := []; nameToInstanceId := ∅ |}).
  induction providerIds as [|i ids IH]; intros acc; [done|]. cbn [foldl].
  destruct (decide (i = instanceId)) as [->|Hne].
  - rewrite filter_cons_False by (by intros ?). rewrite IH. f_equal.
    rewrite addToolsOf_spec. unfold contributes.
    rewrite JsMap_lookup_insert_eq. cbn. rewrite Hon. cbn.
    destruct acc. cbn. by rewrite app_nil_r.
  - rewrite filter_cons_True by done. cbn [foldl]. rewrite IH. f_equal.
    rewrite !addToolsOf_spec.
    by rewrite (contributes_ext (plugins s) _ i) by (by apply JsMap_lookup_insert_ne).
Qed.

Lemma configurePlugin_run (instanceId : string) (config_ : Value) (s : State W)
    (entry : InstanceEntry W) :
  plugins s !! instanceId = Some entry ->
  let old := plugin entry in
  let stale := <[instanceId := reconfigured entry config_ old]> (plugins s) in
  exists w,
    (exists e,
       configurePlugin instanceId config_ s
       = (Throws e, with_world w [EvShutdown (obj old) (Throws e)] s))
    \/ (exists e,
          configurePlugin instanceId config_ s
          = (Throws e,
             with_plugins stale
               (with_world w [EvShutdown (obj old) (Returns tt);
                              EvLoadPlugin (type entry) config_ (Throws e)] s)))
    \/ (exists p,
          configurePlugin instanceId config_ s
          = (Returns tt,
             with_plugins (<[instanceId := reconfigured entry config_ p]> (plugins s))
               (with_world w ([EvShutdown (obj old) (Returns tt);
                               EvLoadPlugin (type entry) config_ (Returns (obj p))]
                              ++ wiring p) s))).
Proof.
  intros Hentry old stale. subst old stale.
  unfold configurePlugin, bind, get_plugins, call, update_plugins; cbn. rewrite Hentry.
  destruct (shutdown (plugin entry) (world s)) as [[[]|e] w1]; cbn;
    [|exists w1; left; by exists e].
  destruct (loadExternalPlugin (type entry) config_ w1) as [[p|e] w2]; cbn.
  - set (s3 := with_plugins _ _).
    rewrite (wire_connector_run p s3). subst s3.
    eexists. right; right. exists p. f_equal.
    unfold with_plugins, with_world, insert, JsMap_insert; cbn. f_equal.
    + by rewrite entries_set_twice.
    + by rewrite <- !app_assoc.
  - exists w2. right; left. exists e. f_equal.
    unfold with_plugins, with_world; cbn. f_equal. by rewrite <- !app_assoc.
Qed.

(** [configurePlugin] never moves, renames, enables or disables an
    instance.  Whatever the outcome, the registry holds the same ids in the
    same order, every other entry is untouched, and the entry of the
    instance keeps its id, its type, its name and its enabled flag.  The
    old object is shut down without being disconnected first: no
    [disconnect()] is ever issued.  An unknown id is refused with
    ["Instance not found"] and nothing is done. *)
Theorem configurePlugin_keeps_identity (instanceId : string) (config_ : Value)
    (s : State W) :
  let run := configurePlugin instanceId config_ s in
  match plugins s !! instanceId with
  | None => run = (Throws (ErrorObj "Instance not found"), s)
  | Some entry =>
    (entries (plugins run.2)).*1 = (entries (plugins s)).*1
    /\ (forall other, other <> instanceId -> plugins run.2 !! other = plugins s !! other)
    /\ (exists entry',
          plugins run.2 !! instanceId = Some entry'
          /\ id entry' = id entry /\ type entry' = type entry
          /\ name entry' = name entry /\ enabled entry' = enabled entry)
    /\ exists evs, trace run.2 = trace s ++ evs /\ ~ Exists is_disconnect evs
  end.
Proof.
  cbn zeta. destruct (plugins s !! instanceId) as [entry|] eqn:Hentry.
  2: { unfold configurePlugin, bind, get_plugins; cbn. by rewrite Hentry. }
  assert (Hwiring : forall p : PluginBase W, ~ Exists is_disconnect (wiring p)).
  { intros p. unfold wiring. destruct (getConnector p) as [c|];
      [|by intros ?%Exists_nil].
    destruct (onSlashCommand c); cbn; rewrite ?Exists_cons, Exists_nil; cbn; tauto. }
  destruct (configurePlugin_run instanceId config_ s entry Hentry)
    as (w & [(e & ->) | [(e & ->) | (p & ->)]]); cbn.
  - split; [done|]. split; [done|]. split; [by exists entry|].
    eexists. split; [done|]. rewrite Exists_cons, Exists_nil. cbn. tauto.
  - split; [by eapply entries_set_present|].
    split; [intros other Hne; by apply JsMap_lookup_insert_ne|].
    split; [eexists; split; [apply JsMap_lookup_insert_eq|done]|].
    eexists. split; [done|]. rewrite !Exists_cons, Exists_nil. cbn. tauto.
  - split; [by eapply entries_set_present|].
    split; [intros other Hne; by apply JsMap_lookup_insert_ne|].
    split; [eexists; split; [apply JsMap_lookup_insert_eq|done]|].
    eexists. split; [done|]. rewrite !Exists_cons. cbn.
    specialize (Hwiring p). tauto.
Qed.

(** What [configurePlugin] leaves behind.  It awaits the old object's
    [shutdown()], then asks the loader for an object of the entry's type
    with the new configuration.  On success the entry holds the new
    configuration and the new object, which has been wired, and the calls
    were shutdown, load, wiring, in that order.  When [shutdown()] rejects,
    nothing has changed.  When the loader rejects, the instance stays
    registered with the new configuration already stored but still bound to
    its old object, which has been shut down. *)
Theorem configurePlugin_outcomes (instanceId : string) (config_ : Value)
    (s : State W) (entry : InstanceEntry W) :
  plugins s !! instanceId = Some entry ->
  let run := configurePlugin instanceId config_ s in
  let old := plugin entry in
  exists evs,
    trace run.2 = trace s ++ evs
    /\ match run.1 with
       | Returns _ =>
         exists p,
           evs = [EvShutdown (obj old) (Returns tt);
                  EvLoadPlugin (type entry) config_ (Returns (obj p))]
                 ++ wiring p
           /\ plugins run.2 !! instanceId
              = Some {| id := id entry; type := type entry; name := name entry;
                        config := config_; enabled := enabled entry; plugin := p |}
       | Throws e =>
         (evs = [EvShutdown (obj old) (Throws e)] /\ plugins run.2 = plugins s)
         \/ (evs = [EvShutdown (obj old) (Returns tt);
                    EvLoadPlugin (type entry) config_ (Throws e)]
             /\ plugins run.2 !! instanceId
                = Some {| id := id entry; type := type entry; name := name entry;
                          config := config_; enabled := enabled entry; plugin := old |})
       end.
Proof.
  intros Hentry run old. subst run old.
  destruct (configurePlugin_run instanceId config_ s entry Hentry)
    as (w & [(e & ->) | [(e & ->) | (p & ->)]]); cbn.
  - eexists. split; [done|]. by left.
  - eexists. split; [done|]. right. split; [done|]. apply JsMap_lookup_insert_eq.
  - eexists. split; [done|]. exists p. split; [done|].
    apply JsMap_lookup_insert_eq.
Qed.

(** ** The chat service and its route *)

Section Confined.

Variable registry : JsMap (InstanceEntry W).
Variable index : gmap string string.
Variable allowed : string -> Prop.
Hypothesis index_within : forall toolName_ instanceId,
  index !! toolName_ = Some instanceId -> allowed instanceId.

Let Q : State W -> State W -> Prop := emits_only (confined_to registry allowed).

Let Q_bind {A B} (m : M W A) (k : A -> M W B) :=
  preserves_bind Q (emits_only_trans _) m k.

Lemma executeTool_confined (instanceId : string) (toolUse : ToolUse)
    (context : ToolContext) :
  allowed instanceId ->
  preserves Q (executeTool instanceId toolUse context registry).
Proof.
  intros Hallowed. unfold executeTool.
  destruct (registry !! instanceId) as [entry|] eqn:Hentry;
    [|apply preserves_throw, emits_only_refl].
  assert (Hobj : forall o, Some (obj (plugin entry)) = Some o ->
             exists i e, allowed i /\ registry !! i = Some e /\ obj (plugin e) = o).
  { intros o [= <-]. by exists instanceId, entry. }
  destruct (getTools (plugin entry)) as [declared|]; [|apply preserves_throw, emits_only_refl].
  destruct (find (named toolUse) declared) as [t|]; [|apply preserves_throw, emits_only_refl].
  assert (Hrun : preserves Q (invoke_handler (plugin entry) t toolUse context)).
  { apply emits_only_call. intros r. exact Hobj. }
  destruct (requestApproval (plugin entry)) as [hook|]; [|exact Hrun].
  apply Q_bind.
  - apply emits_only_call. intros r. exact Hobj.
  - intros [|]; cbn; [exact Hrun|apply preserves_ret, emits_only_refl].
Qed.

Lemma runToolUse_confined (context : ToolContext) (cur : nat) (toolUse : ToolUse) :
  preserves Q (runToolUse index context registry cur toolUse).
Proof.
  unfold runToolUse.
  apply Q_bind; [by apply emits_only_silent|]. intros startTime.
  apply Q_bind.
  - destruct (index !! tu_name toolUse) as [[|c instanceId]|] eqn:Hindex;
      try (apply preserves_ret, emits_only_refl).
    apply preserves_try_catch; [apply emits_only_trans| |].
    + apply Q_bind; [|intros ?; apply preserves_ret, emits_only_refl].
      apply executeTool_confined. by apply (index_within (tu_name toolUse)).
    + intros err. apply Q_bind; [apply emits_only_logger_error|].
      intros _. apply preserves_ret, emits_only_refl.
  - intros [result error].
    apply Q_bind; [by apply emits_only_silent|]. intros endTime.
    apply Q_bind; [by apply emits_only_silent|]. intros content.
    apply Q_bind; [by apply emits_only_silent|]. intros _.
    apply preserves_ret, emits_only_refl.
Qed.

Lemma runToolUses_confined (context : ToolContext) (cur : nat)
    (requested_ : list ToolUse) :
  forall usages, preserves Q (runToolUses index context registry cur requested_ usages).
Proof.
  induction requested_ as [|toolUse rest IH]; intros usages; cbn.
  - apply preserves_ret, emits_only_refl.
  - apply Q_bind; [apply runToolUse_confined|]. intros usage. apply IH.
Qed.

Lemma toolLoop_confined (p : PluginBase W) (llm : LLM W) (model : string)
    (options : option GenerationOptions) (genOptions : LLMGenerateOptions)
    (context : ToolContext) :
  forall (n cur : nat) (usages : list ConversationToolUsage),
    preserves Q (toolLoop n p llm model options genOptions index context registry
                   cur usages).
Proof.
  assert (Hgen : forall cur o, preserves Q (call_generate p llm model cur o)).
  { intros cur o. unfold call_generate.
    apply Q_bind; [by apply emits_only_silent|]. intros messages.
    apply emits_only_call. by intros r o'. }
  induction n as [|n IH]; intros cur usages; cbn [toolLoop].
  - apply Q_bind; [apply Hgen|]. intros r. apply preserves_ret, emits_only_refl.
  - apply Q_bind; [apply Hgen|]. intros r.
    destruct (r_toolUses r) as [[|toolUse more]|];
      try (apply preserves_ret, emits_only_refl).
    apply Q_bind; [by apply emits_only_silent|]. intros previous.
    apply Q_bind; [apply emits_only_silent; intros s; cbn; done|]. intros cur'.
    apply Q_bind; [apply runToolUses_confined|]. intros usages'. apply IH.
Qed.

Lemma generateWithTools_confined (providerId model : string) (messages : nat)
    (tools_ : list Tool) (context : ToolContext) (options : option GenerationOptions) :
  preserves Q (generateWithTools providerId model messages tools_ index context
                 registry options).
Proof.
  unfold generateWithTools.
  destruct (registry !! providerId) as [entry|]; [|apply preserves_throw, emits_only_refl].
  destruct (enabled entry); cbn [negb]; [|apply preserves_throw, emits_only_refl].
  destruct (getLLM (plugin entry)) as [llm|]; [|apply preserves_throw, emits_only_refl].
  apply Q_bind; [by apply emits_only_silent|]. intros original.
  apply Q_bind; [apply emits_only_silent; intros s; cbn; done|]. intros cur.
  apply toolLoop_confined.
Qed.

End Confined.

Lemma resolved_index_within (registry : JsMap (InstanceEntry W))
    (providerIds : list string) (toolName_ instanceId : string) :
  nameToInstanceId (getToolsForActionIds registry providerIds) !! toolName_
    = Some instanceId ->
  instanceId ∈ providerIds
  /\ exists entry, registry !! instanceId = Some entry /\ enabled entry = true.
Proof.
  unfold getToolsForActionIds. revert toolName_ instanceId.
  induction providerIds as [|i providerIds IH] using rev_ind; intros n j.
  - cbn. by rewrite lookup_empty.
  - rewrite foldl_snoc, addToolsOf_spec; cbn.
    rewrite index_tools_lookup. case_decide as Hin.
    + intros [= <-]. split; [apply elem_of_app; right; apply list_elem_of_here|].
      unfold contributes in Hin.
      destruct (registry !! i) as [entry|]; [|by apply not_elem_of_nil in Hin].
      destruct (enabled entry) eqn:Hon; [by exists entry|by apply not_elem_of_nil in Hin].
    + intros Hj. apply IH in Hj as [Hj He]. split; [|done]. apply elem_of_app. by left.
Qed.

Lemma toolLoop_first_call (p : PluginBase W) (llm : LLM W) (model : string)
    (options : option GenerationOptions) (genOptions : LLMGenerateOptions)
    (index : gmap string string) (context : ToolContext)
    (registry : JsMap (InstanceEntry W)) (n cur : nat)
    (usages : list ConversationToolUsage) (s : State W) (H : list LLMMessage) :
  arrays s !! cur = Some H ->
  exists r rest,
    trace (toolLoop (S n) p llm model options genOptions index context registry
             cur usages s).2
    = trace s ++ EvGenerate (obj p) model H (Some genOptions) r :: rest.
Proof.
  intros Hcur. cbn [toolLoop]. unfold bind.
  rewrite (call_generate_run _ _ _ _ _ _ _ Hcur).
  destruct (generate llm model H _ (world s)) as [[r|e] w]; [|by eexists _, []].
  destruct (r_toolUses r) as [[|toolUse more]|] eqn:Huses; [by eexists _, []| |by eexists _, []].
  unfold read_array, new_array; cbn -[runToolUses toolLoop].
  set (s2 := with_arrays _ _).
  destruct (runToolUses_spec index context registry (length (arrays s))
              (toolUse :: more) usages s2) as (w3 & e3 & _ & Hspec).
  destruct (runToolUses index context registry (length (arrays s))
              (toolUse :: more) usages s2) as [[all|e] s3'].
  2: { destruct Hspec as (added & -> & _). exists (Returns r), e3. subst s2; cbn.
       by rewrite <- !app_assoc. }
  destruct Hspec as (new1 & -> & -> & _).
  set (s3 := with_arrays _ _).
  destruct (toolLoop_frame p llm model options genOptions index context registry
              n (length (arrays s)) (usages ++ new1) s3) as ((evs & Htr & _) & _).
  exists (Returns r), (e3 ++ evs). rewrite Htr. subst s3 s2; cbn.
  by rewrite <- !app_assoc.
Qed.

Lemma snd_of_result {A B} (x : Outcome A * State W) (f : A -> B) :
  (match x with
   | (Returns r, s') => (Returns (f r), s')
   | (Throws e, s') => (Throws e, s')
   end).2 = x.2.
Proof. by destruct x as [[?|?] ?]. Qed.

Lemma generateWithTools_first_call (registry : JsMap (InstanceEntry W))
    (providerId : string) (model : string) (messages : nat) (tools_ : list Tool)
    (index : gmap string string) (context : ToolContext)
    (options : option GenerationOptions) (s : State W)
    (entry : InstanceEntry W) (llm : LLM W) :
  registry !! providerId = Some entry ->
  enabled entry = true ->
  getLLM (plugin entry) = Some llm ->
  exists r rest,
    trace (generateWithTools providerId model messages tools_ index context
             registry options s).2
    = trace s ++ EvGenerate (obj (plugin entry)) model (default [] (arrays s !! messages))
                   (Some {| g_temperature := options ≫= temperature;
                            g_maxTokens := options ≫= maxTokens;
                            g_tools := if bool_decide (0 < length tools_)%nat
                                       then Some tools_ else None |}) r :: rest.
Proof.
  intros Hentry Hon Hllm.
  rewrite (generateWithTools_resolved _ _ _ _ _ _ _ _ _ _ _ Hentry Hon Hllm).
  set (s1 := with_arrays _ s).
  assert (H1 : arrays s1 !! length (arrays s) = Some (default [] (arrays s !! messages))).
  { subst s1; cbn. by rewrite list_lookup_middle. }
  destruct (toolLoop_first_call (plugin entry) llm model options
              (spread_options options
                 (if bool_decide (0 < length tools_)%nat then Some tools_ else None))
              index context registry 9 (length (arrays s)) [] s1 _ H1)
    as (r & rest & Hfirst).
  exists r, rest. change MAX_TOOL_LOOP_ITERATIONS with 10%nat. by rewrite Hfirst.
Qed.

Lemma generateWithTools_frame (registry : JsMap (InstanceEntry W))
    (providerId : string) (model : string) (messages : nat) (tools_ : list Tool)
    (index : gmap string string) (context : ToolContext)
    (options : option GenerationOptions) (s : State W) (a : nat) :
  (a < length (arrays s))%nat ->
  arrays (generateWithTools providerId model messages tools_ index context
            registry options s).2 !! a = arrays s !! a.
Proof.
  intros Ha.
  destruct (provider_of registry providerId) as [[entry llm]|] eqn:Hp;
    [|by rewrite provider_of_None].
  apply provider_of_Some in Hp as (Hentry & Hon & Hllm).
  rewrite (generateWithTools_resolved _ _ _ _ _ _ _ _ _ _ _ Hentry Hon Hllm).
  set (s1 := with_arrays _ s).
  destruct (toolLoop_frame (plugin entry) llm model options
              (spread_options options
                 (if bool_decide (0 < length tools_)%nat then Some tools_ else None))
              index context registry MAX_TOOL_LOOP_ITERATIONS (length (arrays s)) [] s1)
    as (_ & _ & Hframe).
  rewrite Hframe by (subst s1; cbn; rewrite length_app; cbn; lia).
  subst s1; cbn. by rewrite lookup_app_l.
Qed.

(** An assistant only ever uses its own tools.  Whatever the Model asks
    for, every approval hook and every tool handler that
    [generateWithAssistant] runs belongs to an instance that is listed in
    the [tools] of the assistant record, registered and enabled.  (No
    fallback on the other tool instances of the registry takes place on
    this path; an assistant without tools runs no tool at all.) *)
Theorem generateWithAssistant_confines_tools (assistantId : string) (messages : nat)
    (options : option GenerationOptions) (s : State W) :
  let run := generateWithAssistant assistantId messages options s in
  exists evs,
    trace run.2 = trace s ++ evs
    /\ forall ev o, ev ∈ evs -> tool_call_on ev = Some o ->
         exists a instanceId entry,
           (assistantRepository_getOne assistantId (world s)).1 = Some a
           /\ instanceId ∈ a_tools a
           /\ plugins s !! instanceId = Some entry
           /\ enabled entry = true
           /\ obj (plugin entry) = o.
Proof.
  cbn zeta.
  assert (Hnone : forall s' : State W, trace s' = trace s ->
            exists evs, trace s' = trace s ++ evs
              /\ forall ev o, ev ∈ evs -> tool_call_on ev = Some o ->
                   exists a instanceId entry,
                     (assistantRepository_getOne assistantId (world s)).1 = Some a
                     /\ instanceId ∈ a_tools a
                     /\ plugins s !! instanceId = Some entry
                     /\ enabled entry = true
                     /\ obj (plugin entry) = o).
  { intros s' Hs'. exists []. rewrite app_nil_r. split; [done|].
    intros ev o Hin. by apply elem_of_nil in Hin. }
  unfold generateWithAssistant, bind, query.
  destruct (assistantRepository_getOne assistantId (world s)) as [[a|] w1] eqn:Hget; cbn;
    [|by apply Hnone].
  destruct (a_llmProvider a) as [|c1 r1] eqn:Hp; [by apply Hnone|].
  destruct (a_llmModel a) as [|c2 r2] eqn:Hm; [by apply Hnone|].
  unfold get_plugins, read_array, new_array, now, ret; cbn -[generateWithTools].
  set (resolved := getToolsForActionIds (plugins s) (a_tools a)).
  set (allowed := fun i : string =>
         i ∈ a_tools a /\ exists e, plugins s !! i = Some e /\ enabled e = true).
  assert (Hwithin : forall n i, nameToInstanceId resolved !! n = Some i -> allowed i).
  { intros n i Hi. by apply resolved_index_within in Hi. }
  assert (Hgo : forall (final : nat) (s2 : State W), trace s2 = trace s ->
            exists evs,
              trace (match generateWithTools (String c1 r1) (String c2 r2) final
                             (tools resolved) (nameToInstanceId resolved)
                             (web_ui_context a (Date_now w1)) (plugins s) options s2 with
                     | (Returns result, s') =>
                       (Returns {| cw_response := response result;
                                   cw_toolUsages :=
                                     if bool_decide (0 < length (toolUsages result))%nat
                                     then Some (toolUsages result) else None |}, s')
                     | (Throws e, s') => (Throws e, s')
                     end).2 = trace s ++ evs
              /\ forall ev o, ev ∈ evs -> tool_call_on ev = Some o ->
                   exists a0 instanceId entry,
                     Some a = Some a0
                     /\ instanceId ∈ a_tools a0
                     /\ plugins s !! instanceId = Some entry
                     /\ enabled entry = true
                     /\ obj (plugin entry) = o).
  { intros final s2 Hs2.
    destruct (generateWithTools_confined (plugins s) (nameToInstanceId resolved) allowed
                Hwithin (String c1 r1) (String c2 r2) final (tools resolved)
                (web_ui_context a (Date_now w1)) options s2) as (evs & Htr & Hok).
    exists evs. split.
    - rewrite <- Hs2, <- Htr. by destruct (generateWithTools _ _ _ _ _ _ _ _ _) as [[?|?] ?].
    - intros ev o Hin Ho.
      destruct (proj1 (Forall_forall _ _) Hok ev Hin o Ho)
        as (i & entry & (Hi & e & He & Hon) & Hentry & Hobj).
      exists a, i, entry. rewrite He in Hentry. injection Hentry as <-. done. }
  destruct (a_systemPrompt a) as [prompt|]; cbn -[generateWithTools];
    [destruct (String_trim prompt) as [|c3 r3]; cbn -[generateWithTools]|];
    by apply Hgo.
Qed.

(** What [generateWithAssistant] first asks the Model.  For an assistant
    that is stored, names a provider and a model, and whose provider is
    registered, enabled and Model-capable: the first call goes to that
    provider with the assistant's model, the caller's options and the tools
    of the assistant (none when it has none), and its history is the
    caller's messages with the system prompt put in front.  A blank prompt
    leaves the history as it is.  Otherwise the history starts with exactly
    one system message that begins with the prompt: a leading system
    message of the caller is merged into it (prompt, blank line, caller's
    text), not kept beside it; the rest of the history follows unchanged.
    The caller's array itself is never written. *)
Theorem generateWithAssistant_first_call (assistantId : string) (messages : nat)
    (options : option GenerationOptions) (s : State W) (a : AssistantRecord) (w1 : W)
    (provider : InstanceEntry W) (llm : LLM W) :
  assistantRepository_getOne assistantId (world s) = (Some a, w1) ->
  a_llmProvider a <> "" ->
  a_llmModel a <> "" ->
  plugins s !! a_llmProvider a = Some provider ->
  enabled provider = true ->
  getLLM (plugin provider) = Some llm ->
  let run := generateWithAssistant assistantId messages options s in
  let original := default [] (arrays s !! messages) in
  let resolved := getToolsForActionIds (plugins s) (a_tools a) in
  (exists r rest,
     trace run.2
     = trace s ++ EvGenerate (obj (plugin provider)) (a_llmModel a)
                    (with_system_prompt a original)
                    (Some {| g_temperature := options ≫= temperature;
                             g_maxTokens := options ≫= maxTokens;
                             g_tools := if bool_decide (0 < length (tools resolved))%nat
                                   then Some (tools resolved) else None |}) r :: rest)
  /\ match a_systemPrompt a with
     | None => with_system_prompt a original = original
     | Some prompt =>
       if decide (String_trim prompt = "") then with_system_prompt a original = original
       else
         exists text,
           with_system_prompt a original
           = {| role := system; content := Some text; images := None; toolCallId := None;
                toolName := None; toolUses := None |} :: without_leading_system original
           /\ match original with
              | first :: _ =>
                match role first with
                | system =>
                  text = prompt +:+ newline +:+ newline +:+ interpolate (content first)
                | _ => text = prompt
                end
              | [] => text = prompt
              end
     end
  /\ ((messages < length (arrays s))%nat -> arrays run.2 !! messages = arrays s !! messages).
Proof.
  intros Hget Hp Hm Hprovider Hon Hllm run original resolved.
  assert (Hrun : exists (final : nat) (s2 : State W),
            trace s2 = trace s
            /\ arrays s2 !! final = Some (with_system_prompt a original)
            /\ (length (arrays s) <= length (arrays s2))%nat
            /\ (forall k, (k < length (arrays s))%nat -> arrays s2 !! k = arrays s !! k)
            /\ run.2 = (generateWithTools (a_llmProvider a) (a_llmModel a) final
                          (tools resolved) (nameToInstanceId resolved)
                          (web_ui_context a (Date_now w1)) (plugins s) options s2).2).
  { subst run. unfold generateWithAssistant, bind, query. rewrite Hget. cbn.
    destruct (a_llmProvider a) as [|c1 r1] eqn:Hp'; [done|].
    destruct (a_llmModel a) as [|c2 r2] eqn:Hm'; [done|].
    unfold get_plugins, read_array, new_array, now, ret; cbn -[generateWithTools].
    fold original. fold resolved. unfold with_system_prompt.
    destruct (a_systemPrompt a) as [prompt|]; cbn -[generateWithTools];
      [destruct (String_trim prompt) as [|c3 r3] eqn:Htrim; cbn -[generateWithTools]|].
    all: rewrite snd_of_result.
    all: eexists _, _; split; [|split; [|split; [|split; [|reflexivity]]]]; cbn;
         rewrite ?length_app; cbn; try lia; try done.
    - by rewrite list_lookup_middle.
    - intros k Hk. by rewrite lookup_app_l.
    - rewrite (lookup_app_r (arrays s ++ [original])) by (rewrite length_app; cbn; lia).
      rewrite length_app. cbn. by replace (_ - _)%nat with 0%nat by lia.
    - intros k Hk. rewrite lookup_app_l by (rewrite length_app; cbn; lia).
      by rewrite lookup_app_l.
    - by rewrite list_lookup_middle.
    - intros k Hk. by rewrite lookup_app_l. }
  destruct Hrun as (final & s2 & Htr & Hfinal & Hgrow & Hkeep & ->).
  split; [|split].
  - destruct (generateWithTools_first_call (plugins s) (a_llmProvider a) (a_llmModel a)
                final (tools resolved) (nameToInstanceId resolved)
                (web_ui_context a (Date_now w1)) options s2 provider llm Hprovider Hon Hllm)
      as (r & rest & Hfirst).
    exists r, rest. by rewrite Hfirst, Htr, Hfinal.
  - unfold with_system_prompt.
    destruct (a_systemPrompt a) as [prompt|]; [|done].
    destruct (decide (String_trim prompt = "")) as [->|Hne]; [done|].
    destruct (String_trim prompt) as [|c3 r3]; [done|].
    destruct original as [|first rest]; [by eexists|].
    unfold without_leading_system.
    destruct (role first) eqn:Hrole; eexists; (split; [reflexivity|]); done.
  - intros Hlt. rewrite generateWithTools_frame by lia. by apply Hkeep.
Qed.

Lemma failure_status_cases (message : string) :
  failure_status message = 400%nat \/ failure_status message = 404%nat.
Proof. unfold failure_status. destruct (_ || _); auto. Qed.

(** The chat route answers every request.  Whatever the body, the registry
    and the plugins do, the handler returns a reply and never rejects; a
    failure reply has status 400 or 404; and a body without messages is
    answered 400 ["messages required"] before anything is looked up. *)
Theorem chatRoute_answers_every_request (body : ChatBody) (s : State W) :
  let run := chatRoute body s in
  (exists reply,
     run.1 = Returns reply
     /\ forall status error, reply = Failure status error ->
          status = 400%nat \/ status = 404%nat)
  /\ (default [] (b_messages body) = [] ->
      run = (Returns (Failure 400 "messages required"), s)).
Proof.
  cbn zeta. split.
  - unfold chatRoute, try_catch.
    match goal with
    | |- context [match ?m s with _ => _ end] => destruct (m s) as [[reply|e] s'] eqn:Hrun
    end; cbn.
    2: { eexists. split; [done|]. intros status error [= <- _].
         apply failure_status_cases. }
    exists reply. split; [done|]. intros status error ->.
    destruct (b_messages body) as [[|m ms]|];
      [by injection Hrun as <-; left| |by injection Hrun as <-; left].
    unfold bind, new_array in Hrun;
      cbn -[generateWithAssistant chatService_generate] in Hrun.
    destruct (b_assistantId body) as [[|c rest]|].
    2: { destruct (generateWithAssistant _ _ _ _) as [[?|?] ?]; by cbn in Hrun. }
    all: destruct (b_providerId body) as [[|c1 r1]|];
      try (by injection Hrun as <-; left).
    all: destruct (b_model body) as [[|c2 r2]|];
      try (by injection Hrun as <-; left).
    all: destruct (chatService_generate _ _ _ _ _) as [[?|?] ?]; by cbn in Hrun.
  - intros Hnone. unfold chatRoute, try_catch.
    by destruct (b_messages body) as [[|m ms]|].
Qed.

(** The statuses of the chat route for what cannot be resolved.  With an
    assistant id: an unknown assistant is answered 404 ["Assistant not
    found: <id>"]; an assistant without provider or model is answered 400;
    an assistant whose provider is not registered, disabled or not
    Model-capable is answered 404 ["LLM provider not found or disabled"].
    Without an assistant id, provider id and model are both required (400
    otherwise); a provider that is not registered or not Model-capable is
    answered 404 ["LLM provider not found"], a disabled one 404 ["LLM
    provider is disabled"].  In none of these cases is any plugin called. *)
Theorem chatRoute_failure_statuses (body : ChatBody) (s : State W)
    (messages : list LLMMessage) :
  b_messages body = Some messages ->
  messages <> [] ->
  let run := chatRoute body s in
  let answer status error := run.1 = Returns (Failure status error) /\ trace run.2 = trace s in
  match given (b_assistantId body) with
  | Some assistantId =>
    match (assistantRepository_getOne assistantId (world s)).1 with
    | None => answer 404%nat ("Assistant not found: " +:+ assistantId)
    | Some a =>
      match given (Some (a_llmProvider a)), given (Some (a_llmModel a)) with
      | Some providerId, Some _ =>
        provider_of (plugins s) providerId = None ->
        answer 404%nat "LLM provider not found or disabled"
      | _, _ => answer 400%nat "Assistant has no LLM provider or model configured"
      end
    end
  | None =>
    match given (b_providerId body), given (b_model body) with
    | Some providerId, Some _ =>
      match plugins s !! providerId with
      | None => answer 404%nat "LLM provider not found"
      | Some entry =>
        match getLLM (plugin entry) with
        | None => answer 404%nat "LLM provider not found"
        | Some _ => enabled entry = false -> answer 404%nat "LLM provider is disabled"
        end
      end
    | _, _ => answer 400%nat "assistantId or (providerId + model) required"
    end
  end.
Proof.
  intros Hmessages Hne run answer. subst run answer. cbn beta.
  unfold chatRoute, try_catch. rewrite Hmessages.
  destruct messages as [|m ms]; [done|].
  destruct (b_assistantId body) as [[|c rest]|]; cbn [given].
  2: { unfold generateWithAssistant, query, new_array, bind;
         cbn -[includes generateWithTools].
       destruct (assistantRepository_getOne (String c rest) (world s)) as [[a|] w1];
         cbn -[includes generateWithTools].
       2: { by split. }
       destruct (a_llmProvider a) as [|c1 r1] eqn:Hp; cbn -[includes]; [by split|].
       destruct (a_llmModel a) as [|c2 r2] eqn:Hm; cbn -[includes]; [by split|].
       intros Hprov.
       unfold bind, get_plugins, read_array, new_array, now, ret;
         cbn -[generateWithTools includes].
       destruct (a_systemPrompt a) as [prompt|]; cbn -[generateWithTools includes];
         [destruct (String_trim prompt) as [|c3 r3]; cbn -[generateWithTools includes]|];
         rewrite provider_of_None by done; by split. }
  all: destruct (b_providerId body) as [[|c1 r1]|]; cbn [given];
    try (unfold bind, new_array; cbn; by split).
  all: destruct (b_model body) as [[|c2 r2]|]; cbn [given];
    try (unfold bind, new_array; cbn; by split).
  all: unfold chatService_generate, generateWithProvider, get_plugins, new_array, bind;
    cbn -[includes generateWithTools].
  all: destruct (plugins s !! String c1 r1) as [entry|]; cbn -[includes]; [|by split].
  all: destruct (getLLM (plugin entry)) as [llm|]; cbn -[includes]; [|by split].
  all: intros ->; cbn -[includes]; by split.
Qed.

(** ** What a connector user is told *)

Lemma handleConnectorMessage_bound (entry : InstanceEntry W) (message : Message)
    (s : State W) (connector : Connector W) :
  enabled entry = true ->
  getConnector (plugin entry) = Some connector ->
  handleConnectorMessage entry message s =
    let '(bound, w) := bound_assistant entry (world s) in
    match bound with
    | Some a => converse entry connector message a (in_world w s)
    | None =>
      match sendMessage connector with
      | Some sendMessage_ =>
        let notice := {| sm_channelId := m_channelId message;
                         sm_content := no_assistant_notice;
                         sm_replyTo := Some (m_id message); sm_attachments := None |} in
        try_catch (call (EvSendMessage (obj (plugin entry)) notice) (sendMessage_ notice))
                  (fun _ => ret tt) (in_world w s)
      | None => (Returns tt, in_world w s)
      end
    end.
Proof.
  intros Hon Hconn. unfold handleConnectorMessage, bound_assistant. rewrite Hon, Hconn.
  unfold bind, query.
  destruct (pluginRepository_getOne (id entry) (world s)) as [record w1]; cbn.
  destruct (record ≫= pr_assistant) as [[|c rest]|]; cbn;
    try (destruct (sendMessage connector); reflexivity).
  destruct (assistantRepository_getOne (String c rest) w1) as [assistant_ w2]; cbn.
  destruct (configured assistant_); [reflexivity|].
  destruct (sendMessage connector); reflexivity.
Qed.

Lemma start_typing_run (entry : InstanceEntry W) (connector : Connector W)
    (message : Message) (s : State W) :
  exists w evs,
    start_typing entry connector message s
    = (Returns (match sendTyping connector with
                | Some _ => Some (next_timer s)
                | None => None
                end),
       {| world := w; plugins := plugins s; arrays := arrays s;
          connectorConversationCache := connectorConversationCache s;
          timers := timers s ++ match sendTyping connector with
                                | Some _ => [next_timer s]
                                | None => []
                                end;
          next_timer := match sendTyping connector with
                        | Some _ => S (next_timer s)
                        | None => next_timer s
                        end;
          trace := trace s ++ evs |})
    /\ generations evs = []
    /\ match sendTyping connector with
       | Some _ =>
         exists sent,
           evs = [EvSendTyping (obj (plugin entry)) (m_channelId message) sent;
                  EvSetInterval (next_timer s)]
       | None => evs = []
       end.
Proof.
  unfold start_typing. destruct (sendTyping connector) as [typing|].
  - unfold bind, try_catch, call, setInterval, ret.
    destruct (typing (m_channelId message) (world s)) as [[[]|e] w]; cbn;
      exists w; eexists; rewrite <- app_assoc;
      (split; [reflexivity|split; [done|by eexists]]).
  - exists (world s), []. rewrite !app_nil_r. split; [by destruct s|done].
Qed.

Lemma reply_error_run (entry : InstanceEntry W) (connector : Connector W)
    (message : Message) (typingInterval : option nat) (e : Thrown) (s : State W) :
  exists s' report,
    reply_error entry connector message typingInterval e s = (Returns tt, s')
    /\ connectorConversationCache s' = connectorConversationCache s
    /\ timers s' = match typingInterval with
                   | Some timer => filter (fun t => t <> timer) (timers s)
                   | None => timers s
                   end
    /\ trace s' = trace s ++ match typingInterval with
                             | Some timer => [EvClearInterval timer]
                             | None => []
                             end ++ report
    /\ failure_report entry connector message e report.
Proof.
  unfold reply_error, failure_report, stopTyping, bind, clearInterval, try_catch, call, ret.
  destruct typingInterval as [timer|]; cbn;
    destruct (sendError connector) as [sendError_|];
    [|destruct (sendMessage connector) as [sendMessage_|]| |
      destruct (sendMessage connector) as [sendMessage_|]]; cbn.
  all: try match goal with
       | |- context [?f ?a ?b ?c ?w] =>
         lazymatch type of (f a b c w) with
         | (Outcome unit * W)%type => destruct (f a b c w) as [[[]|?] ?]
         end
       | |- context [?f ?a ?w] =>
         lazymatch type of (f a w) with
         | (Outcome unit * W)%type => destruct (f a w) as [[[]|?] ?]
         end
       end; cbn.
  all: eexists _, _; (split; [reflexivity|]); cbn; rewrite <- ?app_assoc;
    repeat split; rewrite ?app_nil_r; eauto.
Qed.

Lemma generateWithTools_thrown (registry : JsMap (InstanceEntry W))
    (providerId : string) (model : string) (messages : nat) (tools_ : list Tool)
    (index : gmap string string) (context : ToolContext)
    (options : option GenerationOptions) (s : State W) :
  exists evs,
    trace (generateWithTools providerId model messages tools_ index context
             registry options s).2 = trace s ++ evs
    /\ match (generateWithTools providerId model messages tools_ index context
                registry options s).1 with
       | Returns result =>
         is_Some (provider_of registry providerId)
         /\ gen_result <$> last (generations evs) = Some (Returns (response result))
       | Throws e =>
         (provider_of registry providerId = None
          /\ e = ErrorObj "LLM provider not found or disabled" /\ evs = [])
         \/ (is_Some (provider_of registry providerId)
             /\ gen_result <$> last (generations evs) = Some (Throws e))
         \/ (is_Some (provider_of registry providerId)
             /\ exists final,
                  last (generations evs) = Some final
                  /\ requests_tools (gen_result final)
                  /\ stringify_error e)
       end.
Proof.
  destruct (provider_of registry providerId) as [[entry llm]|] eqn:Hp.
  2: { rewrite provider_of_None by done. exists []. rewrite app_nil_r. cbn. auto. }
  apply provider_of_Some in Hp as (Hentry & Hon & Hllm).
  rewrite (generateWithTools_resolved _ _ _ _ _ _ _ _ _ _ _ Hentry Hon Hllm).
  set (s1 := with_arrays _ s).
  assert (H1 : arrays s1 !! length (arrays s) = Some (default [] (arrays s !! messages))).
  { subst s1; cbn. by rewrite list_lookup_middle. }
  destruct (toolLoop_shape (plugin entry) llm model options
              (spread_options options
                 (if bool_decide (0 < length tools_)%nat then Some tools_ else None))
              index context registry MAX_TOOL_LOOP_ITERATIONS _ [] s1 _ H1)
    as (evs & front & final & Htr & Hgens & _ & Hfinal & _).
  exists evs. split; [done|]. rewrite Hgens, last_snoc. cbn -[toolLoop].
  destruct (toolLoop _ _ _ _ _ _ _ _ _ _ _ _).1 as [result|e]; cbn in Hfinal |- *.
  - by rewrite Hfinal.
  - destruct Hfinal as [Hfinal|(Hasks & Herr & _)].
    + right; left. by rewrite Hfinal.
    + right; right. split; [done|]. by exists final.
Qed.

(** A connector without a configured assistant says so.  When the plugin
    record of an enabled connector names no assistant, or names one that is
    not stored or has no provider or no model, the handler sends the notice
    "No assistant is configured for this bot. ..." as a reply to the
    message (when the connector can send messages) and returns, even if the
    notice cannot be delivered.  The Model is not called, no heartbeat is
    started and the context cache is left alone. *)
Theorem connector_without_assistant_is_told (entry : InstanceEntry W) (message : Message)
    (s : State W) (connector : Connector W) :
  enabled entry = true ->
  getConnector (plugin entry) = Some connector ->
  (bound_assistant entry (world s)).1 = None ->
  let run := handleConnectorMessage entry message s in
  let notice :=
    {| sm_channelId := m_channelId message;
       sm_content :=
         "No assistant is configured for this bot. Configure one in the web UI (Assistants page).";
       sm_replyTo := Some (m_id message); sm_attachments := None |} in
  run.1 = Returns tt
  /\ connectorConversationCache run.2 = connectorConversationCache s
  /\ timers run.2 = timers s
  /\ exists evs,
       trace run.2 = trace s ++ evs
       /\ match sendMessage connector with
          | Some _ => exists r, evs = [EvSendMessage (obj (plugin entry)) notice r]
          | None => evs = []
          end.
Proof.
  intros Hon Hconn Hbound run notice. subst run notice.
  rewrite (handleConnectorMessage_bound _ _ _ _ Hon Hconn).
  destruct (bound_assistant entry (world s)) as [bound w]. cbn in Hbound. subst bound.
  destruct (sendMessage connector) as [sendMessage_|].
  - unfold try_catch, call, ret; cbn.
    destruct (sendMessage_ _ w) as [[[]|e] w']; cbn; repeat split; eauto.
  - cbn. repeat split. exists []. by rewrite app_nil_r.
Qed.

Lemma converse_run (entry : InstanceEntry W) (connector : Connector W)
    (message : Message) (a : AssistantRecord) (s : State W) :
  let key := id entry +:+ ":" +:+ m_channelId message in
  let u := plain_message user (user_content message) in
  let history := [plain_message system (system_content a)]
                 ++ cap_messages (default [] (connectorConversationCache s !! key))
                 ++ [u] in
  let resolved := getToolsForActionIds (plugins s) (a_tools a) in
  let context := {| c_userId := m_userId message; c_channelId := m_channelId message;
                    c_platform := m_platform message; c_message := message;
                    c_assistantId := Some (a_id a) |} in
  let typingInterval := match sendTyping connector with
                        | Some _ => Some (next_timer s)
                        | None => None
                        end in
  exists w typing,
    generations typing = []
    /\ match sendTyping connector with
       | Some _ =>
         exists sent,
           typing = [EvSendTyping (obj (plugin entry)) (m_channelId message) sent;
                     EvSetInterval (next_timer s)]
       | None => typing = []
       end
    /\ let s2 :=
         {| world := w; plugins := plugins s; arrays := arrays s ++ [history];
            connectorConversationCache := connectorConversationCache s;
            timers := timers s ++ match sendTyping connector with
                                  | Some _ => [next_timer s]
                                  | None => []
                                  end;
            next_timer := match sendTyping connector with
                          | Some _ => S (next_timer s)
                          | None => next_timer s
                          end;
            trace := trace s ++ typing |} in
       converse entry connector message a s =
         match generateWithTools (a_llmProvider a) (a_llmModel a) (length (arrays s))
                 (tools resolved) (nameToInstanceId resolved) context (plugins s) None s2 with
         | (Returns result, s3) => reply_and_store entry connector message key u result s3
         | (Throws e, s3) => reply_error entry connector message typingInterval e s3
         end.
Proof.
  cbn zeta.
  destruct (start_typing_run entry connector message s)
    as (w & typing & Hstart & Hq & Hshape).
  exists w, typing. split; [done|]. split; [done|].
  unfold converse, bind, get_plugins, cache_get, new_array, try_catch, ret.
  rewrite Hstart. cbn -[generateWithTools].
  by destruct (generateWithTools _ _ _ _ _ _ _ _ _) as [[result|e] s3].
Qed.

Lemma filter_fresh_timer (l : list nat) (t : nat) :
  t ∉ l -> filter (fun x => x <> t) (l ++ [t]) = l.
Proof.
  intros Hfresh. rewrite filter_app, filter_cons_False, filter_nil, app_nil_r by auto.
  induction l as [|x l IH]; [done|].
  apply not_elem_of_cons in Hfresh as [Hx Hl].
  rewrite filter_cons_True by auto. by rewrite IH.
Qed.

(** A failed generation is reported, not thrown, and leaves no trace in the
    context.  For an enabled connector bound to a configured assistant:
    when the assistant's provider is not registered, disabled or not
    Model-capable, or when a Model call is rejected with [e], the handler
    cancels the typing heartbeat it had started (the timers are those from
    before the message), reports the error on the channel as its last act
    (through [sendError] with code ["llm_error"] when the connector has it,
    else as a message ["Error: ..."] in reply to the message), leaves the
    context cache untouched, and returns normally even when the report
    itself cannot be delivered. *)
Theorem connector_failure_is_reported (entry : InstanceEntry W) (message : Message)
    (s : State W) (connector : Connector W) (a : AssistantRecord) (w : W) :
  enabled entry = true ->
  getConnector (plugin entry) = Some connector ->
  bound_assistant entry (world s) = (Some a, w) ->
  next_timer s ∉ timers s ->
  let run := handleConnectorMessage entry message s in
  exists evs,
    trace run.2 = trace s ++ evs
    /\ forall e,
         (provider_of (plugins s) (a_llmProvider a) = None
          /\ e = ErrorObj "LLM provider not found or disabled")
         \/ gen_result <$> last (generations evs) = Some (Throws e) ->
         run.1 = Returns tt
         /\ connectorConversationCache run.2 = connectorConversationCache s
         /\ timers run.2 = timers s
         /\ exists before report,
              evs = before ++ report
              /\ match sendError connector, sendMessage connector with
                 | Some _, _ =>
                   exists r, report = [EvSendError (obj (plugin entry)) (m_channelId message)
                                         (describe_error e) "llm_error" r]
                 | None, Some _ =>
                   exists r, report = [EvSendMessage (obj (plugin entry))
                                         {| sm_channelId := m_channelId message;
                                            sm_content := "Error: " +:+ describe_error e;
                                            sm_replyTo := Some (m_id message);
                                            sm_attachments := None |} r]
                 | None, None => report = []
                 end.
Proof.
  intros Hon Hconn Hbound Hfresh run. subst run.
  rewrite (handleConnectorMessage_bound _ _ _ _ Hon Hconn), Hbound.
  destruct (converse_run entry connector message a (in_world w s))
    as (w1 & typing & Hq1 & _ & Hrun). cbn zeta in Hrun. rewrite Hrun. clear Hrun.
  cbn [in_world plugins arrays connectorConversationCache timers next_timer trace world].
  set (s2 := {| world := w1; plugins := plugins s |}).
  set (resolved := getToolsForActionIds (plugins s) (a_tools a)).
  set (context := {| c_userId := m_userId message |}).
  destruct (generateWithTools_thrown (plugins s) (a_llmProvider a) (a_llmModel a)
              (length (arrays s)) (tools resolved) (nameToInstanceId resolved)
              context None s2) as (e3 & Ht3 & Hout).
  pose proof (generateWithTools_core (plugins s) (a_llmProvider a) (a_llmModel a)
              (length (arrays s)) (tools resolved) (nameToInstanceId resolved)
              context None s2) as (Hp3 & Hc3 & Hti3 & _).
  destruct (generateWithTools _ _ _ _ _ _ _ _ s2) as [[result|e'] s3];
    cbn in Ht3, Hout, Hp3, Hc3, Hti3.
  - destruct (reply_and_store_run entry connector message
                (id entry +:+ ":" +:+ m_channelId message)
                (plain_message user (user_content message)) result s3)
      as (_ & _ & e4 & Ht4 & Hq4).
    exists (typing ++ e3 ++ e4). split.
    { rewrite Ht4, Ht3. subst s2; cbn. by rewrite <- !app_assoc. }
    destruct Hout as [Hprov Hlast].
    intros e [[Hnone _]|Hthrown]; [rewrite Hnone in Hprov; by destruct Hprov|].
    rewrite !generations_app, Hq1, Hq4, app_nil_r in Hthrown. cbn in Hthrown.
    rewrite Hlast in Hthrown. done.
  - set (typingInterval := match sendTyping connector with
                            | Some _ => Some (next_timer s)
                            | None => None
                            end).
    destruct (reply_error_run entry connector message typingInterval e' s3)
      as (s4 & report & Hrun & Hc4 & Hti4 & Ht4 & Hreport).
    rewrite Hrun. cbn.
    set (cleared := match typingInterval with
                    | Some timer => [EvClearInterval timer]
                    | None => []
                    end) in *.
    exists (typing ++ e3 ++ cleared ++ report).
    split. { rewrite Ht4, Ht3. subst s2; cbn. by rewrite <- !app_assoc. }
    assert (Hqc : generations cleared = [])
      by (subst cleared; by destruct typingInterval).
    assert (Hqr : generations report = []).
    { unfold failure_report in Hreport.
      destruct (sendError connector); [by destruct Hreport as [r ->]|].
      destruct (sendMessage connector); [by destruct Hreport as [r ->]|by subst report]. }
    intros e He.
    assert (e' = e) as ->.
    { destruct Hout
        as [(_ & -> & ->)|[[Hprov Hlast]|(Hprov & final & Hlast & Hasks & _)]].
      - destruct He as [[_ ->]|Hthrown]; [done|].
        rewrite !generations_app, Hq1, Hqc, Hqr in Hthrown. done.
      - destruct He as [[Hnone _]|Hthrown]; [rewrite Hnone in Hprov; by destruct Hprov|].
        rewrite !generations_app, Hq1, Hqc, Hqr, !app_nil_r in Hthrown. cbn in Hthrown.
        rewrite Hlast in Hthrown. by injection Hthrown.
      - exfalso.
        destruct He as [[Hnone _]|Hthrown]; [rewrite Hnone in Hprov; by destruct Hprov|].
        rewrite !generations_app, Hq1, Hqc, Hqr, !app_nil_r in Hthrown.
        cbn in Hthrown. rewrite Hlast in Hthrown. cbn in Hthrown.
        injection Hthrown as Hthrown. by rewrite Hthrown in Hasks. }
    split; [done|]. split; [by rewrite Hc4, Hc3|]. split.
    { rewrite Hti4, Hti3. subst s2 typingInterval; cbn.
      destruct (sendTyping connector); [by apply filter_fresh_timer|by rewrite app_nil_r]. }
    exists (typing ++ e3 ++ cleared), report. split; [by rewrite <- !app_assoc|].
    exact Hreport.
Qed.

Lemma send_reply_run (entry : InstanceEntry W) (connector : Connector W)
    (message : Message) (result : GenerateWithToolsResult) (s : State W) :
  (send_reply entry connector message result s).1 = Returns tt
  \/ exists e reply w,
       send_reply entry connector message result s
       = (Throws e, with_world w [EvSendMessage (obj (plugin entry)) reply (Throws e)] s)
       /\ sm_channelId reply = m_channelId message
       /\ sm_replyTo reply = Some (m_id message)
       /\ sm_content reply = r_content (response result).
Proof.
  unfold send_reply. destruct (sendMessage connector) as [sendMessage_|]; [|by left].
  unfold call. destruct (sendMessage_ _ (world s)) as [[[]|e] w] eqn:Hsend; cbn; [by left|].
  right. by eexists e, _, w.
Qed.

Lemma user_content_verbatim (message : Message) :
  Forall (fun att => is_image att = false) (default [] (m_attachments message)) ->
  user_content message = m_content message.
Proof.
  unfold user_content. destruct (m_attachments message) as [atts|]; [|done]. cbn.
  intros Hall.
  replace (filter (fun a => is_image a = true) atts) with (@nil Attachment); [done|].
  symmetry. induction Hall as [|att atts Hatt Hall IH]; [done|].
  rewrite filter_cons_False by (by rewrite Hatt). exact IH.
Qed.

(** What the Model is shown for an inbound message.  For an enabled
    connector bound to a configured assistant whose provider resolves,
    the calls recorded before the first Model call are those that start the
    typing heartbeat and no other: one typing indicator on the channel of
    the message and the timer that repeats it when the connector can show
    typing, nothing at all when it cannot (no message has been sent, no
    tool code has run).  That call receives: first a system message with the
    trimmed system prompt of the assistant (an empty one when there is no
    prompt), then the last 30 messages cached for the channel, then the
    user's message; the tools are those of the assistant (none when it has
    none), no temperature and no token limit are set.  A message without
    image attachments reaches the Model verbatim. *)
Theorem connector_history_sent_to_model (entry : InstanceEntry W) (message : Message)
    (s : State W) (connector : Connector W) (a : AssistantRecord) (w : W)
    (provider : InstanceEntry W) (llm : LLM W) :
  enabled entry = true ->
  getConnector (plugin entry) = Some connector ->
  bound_assistant entry (world s) = (Some a, w) ->
  plugins s !! a_llmProvider a = Some provider ->
  enabled provider = true ->
  getLLM (plugin provider) = Some llm ->
  let run := handleConnectorMessage entry message s in
  let key := id entry +:+ ":" +:+ m_channelId message in
  let cached := default [] (connectorConversationCache s !! key) in
  let resolved := getToolsForActionIds (plugins s) (a_tools a) in
  let said (r : Role) (text : string) :=
    {| role := r; content := Some text; images := None; toolCallId := None;
       toolName := None; toolUses := None |} in
  (exists typing r rest,
     generations typing = []
     /\ match sendTyping connector with
        | Some _ =>
          exists sent,
            typing = [EvSendTyping (obj (plugin entry)) (m_channelId message) sent;
                      EvSetInterval (next_timer s)]
        | None => typing = []
        end
     /\ trace run.2
        = trace s ++ typing
          ++ EvGenerate (obj (plugin provider)) (a_llmModel a)
               (said system (default "" (String_trim <$> a_systemPrompt a))
                  :: slice_last 30 cached ++ [said user (user_content message)])
               (Some {| g_temperature := None; g_maxTokens := None;
                        g_tools := if bool_decide (0 < length (tools resolved))%nat
                                   then Some (tools resolved) else None |}) r :: rest)
  /\ (Forall (fun att => is_image att = false) (default [] (m_attachments message)) ->
      user_content message = m_content message).
Proof.
  intros Hon Hconn Hbound Hprov Hpon Hllm run key cached resolved said.
  split; [|apply user_content_verbatim].
  subst run. rewrite (handleConnectorMessage_bound _ _ _ _ Hon Hconn), Hbound.
  destruct (converse_run entry connector message a (in_world w s))
    as (w1 & typing & Hq1 & Hshape & Hrun). cbn zeta in Hrun. rewrite Hrun. clear Hrun.
  cbn [in_world plugins arrays connectorConversationCache timers next_timer trace world].
  fold key resolved. set (s2 := {| world := w1; plugins := plugins s |}).
  set (context := {| c_userId := m_userId message |}).
  assert (Hsys : system_content a = default "" (String_trim <$> a_systemPrompt a)).
  { unfold system_content. destruct (a_systemPrompt a) as [p|]; [|done]. cbn.
    by destruct (String_trim p). }
  destruct (generateWithTools_first_call (plugins s) (a_llmProvider a) (a_llmModel a)
              (length (arrays s)) (tools resolved) (nameToInstanceId resolved)
              context None s2 provider llm Hprov Hpon Hllm) as (r & rest & Hfirst).
  replace (default [] (arrays s2 !! length (arrays s)))
    with (said system (default "" (String_trim <$> a_systemPrompt a))
            :: slice_last 30 cached ++ [said user (user_content message)]) in Hfirst.
  2: { subst s2; cbn. rewrite list_lookup_middle by done. cbn.
       by rewrite cap_messages_slice, <- Hsys. }
  destruct (generateWithTools _ _ _ _ _ _ _ _ s2) as [[result|e] s4]; cbn in Hfirst.
  - destruct (reply_and_store_run entry connector message key
                (plain_message user (user_content message)) result s4)
      as (_ & _ & e4 & Ht4 & _).
    exists typing, r, (rest ++ e4). split; [done|]. split; [done|].
    rewrite Ht4, Hfirst. subst s2; cbn. by rewrite <- !app_assoc.
  - destruct (reply_error_run entry connector message
                (match sendTyping connector with
                 | Some _ => Some (next_timer s)
                 | None => None
                 end) e s4) as (s5 & report & Hrun & _ & _ & Ht5 & _).
    rewrite Hrun. cbn. eexists typing, r, (rest ++ _). split; [done|]. split; [done|].
    rewrite Ht5, Hfirst. subst s2; cbn. by rewrite <- !app_assoc.
Qed.

(** The handler rejects only when the reply cannot be delivered.  Typing
    indicators, the notice for a missing assistant, the error report of a
    failed generation and the persistence of the conversation may all fail
    without the handler failing.  When the handler does reject with [e],
    its last act was the [sendMessage] of the Model's final answer, in
    reply to the message, rejected with that very [e]; the exchange is then
    not remembered: the context cache is what it was. *)
Theorem connector_handler_rejects_only_on_delivery (entry : InstanceEntry W)
    (message : Message) (s : State W) (e : Thrown) :
  let run := handleConnectorMessage entry message s in
  run.1 = Throws e ->
  connectorConversationCache run.2 = connectorConversationCache s
  /\ exists evs reply response_,
       trace run.2 = trace s ++ evs
       /\ last evs = Some (EvSendMessage (obj (plugin entry)) reply (Throws e))
       /\ sm_channelId reply = m_channelId message
       /\ sm_replyTo reply = Some (m_id message)
       /\ gen_result <$> last (generations evs) = Some (Returns response_)
       /\ sm_content reply = r_content response_.
Proof.
  intros run Hthrow. subst run.
  destruct (enabled entry) eqn:Hon.
  2: { unfold handleConnectorMessage in Hthrow. by rewrite Hon in Hthrow. }
  destruct (getConnector (plugin entry)) as [connector|] eqn:Hconn.
  2: { unfold handleConnectorMessage in Hthrow. by rewrite Hon, Hconn in Hthrow. }
  rewrite (handleConnectorMessage_bound _ _ _ _ Hon Hconn) in Hthrow |- *.
  destruct (bound_assistant entry (world s)) as [[a|] w].
  2: { destruct (sendMessage connector) as [sendMessage_|]; [|done].
       unfold try_catch, call, ret in Hthrow; cbn in Hthrow.
       by destruct (sendMessage_ _ w) as [[[]|?] ?]. }
  destruct (converse_run entry connector message a (in_world w s))
    as (w1 & typing & Hq1 & _ & Hrun). cbn zeta in Hrun. rewrite Hrun in Hthrow |- *. clear Hrun.
  cbn [in_world plugins arrays connectorConversationCache timers next_timer trace world]
    in Hthrow |- *.
  set (s2 := {| world := w1; plugins := plugins s |}) in *.
  set (resolved := getToolsForActionIds (plugins s) (a_tools a)) in *.
  set (context := {| c_userId := m_userId message |}) in *.
  destruct (generateWithTools_thrown (plugins s) (a_llmProvider a) (a_llmModel a)
              (length (arrays s)) (tools resolved) (nameToInstanceId resolved)
              context None s2) as (e3 & Ht3 & Hout).
  pose proof (generateWithTools_core (plugins s) (a_llmProvider a) (a_llmModel a)
              (length (arrays s)) (tools resolved) (nameToInstanceId resolved)
              context None s2) as (_ & Hc3 & _).
  destruct (generateWithTools _ _ _ _ _ _ _ _ s2) as [[result|e'] s3];
    cbn in Ht3, Hout, Hc3.
  2: { destruct (reply_error_run entry connector message
                   (match sendTyping connector with
                    | Some _ => Some (next_timer s)
                    | None => None
                    end) e' s3) as (s4 & report & Hrun & _).
       by rewrite Hrun in Hthrow. }
  destruct Hout as [_ Hlast].
  set (key := id entry +:+ ":" +:+ m_channelId message) in *.
  set (u := plain_message user (user_content message)) in *.
  destruct (reply_and_store_run entry connector message key u result s3) as (Hr & _).
  destruct (send_reply_run entry connector message result s3)
    as [Hsent | (e0 & reply & w4 & Hsent & Hch & Hto & Hcontent)].
  { rewrite Hsent in Hr. destruct Hr as [Hr _]. by rewrite Hr in Hthrow. }
  unfold reply_and_store, bind in Hthrow |- *. rewrite Hsent in Hthrow |- *.
  cbn in Hthrow |- *. injection Hthrow as ->.
  split; [by rewrite Hc3|].
  exists (typing ++ e3 ++ [EvSendMessage (obj (plugin entry)) reply (Throws e)]),
         reply, (response result).
  split. { rewrite Ht3. subst s2; cbn. by rewrite <- !app_assoc. }
  split; [by rewrite !app_assoc, last_snoc|].
  split; [done|]. split; [done|].
  split; [|done].
  rewrite !generations_app, Hq1. cbn. by rewrite app_nil_r.
Qed.

(** ** Automations *)

Lemma find_instance (l : list (string * InstanceEntry W)) (instances : list PluginInstance)
    (instanceId : string) :
  Forall2 describes l.*2 instances ->
  (forall key entry, (key, entry) ∈ l -> id entry = key) ->
  match entries_get instanceId l, find (fun i => String.eqb (pi_id i) instanceId) instances with
  | Some entry, Some instance => describes entry instance
  | None, None => True
  | _, _ => False
  end.
Proof.
  revert instances. induction l as [|[k e] l IH]; intros instances Hall Hkeys.
  - apply Forall2_nil_inv_l in Hall as ->. done.
  - cbn in Hall. apply Forall2_cons_inv_l in Hall as (i & rest & Hd & Hall & ->).
    cbn. destruct Hd as (Hid & Hrest).
    assert (Hk : id e = k) by (apply Hkeys; left).
    rewrite Hid, Hk. destruct (String.eqb k instanceId); [by split|].
    apply IH; [done|]. intros key entry Hin. apply Hkeys. by right.
Qed.

Lemma index_tools_schemas (instanceId : string) (declared : list (ToolWithHandler W))
    (index : gmap string string) :
  foldl (fun m t => <[t_name t := instanceId]> m) index (toTools declared)
  = index_tools instanceId declared index.
Proof.
  unfold index_tools, toTools, toTool. revert index.
  induction declared as [|t ts IH]; intros index; [done|]. cbn. apply IH.
Qed.

(** The scheduler resolves tools as the plugin manager does.  The loop of
    [executeAutomation], which reads the instance descriptions returned by
    [getAllInstances], yields for every list of tool ids the very tools, in
    the same order, and the very reverse index that [getToolsForActionIds]
    yields on the registry, as long as the descriptions describe the
    registry and each entry is registered under its own id. *)
Theorem automation_tools_agree (registry : JsMap (InstanceEntry W))
    (instances : list PluginInstance) (toolIds : list string) :
  keyed_by_id registry ->
  Forall2 describes (entries registry).*2 instances ->
  automationTools instances toolIds = getToolsForActionIds registry toolIds.
Proof.
  intros Hkeys Hall. unfold automationTools, getToolsForActionIds.
  generalize ({| tools := []; nameToInstanceId := ∅ |}).
  induction toolIds as [|i ids IH]; intros acc; [done|]. cbn [foldl].
  rewrite IH. f_equal.
  pose proof (find_instance (entries registry) instances i Hall Hkeys) as Hfind.
  unfold addInstanceTools, addToolsOf, lookup, JsMap_lookup.
  destruct (entries_get i (entries registry)) as [entry|],
           (find _ instances) as [instance|]; try done.
  destruct Hfind as (_ & -> & ->).
  destruct (enabled entry); cbn; [|done].
  destruct (getTools (plugin entry)) as [declared|]; cbn; [|done].
  by rewrite index_tools_schemas.
Qed.

(** The execution history of an automation is a bounded window with the
    newest execution first.  [addExecution] stores the new execution
    followed by the earlier ones, cut to [maxExecutions] entries (10 when
    the automation sets no limit): the stored list is a prefix of that
    sequence and is never longer than the limit.  With a limit of at least
    1 the new execution is kept, at the head; with a limit of 0 nothing is
    kept, not even the new execution; a negative limit drops that many of
    the oldest entries instead. *)
Theorem addExecution_keeps_a_window (automation : AutomationRecord)
    (execution : AutomationExecution) :
  let limit := default 10%Z (au_maxExecutions automation) in
  let history := execution :: default [] (au_executions automation) in
  let stored := newExecutions automation execution in
  stored `prefix_of` history
  /\ ((0 <= limit)%Z ->
      stored = take (Z.to_nat limit) history
      /\ (Z.of_nat (length stored) <= limit)%Z)
  /\ ((1 <= limit)%Z -> head stored = Some execution)
  /\ (limit = 0%Z -> stored = [])
  /\ ((limit < 0)%Z -> stored = take (length history - Z.to_nat (- limit)) history).
Proof.
  cbn zeta. unfold newExecutions, slice_to, DEFAULT_MAX_EXECUTIONS.
  set (limit := default 10%Z (au_maxExecutions automation)).
  set (history := execution :: default [] (au_executions automation)).
  split; [destruct (limit <? 0)%Z; apply prefix_take|].
  split.
  { intros Hpos. destruct (Z.ltb_spec limit 0); [lia|]. split; [done|].
    rewrite length_take. lia. }
  split.
  { intros Hpos. destruct (Z.ltb_spec limit 0); [lia|].
    destruct (Z.to_nat limit) as [|n] eqn:Hn; [lia|]. done. }
  split.
  { intros ->. done. }
  intros Hneg. by destruct (Z.ltb_spec limit 0); [|lia].
Qed.

(** ** The table of cron jobs *)

Section JobTable.

Variable CronJob_valid : string -> bool.

Lemma filter_fst_elem_of {A} (l : list (nat * A)) (j0 j : nat) :
  j ∈ (filter (fun x : nat * A => x.1 <> j0) l).*1 <-> j ∈ l.*1 /\ j <> j0.
Proof.
  rewrite !list_elem_of_fmap. split.
  - intros ([j' a] & -> & Hin). apply list_elem_of_filter in Hin as [Hne Hin].
    split; [by exists (j', a)|done].
  - intros [([j' a] & -> & Hin) Hne]. exists (j', a). split; [done|].
    by apply list_elem_of_filter.
Qed.

Lemma filter_fst_NoDup {A} (l : list (nat * A)) (j0 : nat) :
  NoDup l.*1 -> NoDup (filter (fun x : nat * A => x.1 <> j0) l).*1.
Proof.
  intros Hnd. eapply sublist_NoDup; [exact Hnd|]. apply fmap_sublist, (sublist_filter _ l).
Qed.

Lemma empty_scheduler_consistent :
  jobs_consistent {| scheduledJobs := ∅; running := []; next_job := 0 |}.
Proof.
  split; cbn.
  - apply NoDup_nil_2.
  - apply NoDup_nil_2.
  - intros j. split; [by intros ?%elem_of_nil|by intros (? & ? & ? & _)].
  - by intros ? ? ? ? ?.
  - by intros ? ?%elem_of_nil.
Qed.

Lemma unscheduleAutomation_consistent (id : string) (s : Scheduler) :
  jobs_consistent s -> jobs_consistent (unscheduleAutomation id s).
Proof.
  intros [Hwf Hnd Hrun Hown Hfresh]. unfold unscheduleAutomation.
  destruct (scheduledJobs s !! id) as [scheduled|] eqn:Hid; [|done].
  split; cbn.
  - by apply wf_map_delete.
  - by apply filter_fst_NoDup.
  - intros j. rewrite filter_fst_elem_of, Hrun. split.
    + intros [(id' & sj & Hl & Hj) Hne]. exists id', sj. split; [|done].
      rewrite JsMap_lookup_delete_ne; [done|]. intros <-. rewrite Hid in Hl.
      injection Hl as <-. done.
    + intros (id' & sj & Hl & Hj).
      assert (Hne : id <> id').
      { intros <-. by rewrite JsMap_lookup_delete_eq in Hl. }
      rewrite JsMap_lookup_delete_ne in Hl by done.
      split; [by exists id', sj|]. intros ->. destruct Hne.
      by apply (Hown id id' scheduled sj).
  - intros id1 id2 sj1 sj2 H1 H2.
    assert (Hn1 : id <> id1) by (intros <-; by rewrite JsMap_lookup_delete_eq in H1).
    assert (Hn2 : id <> id2) by (intros <-; by rewrite JsMap_lookup_delete_eq in H2).
    rewrite JsMap_lookup_delete_ne in H1, H2 by done. by apply Hown.
  - intros j Hj. apply filter_fst_elem_of in Hj as [Hj _]. by apply Hfresh.
Qed.

Lemma unscheduleAutomation_lookup (id : string) (s : Scheduler) :
  wf_map (scheduledJobs s) ->
  scheduledJobs (unscheduleAutomation id s) !! id = None
  /\ forall other, other <> id ->
       scheduledJobs (unscheduleAutomation id s) !! other = scheduledJobs s !! other.
Proof.
  intros Hwf. unfold unscheduleAutomation.
  destruct (scheduledJobs s !! id) as [scheduled|] eqn:Hid; cbn.
  - split; [by apply JsMap_lookup_delete_eq|].
    intros other Hne. by apply JsMap_lookup_delete_ne.
  - by split.
Qed.

Lemma scheduleAutomation_consistent (automation : AutomationRecord) (s : Scheduler) :
  jobs_consistent s -> jobs_consistent (scheduleAutomation CronJob_valid automation s).
Proof.
  intros Hs. unfold scheduleAutomation.
  pose proof (unscheduleAutomation_consistent (au_id automation) s Hs) as Hs1.
  pose proof (unscheduleAutomation_lookup (au_id automation) s (jobs_wf _ Hs)) as [Hnone _].
  set (s1 := unscheduleAutomation (au_id automation) s) in *.
  destruct (au_enabled automation); cbn; [|done].
  destruct (CronJob_valid (au_cron automation)); [|done].
  destruct Hs1 as [Hwf Hnd Hrun Hown Hfresh].
  assert (Hnew : next_job s1 ∉ (running s1).*1).
  { intros Hin. apply Hfresh in Hin. lia. }
  split; cbn.
  - by apply wf_map_insert.
  - rewrite fmap_app. cbn. apply NoDup_app. split; [done|].
    split; [|apply NoDup_singleton].
    intros j Hj ->%list_elem_of_singleton. done.
  - intros j. rewrite fmap_app, elem_of_app. cbn. rewrite list_elem_of_singleton. split.
    + intros [Hj | ->].
      * apply Hrun in Hj as (id' & sj & Hl & Hj). exists id', sj. split; [|done].
        rewrite JsMap_lookup_insert_ne; [done|]. intros <-. by rewrite Hnone in Hl.
      * eexists _, _. split; [apply JsMap_lookup_insert_eq|done].
    + intros (id' & sj & Hl & Hj).
      destruct (decide (au_id automation = id')) as [<-|Hne].
      * rewrite JsMap_lookup_insert_eq in Hl. injection Hl as <-. by right.
      * rewrite JsMap_lookup_insert_ne in Hl by done. left. apply Hrun. by exists id', sj.
  - intros id1 id2 sj1 sj2 H1 H2 Hj.
    destruct (decide (au_id automation = id1)) as [<-|Hn1],
             (decide (au_id automation = id2)) as [<-|Hn2]; [done| | |].
    + rewrite JsMap_lookup_insert_eq in H1. injection H1 as <-.
      rewrite JsMap_lookup_insert_ne in H2 by done. cbn in Hj.
      destruct Hnew. apply Hrun. by exists id2, sj2.
    + rewrite JsMap_lookup_insert_eq in H2. injection H2 as <-.
      rewrite JsMap_lookup_insert_ne in H1 by done. cbn in Hj.
      destruct Hnew. apply Hrun. by exists id1, sj1.
    + rewrite JsMap_lookup_insert_ne in H1, H2 by done. by apply (Hown id1 id2 sj1 sj2).
  - intros j. rewrite fmap_app, elem_of_app. cbn. rewrite list_elem_of_singleton.
    intros [Hj | ->]; [apply Hfresh in Hj|]; lia.
Qed.

(** The scheduler never leaks a cron job.  An empty scheduler is
    consistent, and scheduling, unscheduling, the initial synchronisation
    and the handling of any realtime event keep it so: the cron jobs that
    are running are exactly the jobs held in the table [scheduledJobs], one
    per automation id, so no job keeps firing for an automation that was
    unscheduled or rescheduled. *)
Theorem scheduler_never_leaks_jobs (s : Scheduler) :
  jobs_consistent {| scheduledJobs := ∅; running := []; next_job := 0 |}
  /\ (jobs_consistent s ->
      (forall automation, jobs_consistent (scheduleAutomation CronJob_valid automation s))
      /\ (forall id, jobs_consistent (unscheduleAutomation id s))
      /\ (forall automations,
            jobs_consistent (initialSyncAutomations CronJob_valid automations s))
      /\ (forall action record,
            jobs_consistent (onAutomationEvent CronJob_valid action record s))).
Proof.
  split; [apply empty_scheduler_consistent|].
  intros Hs. split; [intros; by apply scheduleAutomation_consistent|].
  split; [intros; by apply unscheduleAutomation_consistent|].
  split.
  - intros automations. unfold initialSyncAutomations. revert s Hs.
    induction automations as [|a l IH]; intros s Hs; [done|]. cbn [foldl].
    apply IH. destruct (au_enabled a); [by apply scheduleAutomation_consistent|done].
  - intros action record. unfold onAutomationEvent.
    destruct record as [record|]; [|done].
    destruct (au_id record) as [|c rest] eqn:Hid; [done|].
    destruct (String.eqb action "create").
    { destruct (au_enabled record); [by apply scheduleAutomation_consistent|done]. }
    destruct (String.eqb action "delete"); [by apply unscheduleAutomation_consistent|].
    destruct (String.eqb action "update"); [by apply scheduleAutomation_consistent|done].
Qed.

(** What scheduling an automation does.  In a consistent scheduler,
    [scheduleAutomation] first stops and forgets the job the automation had,
    if any; it then starts a new job exactly when the automation is enabled
    and its cron expression is accepted.  Afterwards the automation either
    has one job, which executes the record just given, or none (disabled,
    or cron expression rejected: the old job is gone all the same); the old
    job no longer runs; and no other automation is affected. *)
Theorem scheduleAutomation_replaces_the_job (automation : AutomationRecord)
    (s : Scheduler) :
  jobs_consistent s ->
  let s' := scheduleAutomation CronJob_valid automation s in
  (if au_enabled automation && CronJob_valid (au_cron automation)
   then runs s' (au_id automation) automation
        /\ forall other, runs s' (au_id automation) other -> other = automation
   else scheduledJobs s' !! au_id automation = None)
  /\ (forall old, scheduledJobs s !! au_id automation = Some old ->
        job old ∉ (running s').*1)
  /\ (forall id, id <> au_id automation ->
        scheduledJobs s' !! id = scheduledJobs s !! id
        /\ forall a, runs s' id a <-> runs s id a).
Proof.
  intros Hs s'.
  pose proof (scheduleAutomation_consistent automation s Hs) as Hs'. fold s' in Hs'.
  pose proof (unscheduleAutomation_consistent (au_id automation) s Hs) as Hs1.
  pose proof (unscheduleAutomation_lookup (au_id automation) s (jobs_wf _ Hs))
    as [Hnone Hother].
  subst s'. unfold scheduleAutomation in *.
  set (s1 := unscheduleAutomation (au_id automation) s) in *.
  assert (Hold1 : forall old, scheduledJobs s !! au_id automation = Some old ->
            job old ∉ (running s1).*1).
  { intros old Hold Hin. apply (jobs_running _ Hs1) in Hin as (id' & sj & Hl & Hj).
    destruct (decide (id' = au_id automation)) as [->|Hne]; [by rewrite Hnone in Hl|].
    rewrite Hother in Hl by done. destruct Hne.
    by apply (jobs_own _ Hs id' (au_id automation) sj old). }
  assert (Hruns1 : forall id a, id <> au_id automation -> runs s1 id a <-> runs s id a).
  { intros id a Hne. unfold runs. rewrite Hother by done.
    split; intros (sj & Hl & Hid & Hin); exists sj; (split; [done|]); (split; [done|]).
    - subst s1. unfold unscheduleAutomation in Hin.
      destruct (scheduledJobs s !! au_id automation); [|done].
      cbn in Hin. by apply list_elem_of_filter in Hin as [_ Hin].
    - subst s1. unfold unscheduleAutomation.
      destruct (scheduledJobs s !! au_id automation) as [old|] eqn:Hold; [|done].
      cbn. apply list_elem_of_filter. split; [|done]. cbn. intros Heq. destruct Hne.
      by apply (jobs_own _ Hs id (au_id automation) sj old). }
  destruct (au_enabled automation); cbn [andb negb] in *.
  2: { split; [done|]. split; [done|]. intros id Hne. split; [by apply Hother|].
       intros a. by apply Hruns1. }
  destruct (CronJob_valid (au_cron automation)).
  2: { split; [done|]. split; [done|]. intros id Hne. split; [by apply Hother|].
       intros a. by apply Hruns1. }
  assert (Hnew : next_job s1 ∉ (running s1).*1).
  { intros Hin. apply (jobs_fresh _ Hs1) in Hin. lia. }
  split; [split|split].
  - eexists. cbn. split; [apply JsMap_lookup_insert_eq|]. split; [done|].
    cbn. apply elem_of_app. right. apply list_elem_of_here.
  - intros other (sj & Hl & _ & Hin). cbn in Hl, Hin.
    rewrite JsMap_lookup_insert_eq in Hl. injection Hl as <-. cbn in Hin.
    apply elem_of_app in Hin as [Hin|Hin].
    + destruct Hnew. apply list_elem_of_fmap. by exists (next_job s1, other).
    + apply list_elem_of_singleton in Hin. by injection Hin.
  - intros old Hold. cbn. rewrite fmap_app, elem_of_app. cbn.
    rewrite list_elem_of_singleton. intros [Hin | Heq]; [by apply (Hold1 old)|].
    pose proof (proj2 (jobs_running _ Hs (job old))
                  (ex_intro _ _ (ex_intro _ old (conj Hold eq_refl)))) as Hrunning.
    apply (jobs_fresh _ Hs) in Hrunning.
    assert (next_job s1 = next_job s) as Hn.
    { subst s1. unfold unscheduleAutomation. by destruct (scheduledJobs s !! _). }
    lia.
  - intros id Hne. cbn. rewrite JsMap_lookup_insert_ne by done.
    split; [by apply Hother|]. intros a. rewrite <- (Hruns1 id a Hne).
    unfold runs. cbn. rewrite JsMap_lookup_insert_ne by done.
    split; intros (sj & Hl & Hid & Hin); exists sj; (split; [done|]); (split; [done|]).
    + apply elem_of_app in Hin as [Hin|Hin]; [done|].
      apply list_elem_of_singleton in Hin. injection Hin as Hj _.
      destruct Hnew. apply (jobs_running _ Hs1). exists id, sj. by rewrite Hj.
    + apply elem_of_app. by left.
Qed.

End JobTable.

(** ** URLs and attachments *)

Lemma strip_trailing_slashes_spec (s : string) :
  exists n, s = strip_trailing_slashes s +:+ slashes n
            /\ ends_in_slash (strip_trailing_slashes s) = false.
Proof.
  induction s as [|c rest (n & Hrest & Hend)]; [by exists 0%nat|].
  cbn [strip_trailing_slashes].
  destruct (strip_trailing_slashes rest) as [|c' kept] eqn:Hkept.
  - destruct (Ascii.eqb_spec c "/") as [->|Hne].
    + exists (S n). split; [|done]. change (String "/" rest = String "/" (slashes n)).
      by rewrite Hrest at 1.
    + exists n. split; [|cbn; by apply Ascii.eqb_neq].
      change (String c rest = String c (slashes n)). by rewrite Hrest at 1.
  - exists n. split; [|done].
    change (String c rest = String c (String c' kept +:+ slashes n)).
    by rewrite Hrest at 1.
Qed.

Lemma includes_slash_cons (c : ascii) (s : string) :
  includes "/" (String c s) = Ascii.eqb c "/" || includes "/" s.
Proof.
  change (includes "/" (String c s))
    with (String.prefix "/" (String c s) || includes "/" s).
  f_equal. cbn [String.prefix].
  destruct (ascii_dec "/" c) as [<-|Hne]; [by destruct s|].
  symmetry. apply Ascii.eqb_neq. congruence.
Qed.

Lemma includes_slash_snoc (s : string) (c : ascii) :
  includes "/" s = false -> Ascii.eqb c "/" = false ->
  includes "/" (s +:+ String c EmptyString) = false.
Proof.
  intros Hs Hc. induction s as [|c0 s IH].
  - change (includes "/" (String c "") = false).
    rewrite includes_slash_cons, Hc. done.
  - change (includes "/" (String c0 (s +:+ String c "")) = false).
    rewrite includes_slash_cons in *. apply orb_false_iff in Hs as [H0 Hs].
    by rewrite H0, IH.
Qed.

Lemma last_segment_no_slash (path segment : string) :
  includes "/" segment = false -> includes "/" (last_segment path segment) = false.
Proof.
  revert segment. induction path as [|c rest IH]; intros segment Hs; cbn; [done|].
  destruct (Ascii.eqb c "/") eqn:Hc; [by apply IH|].
  apply IH. by apply includes_slash_snoc.
Qed.

Lemma includes_dot_nonempty (s : string) : includes_dot s = true -> s <> "".
Proof. by destruct s. Qed.

(** [normalizeUrl] removes the whole run of trailing slashes of the trimmed
    URL and nothing else: the trimmed URL is the result followed by slashes
    only, and the result does not end in a slash.  The default URL is never
    used: the result is always defined, so [?? defaultUrl] has no effect,
    also when the URL is empty. *)
Theorem normalizeUrl_strips_trailing_slashes (url : string) (defaultUrl : option string) :
  exists result n,
    normalizeUrl url defaultUrl = Some result
    /\ String_trim url = result +:+ slashes n
    /\ ends_in_slash result = false.
Proof.
  destruct (strip_trailing_slashes_spec (String_trim url)) as (n & Heq & Hend).
  by exists (strip_trailing_slashes (String_trim url)), n.
Qed.

(** The attachments of a connector reply.  Every attachment built from the
    tool usages is an image whose URL is a string of the [imageUrls] array
    of one of the tool outputs, and its filename is never empty: it is the
    [filename] query parameter of the URL when there is one, and otherwise
    a name without any slash (the last path segment when it has a dot,
    [image.png] when it has none or when the URL does not parse). *)
Theorem image_attachments_are_named_images (toolUsages : list ConversationToolUsage)
    (attachment : Attachment) :
  attachment ∈ image_attachments toolUsages ->
  att_type attachment = "image"
  /\ (exists usage urls,
        usage ∈ toolUsages
        /\ get_field "imageUrls" (u_output usage) = Some (VArr urls)
        /\ VStr (att_url attachment) ∈ urls)
  /\ att_filename attachment <> ""
  /\ match URL_parse (att_url attachment) ≫= url_filenameParam with
     | Some (String c rest) => att_filename attachment = String c rest
     | _ => includes "/" (att_filename attachment) = false
     end.
Proof.
  unfold image_attachments. intros Hin.
  apply list_elem_of_In, in_flat_map in Hin as (usage & Husage & Hin).
  apply list_elem_of_In in Husage, Hin.
  destruct (get_field "imageUrls" (u_output usage)) as [[| | | |urls|]|] eqn:Hfield;
    try by apply elem_of_nil in Hin.
  apply list_elem_of_omap in Hin as (v & Hv & Hsome).
  destruct v as [| | |url| |]; try discriminate. injection Hsome as <-. cbn.
  split; [done|]. split; [by exists usage, urls|].
  unfold image_filename. destruct (URL_parse url) as [urlObj|]; cbn; [|done].
  destruct (url_filenameParam urlObj) as [[|c rest]|]; [|done| ].
  - destruct (includes_dot _) eqn:Hdot; [|done].
    split; [by apply includes_dot_nonempty|]. by apply last_segment_no_slash.
  - destruct (includes_dot _) eqn:Hdot; [|done].
    split; [by apply includes_dot_nonempty|]. by apply last_segment_no_slash.
Qed.

End Properties.

(** * The statements at the test bench *)

Lemma scripted_never_throws : never_throws Bench.scripted.
Proof. intros model messages options w. cbn. destruct (Bench.script w); eauto. Qed.

Lemma insistent_never_throws : never_throws Bench.insistent.
Proof. intros model messages options w. cbn. eauto. Qed.

Lemma chat_always_delivers (o : nat) : always_delivers (Bench.chat_connector o).
Proof. intros send [= <-] options w. eauto. Qed.

(** The tools of the office return JSON data or throw an [Error]. *)
Lemma office_serialisable (llm : LLM Bench.World) (on : bool) :
  serialisable (MkJsMap (Bench.office llm on None)).
Proof.
  intros instanceId entry Hentry.
  unfold lookup, JsMap_lookup in Hentry. cbn [entries Bench.office entries_get] in Hentry.
  repeat match type of Hentry with
         | context [String.eqb ?a instanceId] => destruct (String.eqb a instanceId)
         end;
    try discriminate; injection Hentry as <-; (split; [|done]);
    intros declared t input context w [= <-]; cbn.
  intros Hin. repeat (apply elem_of_cons in Hin as [->|Hin]; [done|]).
  by apply elem_of_nil in Hin.
Qed.

(** A denied echo: the hook is asked, the handler is not run. *)
Lemma executeTool_approval_gate_witness :
  let s := Bench.state0 [] [] [] in
  executeTool "tools" (Bench.use "echo") Bench.context
    (MkJsMap (Bench.office Bench.scripted true (Some Bench.deny))) s
  = (Returns (Data (VObj [("error", VStr "Action was not approved")])),
     with_world (Bench.note "deny" (world s))
       [EvRequestApproval 3 (Bench.schema_of "echo") (VObj [("x", VNum 1)]) Bench.context
          (Returns false)] s).
Proof.
  exact (executeTool_approval_gate
           (MkJsMap (Bench.office Bench.scripted true (Some Bench.deny)))
           "tools" (Bench.use "echo") Bench.context
           (Bench.entry_of "tools" true
              (Bench.tools_plugin 3 [Bench.echo; Bench.boom] (Some Bench.deny)))
           [Bench.echo; Bench.boom] Bench.echo (Bench.state0 [] [] [])
           eq_refl eq_refl eq_refl).
Defined.

(** A Model that asks for a tool on every turn: eleven calls, the last
    one without tools, and its response is returned. *)
Lemma generateWithTools_terminates_witness :
  let run := generateWithTools "llm" "m1" 0 [Bench.schema_of "echo"]
               {[ "echo" := "tools" ]} Bench.context
               (MkJsMap (Bench.office Bench.insistent true None)) None
               (Bench.state0 [] [Bench.turn user "hi"] []) in
  exists evs result,
    trace run.2 = evs
    /\ run.1 = Returns result
    /\ (length (generations evs) <= 11)%nat
    /\ gen_result <$> last (generations evs) = Some (Returns (response result)).
Proof.
  intros run.
  destruct (generateWithTools_terminates
              (MkJsMap (Bench.office Bench.insistent true None)) "llm" "m1" 0
              [Bench.schema_of "echo"] {[ "echo" := "tools" ]} Bench.context None
              (Bench.state0 [] [Bench.turn user "hi"] [])
              (Bench.entry_of "llm" true (Bench.llm_plugin 2 Bench.insistent))
              Bench.insistent eq_refl eq_refl eq_refl)
    as (evs & Htrace & Hbound & _ & Htotal).
  destruct (Htotal insistent_never_throws (office_serialisable Bench.insistent true))
    as (result & Hreturns & Hlast & _).
  exists evs, result. repeat split; assumption.
Defined.

(** The caller's array is array 0 of the store. *)
Lemma generateWithTools_keeps_caller_messages_witness :
  arrays (generateWithTools "llm" "m1" 0 [Bench.schema_of "echo"]
            {[ "echo" := "tools" ]} Bench.context
            (MkJsMap (Bench.office Bench.insistent true None)) None
            (Bench.state0 [] [Bench.turn user "hi"] [])).2 !! 0%nat
  = Some [Bench.turn user "hi"].
Proof.
  apply (generateWithTools_keeps_caller_messages
           (MkJsMap (Bench.office Bench.insistent true None)) "llm" "m1" 0
           [Bench.schema_of "echo"] {[ "echo" := "tools" ]} Bench.context None
           (Bench.state0 [] [Bench.turn user "hi"] [])).
  cbn. lia.
Defined.

(** A tool that throws and a tool nobody declares. *)
Lemma tool_failures_are_isolated_witness :
  let index : gmap string string := {[ "boom" := "tools" ]} in
  let s := Bench.state0 [] [Bench.turn user "hi"]
             [Bench.asks_for "boom"; Bench.asks_for "nope"] in
  exists result s' evs added,
    generateWithTools "llm" "m1" 0 [Bench.schema_of "boom"] index Bench.context
      (MkJsMap (Bench.office Bench.scripted true None)) None s = (Returns result, s')
    /\ trace s' = trace s ++ evs
    /\ gen_result <$> last (generations evs) = Some (Returns (response result))
    /\ gen_messages <$> last (generations evs)
       = Some (default [] (arrays s !! 0%nat) ++ added)
    /\ u_toolName <$> toolUsages result = tu_name <$> requested (generations evs)
    /\ u_input <$> toolUsages result = tu_input <$> requested (generations evs)
    /\ filter is_tool_message added
       = zip_with usage_message (requested (generations evs)) (toolUsages result).
Proof.
  intros index s.
  exact (proj2 (tool_failures_are_isolated
           (MkJsMap (Bench.office Bench.scripted true None)) "llm" "m1" 0
           [Bench.schema_of "boom"] index Bench.context None s
           (Bench.entry_of "llm" true (Bench.llm_plugin 2 Bench.scripted))
           Bench.scripted eq_refl eq_refl eq_refl scripted_never_throws
           (office_serialisable Bench.scripted true))).
Defined.


(** No instance declares a tool: the provider is asked once, plainly. *)
Lemma generateWithProvider_falls_back_on_registry_tools_witness :
  let s := Bench.state0 [("llm", Bench.entry_of "llm" true (Bench.llm_plugin 2 Bench.scripted))]
             [Bench.turn user "hi"] [] in
  exists r w,
    generate Bench.scripted "m1" [Bench.turn user "hi"] None (world s) = (r, w)
    /\ generateWithProvider "llm" "m1" 0 None s
       = (r, with_world w [EvGenerate 2 "m1" [Bench.turn user "hi"] None r] s)
    /\ plain_generation [EvGenerate 2 "m1" [Bench.turn user "hi"] None r].
Proof.
  intros s.
  exact (generateWithProvider_falls_back_on_registry_tools "llm" "m1" 0 None s
           (Bench.entry_of "llm" true (Bench.llm_plugin 2 Bench.scripted))
           Bench.scripted eq_refl eq_refl eq_refl eq_refl eq_refl).
Defined.

Lemma full_cache_bounded : cache_bounded Bench.full_cache.
Proof.
  intros key l. unfold Bench.full_cache.
  intros [<- <-]%lookup_singleton_Some. by rewrite length_fmap, length_seq.
Qed.


(** The reverse index resolved at the two libraries sends ["search"] to
    an enabled instance. *)
Lemma disabled_instances_are_not_selected_witness :
  exists entry,
    MkJsMap Bench.libraries !! "b" = Some entry /\ enabled entry = true.
Proof.
  apply (proj1 (disabled_instances_are_not_selected (MkJsMap Bench.libraries)
                  ["a"; "b"; "c"]) "search" "b").
  vm_compute. reflexivity.
Defined.

(** The two libraries, the disabled third and an id that is not
    registered: the schemas of [a] and of [b] in that order, ["search"]
    twice, and ["search"] is sent to [b], the later of its two providers. *)
Lemma getToolsForActionIds_resolution_witness :
  let resolved := getToolsForActionIds (MkJsMap Bench.libraries) ["a"; "b"; "c"; "zz"] in
  tools resolved
  = [Bench.schema_of "search"; Bench.schema_of "search"; Bench.schema_of "echo"]
  /\ nameToInstanceId resolved !! "search" = Some "b"
  /\ nameToInstanceId resolved !! "echo" = Some "b"
  /\ nameToInstanceId resolved !! "boom" = None.
Proof.
  intros resolved.
  destruct (getToolsForActionIds_resolution (MkJsMap Bench.libraries)
              ["a"; "b"; "c"; "zz"]) as [Htools Hindex].
  fold resolved in Htools, Hindex.
  split; [exact Htools|].
  rewrite !Hindex. vm_compute. repeat split.
Defined.

(** ** The registry, the chat service, the handler and the scheduler *)

Lemma libraries_wf : wf_map (MkJsMap Bench.libraries).
Proof. unfold wf_map. cbn. apply (bool_decide_unpack _). vm_compute. exact I. Qed.

Lemma office_wf (llm : LLM Bench.World) (on : bool)
    (hook : option (ToolWithHandler Bench.World -> Value -> ToolContext -> Ext Bench.World bool)) :
  wf_map (MkJsMap (Bench.office llm on hook)).
Proof. unfold wf_map. cbn. apply (bool_decide_unpack _). vm_compute. exact I. Qed.

(** The index still names ["gone"], which the instance no longer declares. *)
Lemma stale_index_is_reported_witness :
  let toolUse := Bench.use "gone" in
  let s := Bench.state0 [] [] [] in
  exists usage s1,
    runToolUse {[ "gone" := "tools" ]} Bench.context
      (MkJsMap (Bench.office Bench.scripted true None)) 0 toolUse s = (Returns usage, s1)
    /\ trace s1 = trace s
    /\ world s1 = world s
    /\ u_error usage = Some "Tool not found: gone"
    /\ u_output usage
       = Data (VObj [("success", VBool false); ("error", VStr "Tool not found: gone");
                     ("message", VStr (technical_error toolUse))]).
Proof.
  intros toolUse s.
  apply (stale_index_is_reported {[ "gone" := "tools" ]} Bench.context
           (MkJsMap (Bench.office Bench.scripted true None)) 0 toolUse "tools" s).
  - reflexivity.
  - discriminate.
  - reflexivity.
Defined.

(** Of the two libraries and the disabled third, the enabled two are listed. *)
Lemma getAllEnabledPluginWithToolIds_spec_witness :
  let ids := getAllEnabledPluginWithToolIds (MkJsMap Bench.libraries) in
  NoDup ids
  /\ ids `sublist_of` ["a"; "b"; "c"]
  /\ forall instanceId,
       instanceId ∈ ids <->
       exists entry, MkJsMap Bench.libraries !! instanceId = Some entry
                     /\ enabled entry = true /\ is_Some (getTools (plugin entry)).
Proof. exact (getAllEnabledPluginWithToolIds_spec (MkJsMap Bench.libraries) libraries_wf). Defined.

(** The fallback tools of the libraries: the tools of [a], then of [b]. *)
Lemma fallback_tools_cover_the_registry_witness :
  tools (getToolsForActionIds (MkJsMap Bench.libraries)
           (getAllEnabledPluginWithToolIds (MkJsMap Bench.libraries)))
  = [Bench.schema_of "search"; Bench.schema_of "search"; Bench.schema_of "echo"].
Proof. exact (fallback_tools_cover_the_registry (MkJsMap Bench.libraries) libraries_wf). Defined.

(** The tool provider of the office is unloaded. *)
Lemma unloadPlugin_removes_instance_witness :
  let s := Bench.state0 (Bench.office Bench.scripted true None) [] [] in
  let run := unloadPlugin "tools" s in
  plugins run.2 !! "tools" = None
  /\ (forall other, other <> "tools" -> plugins run.2 !! other = plugins s !! other)
  /\ wf_map (plugins run.2)
  /\ trace run.2 = [EvShutdown 3 (Returns tt)].
Proof.
  intros s.
  exact (unloadPlugin_removes_instance "tools" s (office_wf Bench.scripted true None) eq_refl).
Defined.

(** A plugin that refuses to shut down stays registered. *)
Lemma unloadPlugin_failure_keeps_instance_witness :
  let s := Bench.state0 [("stuck", Bench.entry_of "stuck" true (Bench.stuck_plugin 7))] [] [] in
  let run := unloadPlugin "stuck" s in
  plugins run.2 = plugins s
  /\ exists entry evs,
       plugins s !! "stuck" = Some entry
       /\ trace run.2 = trace s ++ evs
       /\ (evs = [EvDisconnect (obj (plugin entry)) (Throws (ErrorObj "busy"))]
           \/ evs = disconnection (world s) (plugin entry)
                    ++ [EvShutdown (obj (plugin entry)) (Throws (ErrorObj "busy"))]).
Proof.
  intros s.
  exact (unloadPlugin_failure_keeps_instance "stuck" s (ErrorObj "busy") eq_refl).
Defined.

(** A second echo provider is added under a fresh id. *)
Lemma addPlugin_registers_fresh_instance_witness :
  let s := Bench.state0 (Bench.office Bench.scripted true None) [] [] in
  let run := addPlugin "echo" (VObj []) (Some "echo-2") s in
  exists instance,
    run.1 = Returns instance
    /\ (entries (plugins run.2)).*1 = ["chat"; "llm"; "tools"; "echo-2"]
    /\ pi_id instance = "echo-2"
    /\ pi_name instance = "Echo"
    /\ pi_enabled instance = true
    /\ pi_tools instance = Some [Bench.schema_of "echo"].
Proof.
  intros s run.
  assert (Hcatalog : find (fun e => String.eqb (ce_type e) "echo")
                       (getExternalCatalogEntries (world s))
                     = Some {| ce_type := "echo"; ce_name := "Echo" |}) by reflexivity.
  destruct (addPlugin_registers_fresh_instance "echo" (VObj []) "echo-2" s
              {| ce_type := "echo"; ce_name := "Echo" |} Hcatalog eq_refl)
    as (instance & w2 & Hrun & Hid & Hname & Hon & Htools).
  exists instance. subst run. rewrite Hrun. done.
Defined.

(** A type the catalog does not list. *)
Lemma addPlugin_failure_modes_witness :
  let s := Bench.state0 (Bench.office Bench.scripted true None) [] [] in
  let run := addPlugin "fax" (VObj []) None s in
  exists evs,
    trace run.2 = trace s ++ evs
    /\ ((find (fun c => String.eqb (ce_type c) "fax") (getExternalCatalogEntries (world s))
           = None
         /\ ErrorObj "Plugin not found in catalog: fax"
            = ErrorObj ("Plugin not found in catalog: " +:+ "fax")
         /\ run.2 = s)
        \/ (exists old,
              plugins s !! "fax-0" = Some old
              /\ plugins run.2 = plugins s
              /\ (evs = [EvDisconnect (obj (plugin old))
                           (Throws (ErrorObj "Plugin not found in catalog: fax"))]
                  \/ evs = disconnection (world s) (plugin old)
                           ++ [EvShutdown (obj (plugin old))
                                 (Throws (ErrorObj "Plugin not found in catalog: fax"))]))
        \/ (plugins run.2 = delete "fax-0" (plugins s)
            /\ last evs = Some (EvLoadPlugin "fax" (VObj [])
                                  (Throws (ErrorObj "Plugin not found in catalog: fax"))))).
Proof.
  intros s.
  exact (addPlugin_failure_modes "fax" (VObj []) None s
           (ErrorObj "Plugin not found in catalog: fax") eq_refl).
Defined.

(** Disabling and enabling the tool provider again. *)
Lemma toggleEnabled_twice_witness :
  let s := Bench.state0 (Bench.office Bench.scripted true None) [] [] in
  toggleEnabled "tools" (toggleEnabled "tools" s).2 = (Returns tt, s).
Proof.
  intros s. apply (toggleEnabled_twice "tools" s). by eexists.
Defined.

(** Once [b] is disabled, ["search"] resolves to [a] and ["echo"] is gone. *)
Lemma toggleEnabled_withdraws_tools_witness :
  let s := Bench.state0 Bench.libraries [] [] in
  getToolsForActionIds (plugins (toggleEnabled "b" s).2) ["a"; "b"; "c"]
  = getToolsForActionIds (plugins s) ["a"; "c"].
Proof.
  intros s.
  exact (toggleEnabled_withdraws_tools "b" s
           (Bench.entry_of "b" true
              (Bench.tools_plugin 5 [Bench.search "from b"; Bench.echo] None))
           ["a"; "b"; "c"] eq_refl eq_refl).
Defined.

(** The echo provider is given a new configuration. *)
Lemma configurePlugin_outcomes_witness :
  let s := Bench.state0 [("echo", Bench.entry_of "echo" true (Bench.tools_plugin 7 [Bench.echo] None))]
             [] [] in
  let run := configurePlugin "echo" (VObj [("mode", VStr "loud")]) s in
  exists evs,
    trace run.2 = trace s ++ evs
    /\ exists p,
         evs = [EvShutdown 7 (Returns tt);
                EvLoadPlugin "echo" (VObj [("mode", VStr "loud")]) (Returns (obj p))]
               ++ wiring p
         /\ plugins run.2 !! "echo"
            = Some {| id := "echo"; type := "echo"; name := "echo";
                      config := VObj [("mode", VStr "loud")]; enabled := true;
                      plugin := p |}.
Proof.
  intros s.
  exact (configurePlugin_outcomes "echo" (VObj [("mode", VStr "loud")]) s
           (Bench.entry_of "echo" true (Bench.tools_plugin 7 [Bench.echo] None)) eq_refl).
Defined.

(** The assistant of the bench has no system prompt: the provider is
    called with the caller's history and the tools of [tools]. *)
Lemma generateWithAssistant_first_call_witness :
  let s := Bench.state0 (Bench.office Bench.scripted true None) [Bench.turn user "hi"] [] in
  let run := generateWithAssistant "a1" 0 None s in
  (exists r rest,
     trace run.2
     = EvGenerate 2 "m1" [Bench.turn user "hi"]
         (Some {| g_temperature := None; g_maxTokens := None;
                  g_tools := Some [Bench.schema_of "echo"; Bench.schema_of "boom"] |}) r
       :: rest)
  /\ arrays run.2 !! 0%nat = Some [Bench.turn user "hi"].
Proof.
  intros s run.
  destruct (generateWithAssistant_first_call "a1" 0 None s
              {| a_id := "a1"; a_llmProvider := "llm"; a_llmModel := "m1";
                 a_systemPrompt := None; a_tools := ["tools"] |}
              (world s)
              (Bench.entry_of "llm" true (Bench.llm_plugin 2 Bench.scripted))
              Bench.scripted)
    as (Hfirst & _ & Hkept); try reflexivity; try discriminate.
  split; [exact Hfirst|]. apply Hkept. cbn. lia.
Defined.

(** A request for a provider that is not registered. *)
Lemma chatRoute_failure_statuses_witness :
  let body := {| b_assistantId := None; b_providerId := Some "fax"; b_model := Some "m1";
                 b_messages := Some [Bench.turn user "hi"]; b_temperature := None;
                 b_maxTokens := None |} in
  let s := Bench.state0 (Bench.office Bench.scripted true None) [] [] in
  let run := chatRoute body s in
  run.1 = Returns (Failure 404 "LLM provider not found") /\ trace run.2 = trace s.
Proof.
  intros body s.
  apply (chatRoute_failure_statuses body s [Bench.turn user "hi"]).
  - reflexivity.
  - discriminate.
Defined.

(** No plugin record is stored for the connector: the user is told. *)
Lemma connector_without_assistant_is_told_witness :
  let s := Bench.state0 (Bench.office Bench.scripted true None) [] [] in
  let run := handleConnectorMessage (R := Bench.unbound)
               (Bench.entry_of "chat" true (Bench.chat_plugin 1)) Bench.hello s in
  run.1 = Returns tt
  /\ connectorConversationCache run.2 = connectorConversationCache s
  /\ timers run.2 = timers s
  /\ exists evs,
       trace run.2 = trace s ++ evs
       /\ exists r,
            evs = [EvSendMessage 1
                     {| sm_channelId := "general";
                        sm_content :=
                          "No assistant is configured for this bot. Configure one in the web UI (Assistants page).";
                        sm_replyTo := Some "m1"; sm_attachments := None |} r].
Proof.
  intros s.
  exact (connector_without_assistant_is_told (R := Bench.unbound)
           (Bench.entry_of "chat" true (Bench.chat_plugin 1)) Bench.hello s
           (Bench.chat_connector 1) eq_refl eq_refl eq_refl).
Defined.

(** The backend of the assistant is down: the error is sent as a message
    and the heartbeat is stopped. *)
Lemma connector_failure_is_reported_witness :
  let s := Bench.state0 (Bench.office Bench.unreachable true None) [] [] in
  let run := handleConnectorMessage (Bench.entry_of "chat" true (Bench.chat_plugin 1))
               Bench.hello s in
  run.1 = Returns tt
  /\ connectorConversationCache run.2 = connectorConversationCache s
  /\ timers run.2 = timers s
  /\ exists before r,
       trace run.2
       = before ++ [EvSendMessage 1
                      {| sm_channelId := "general";
                         sm_content := "Error: upstream unavailable";
                         sm_replyTo := Some "m1"; sm_attachments := None |} r].
Proof.
  intros s run.
  destruct (connector_failure_is_reported
              (Bench.entry_of "chat" true (Bench.chat_plugin 1)) Bench.hello s
              (Bench.chat_connector 1)
              {| a_id := "a1"; a_llmProvider := "llm"; a_llmModel := "m1";
                 a_systemPrompt := None; a_tools := ["tools"] |} (world s))
    as (evs & Htrace & Hreport); try reflexivity.
  { apply not_elem_of_nil. }
  destruct (Hreport (ErrorObj "upstream unavailable"))
    as (Hreturns & Hcache & Htimers & before & report & Hevs & r & Hr).
  { right. fold run in Htrace. cbn in Htrace. subst evs. reflexivity. }
  split; [exact Hreturns|]. split; [exact Hcache|]. split; [exact Htimers|].
  exists before, r. fold run in Htrace. rewrite Htrace, Hevs, Hr. reflexivity.
Defined.

(** What the Model is sent for "hello" when the window is full: one
    typing indicator and its timer, then the call. *)
Lemma connector_history_sent_to_model_witness :
  let s := Bench.state_with_cache (Bench.office Bench.scripted true None) [] in
  let run := handleConnectorMessage (Bench.entry_of "chat" true (Bench.chat_plugin 1))
               Bench.hello s in
  exists sent r rest,
    trace run.2
    = [EvSendTyping 1 "general" sent; EvSetInterval 0]
      ++ EvGenerate 2 "m1"
           (Bench.turn system ""
              :: ((fun n : nat => Bench.turn user (pretty n)) <$> seq 0 30)
              ++ [Bench.turn user "hello"])
           (Some {| g_temperature := None; g_maxTokens := None;
                    g_tools := Some [Bench.schema_of "echo"; Bench.schema_of "boom"] |})
           r :: rest.
Proof.
  intros s run.
  set (a := {| a_id := "a1"; a_llmProvider := "llm"; a_llmModel := "m1";
               a_systemPrompt := None; a_tools := ["tools"] |}).
  assert (Hbound : bound_assistant (Bench.entry_of "chat" true (Bench.chat_plugin 1))
                     (world s) = (Some a, world s)) by reflexivity.
  assert (Hprovider : plugins s !! a_llmProvider a
                      = Some (Bench.entry_of "llm" true (Bench.llm_plugin 2 Bench.scripted)))
    by reflexivity.
  destruct (proj1 (connector_history_sent_to_model
              (Bench.entry_of "chat" true (Bench.chat_plugin 1)) Bench.hello s
              (Bench.chat_connector 1) a (world s)
              (Bench.entry_of "llm" true (Bench.llm_plugin 2 Bench.scripted))
              Bench.scripted eq_refl eq_refl Hbound Hprovider eq_refl eq_refl))
    as (typing & r & rest & _ & (sent & ->) & Htrace).
  exists sent, r, rest. exact Htrace.
Defined.

(** The reply cannot be delivered: the handler rejects with the
    connector's error and the exchange is not remembered. *)
Lemma connector_handler_rejects_only_on_delivery_witness :
  let s := Bench.state0
             [("chat", Bench.entry_of "chat" true (Bench.mute_plugin 1));
              ("llm", Bench.entry_of "llm" true (Bench.llm_plugin 2 Bench.scripted))] [] [] in
  let run := handleConnectorMessage (Bench.entry_of "chat" true (Bench.mute_plugin 1))
               Bench.hello s in
  connectorConversationCache run.2 = ∅
  /\ exists evs reply response_,
       trace run.2 = trace s ++ evs
       /\ last evs = Some (EvSendMessage 1 reply (Throws (ErrorObj "channel closed")))
       /\ sm_channelId reply = "general"
       /\ sm_replyTo reply = Some "m1"
       /\ gen_result <$> last (generations evs) = Some (Returns response_)
       /\ sm_content reply = r_content response_.
Proof.
  intros s.
  exact (connector_handler_rejects_only_on_delivery
           (Bench.entry_of "chat" true (Bench.mute_plugin 1)) Bench.hello s
           (ErrorObj "channel closed") eq_refl).
Defined.

Lemma libraries_keyed_by_id : keyed_by_id (MkJsMap Bench.libraries).
Proof.
  intros key entry Hin. cbn in Hin.
  repeat (apply elem_of_cons in Hin as [[= -> ->]|Hin]; [reflexivity|]).
  by apply elem_of_nil in Hin.
Qed.

(** The scheduler and the assistants resolve the tools of the libraries
    alike. *)
Lemma automation_tools_agree_witness :
  automationTools
    [Bench.listed "a" true (Some [Bench.schema_of "search"]);
     Bench.listed "b" true (Some [Bench.schema_of "search"; Bench.schema_of "echo"]);
     Bench.listed "c" false (Some [Bench.schema_of "boom"])]
    ["b"; "c"; "a"]
  = getToolsForActionIds (MkJsMap Bench.libraries) ["b"; "c"; "a"].
Proof.
  apply (automation_tools_agree (MkJsMap Bench.libraries)); [exact libraries_keyed_by_id|].
  repeat constructor.
Defined.

(** An image whose URL does not parse is called [image.png]. *)
Lemma image_attachments_are_named_images_witness :
  let attachment := {| att_type := "image"; att_url := "not a url";
                       att_filename := "image.png" |} in
  att_type attachment = "image"
  /\ (exists usage urls,
        usage ∈ [Bench.drawing "not a url"]
        /\ get_field "imageUrls" (u_output usage) = Some (VArr urls)
        /\ VStr (att_url attachment) ∈ urls)
  /\ att_filename attachment <> ""
  /\ includes "/" (att_filename attachment) = false.
Proof.
  intros attachment.
  assert (Hin : attachment ∈ image_attachments [Bench.drawing "not a url"])
    by apply list_elem_of_here.
  exact (image_attachments_are_named_images [Bench.drawing "not a url"] attachment Hin).
Defined.

(** The automation [daily] runs, then is updated to disabled: its job
    is stopped and forgotten. *)
Lemma scheduleAutomation_replaces_the_job_witness :
  let s := scheduleAutomation Bench.cron_ok (Bench.every_minute "daily" true)
             {| scheduledJobs := ∅; running := []; next_job := 0 |} in
  let s' := scheduleAutomation Bench.cron_ok (Bench.every_minute "daily" false) s in
  scheduledJobs s' !! "daily" = None
  /\ (forall old, scheduledJobs s !! "daily" = Some old -> job old ∉ (running s').*1)
  /\ (forall id, id <> "daily" ->
        scheduledJobs s' !! id = scheduledJobs s !! id
        /\ forall a, runs s' id a <-> runs s id a).
Proof.
  intros s.
  exact (scheduleAutomation_replaces_the_job Bench.cron_ok
           (Bench.every_minute "daily" false) s
           (scheduleAutomation_consistent Bench.cron_ok (Bench.every_minute "daily" true) _
              empty_scheduler_consistent)).
Defined.

(** ** Where the code departs from the specification *)

(** C1, on the code.  The Model asks for the tool ["count"], whose handler
    returns a BigInt, and would answer the next call.  The result is
    rendered by [JSON.stringify] after the [try] block (line 136), which
    throws: [generateWithTools] rejects with that [TypeError] (of message
    [why]) after one Model call and one handler call, and returns no
    result. *)
Theorem unserialisable_result_aborts_generation (why : string) :
  let registry := MkJsMap (Bench.lab why) in
  let s := Bench.state0 (Bench.lab why) [Bench.turn user "hi"] [Bench.asks_for "count"] in
  let run := generateWithTools "llm" "m1" 0 [Bench.schema_of "count"]
               {[ "count" := "tools" ]} Bench.context registry None s in
  never_throws Bench.scripted
  /\ run.1 = Throws (ErrorObj why)
  /\ trace run.2
     = [EvGenerate 2 "m1" [Bench.turn user "hi"]
          (Some {| g_temperature := None; g_maxTokens := None;
                   g_tools := Some [Bench.schema_of "count"] |})
          (Returns (Bench.asks_for "count"));
        EvHandler 3 (Bench.schema_of "count") (VObj [("x", VNum 1)]) Bench.context
          (Returns (Bench.bigint why))].
Proof. split; [exact scripted_never_throws|]. vm_compute. repeat split. Qed.

(** C2, on the code.  The handler of ["crash"] throws a value that is not
    an [Error], here a BigInt.  The exception is caught, but the [catch]
    block logs it with [logger.error] (line 125), which formats it with
    [JSON.stringify] and throws in turn: the loop body records no usage
    and pushes no tool message, and [generateWithTools] rejects with the
    [TypeError] (of message [why]) instead of returning a response of the
    Model.  The same happens, at line 136, for the tool ["count"] that
    returns the BigInt. *)
Theorem tool_failure_escapes_the_loop (why : string) :
  let registry := MkJsMap (Bench.lab why) in
  let s := Bench.state0 (Bench.lab why) [Bench.turn user "hi"] [Bench.asks_for "crash"] in
  let index : gmap string string := {[ "crash" := "tools"; "count" := "tools" ]} in
  let thrown := runToolUse index Bench.context registry 0 (Bench.use "crash") s in
  let returned := runToolUse index Bench.context registry 0 (Bench.use "count") s in
  let run := generateWithTools "llm" "m1" 0 [Bench.schema_of "crash"] index Bench.context
               registry None s in
  (thrown.1 = Throws (ErrorObj why)
   /\ trace thrown.2
      = [EvHandler 3 (Bench.schema_of "crash") (VObj [("x", VNum 1)]) Bench.context
           (Throws (Raised (Bench.bigint why)))]
   /\ arrays thrown.2 = arrays s)
  /\ (returned.1 = Throws (ErrorObj why)
      /\ trace returned.2
         = [EvHandler 3 (Bench.schema_of "count") (VObj [("x", VNum 1)]) Bench.context
              (Returns (Bench.bigint why))]
      /\ arrays returned.2 = arrays s)
  /\ run.1 = Throws (ErrorObj why)
  /\ trace run.2
     = [EvGenerate 2 "m1" [Bench.turn user "hi"]
          (Some {| g_temperature := None; g_maxTokens := None;
                   g_tools := Some [Bench.schema_of "crash"] |})
          (Returns (Bench.asks_for "crash"));
        EvHandler 3 (Bench.schema_of "crash") (VObj [("x", VNum 1)]) Bench.context
          (Throws (Raised (Bench.bigint why)))].
Proof. vm_compute. repeat split. Qed.

(** C3, on the code.  A chat connector with typing indicators receives
    "hello"; the Model answers at once.  The handler arms the heartbeat
    (timer 0), generates, replies and returns, and the timer is still
    armed: the success path never calls [stopTyping]. *)
Theorem typing_heartbeat_outlives_reply :
  let s := Bench.state0 (Bench.office Bench.scripted true None) [] [] in
  let run := handleConnectorMessage (Bench.entry_of "chat" true (Bench.chat_plugin 1))
               Bench.hello s in
  run.1 = Returns tt
  /\ trace run.2
     = [EvSendTyping 1 "general" (Returns tt);
        EvSetInterval 0;
        EvGenerate 2 "m1" [Bench.turn system ""; Bench.turn user "hello"]
          (Some {| g_temperature := None; g_maxTokens := None;
                   g_tools := Some [Bench.schema_of "echo"; Bench.schema_of "boom"] |})
          (Returns Bench.answer);
        EvSendMessage 1 {| sm_channelId := "general"; sm_content := "done";
                           sm_replyTo := Some "m1"; sm_attachments := None |}
          (Returns tt)]
  /\ timers run.2 = [0%nat].
Proof. vm_compute. repeat split. Qed.

(** On the failure path the same heartbeat is cancelled before the error
    is reported. *)
Lemma typing_heartbeat_cancelled_on_failure :
  let s := Bench.state0 (Bench.office Bench.unreachable true None) [] [] in
  let run := handleConnectorMessage (Bench.entry_of "chat" true (Bench.chat_plugin 1))
               Bench.hello s in
  run.1 = Returns tt
  /\ (exists before after,
        trace run.2 = before ++ EvClearInterval 0 :: after
        /\ EvSetInterval 0 ∈ before
        /\ Exists (fun ev => match ev with EvSendMessage _ _ _ => True | _ => False end) after)
  /\ timers run.2 = [].
Proof.
  vm_compute. split; [done|]. split; [|done].
  eexists [_; _; _], [_]. split; [reflexivity|]. split.
  - apply list_elem_of_further, list_elem_of_here.
  - by apply Exists_cons_hd.
Qed.

(** C7, as stated, fails: [executeTool] on an instance whose [enabled]
    flag is [false] does not consult the flag, and the handler runs. *)
Lemma executeTool_runs_disabled_instance :
  let registry := MkJsMap (Bench.office Bench.scripted false None) in
  let s := Bench.state0 [] [] [] in
  let run := executeTool "tools" (Bench.use "echo") Bench.context registry s in
  (enabled <$> registry !! "tools") = Some false
  /\ run.1 = Returns (Data (VObj [("x", VNum 1)]))
  /\ trace run.2
     = [EvHandler 3 (Bench.schema_of "echo") (VObj [("x", VNum 1)]) Bench.context
          (Returns (Data (VObj [("x", VNum 1)])))]
  /\ Bench.calls (world run.2) = ["echo"].
Proof. vm_compute. repeat split. Qed.

(** C8, as stated, fails: called with no options at all, the provider
    entry point sends the registry's tool schemas to the Model and runs
    the handler of the tool the Model asks for. *)
Lemma generateWithProvider_not_plain :
  let s := Bench.state0 (Bench.office Bench.scripted true None) [Bench.turn user "hi"]
             [Bench.asks_for "echo"] in
  let run := generateWithProvider "llm" "m1" 0 None s in
  run.1 = Returns Bench.answer
  /\ ~ plain_generation (trace run.2).
Proof.
  split; [by vm_compute|].
  intros [_ Hnone]. vm_compute in Hnone. discriminate.
Qed.
